(** * NIFTY gamma-strangle engine: indicators and strategy orchestrator

    A shallow embedding of [backend/core/indicators.py] and
    [backend/core/strategy.py].

    Numbers.  Python [float]s are read as exact rationals ([Q]); the
    transcendental functions of [math] and [scipy.stats.norm] are not part of
    the repository and are taken through the interface [MathLib].  Python
    [int]s are [Z].  Equality of prices is [Qeq] ([==]).

    Effects.  The orchestrator mutates one object; its methods are state
    transformers over [State] that finish in one of three ways: they return,
    they raise, or they block on the (non re-entrant) ledger lock. *)

From Stdlib Require Import ZArith QArith Qround Qabs Lqa Lia List Bool.
From stdpp Require Import base option strings pretty gmap.

Local Open Scope Z_scope.
Local Open Scope Q_scope.

(** ** Python built-ins on numbers *)

Module Py.

(** Exceptions the modelled code can meet. *)
Inductive Exc : Type :=
| NumericFault   (* ZeroDivisionError, ValueError or OverflowError *)
| KeyError.

(** [x / y] on floats raises [ZeroDivisionError] when [y] is zero. *)
Definition div (x y : Q) : option Q :=
  if Qeq_bool y 0 then None else Some (x / y).

(** Truthiness of a float: [not x] holds exactly for zero. *)
Definition truthy (x : Q) : bool := negb (Qeq_bool x 0).

(** Truthiness of an [Optional[float]]: [None] and [0.0] are falsy. *)
Definition otruthy (x : option Q) : bool :=
  match x with
  | Some v => truthy v
  | None => false
  end.

(** [a or b] on optional floats. *)
Definition or_else (a b : option Q) : option Q :=
  if otruthy a then a else b.

(** [max(a, b)]: the first argument unless the second is greater. *)
Definition max (a b : Q) : Q := if Qlt_le_dec a b then b else a.

(** [min(a, b)]: the first argument unless the second is smaller. *)
Definition min (a b : Q) : Q := if Qlt_le_dec b a then b else a.

Definition ltb (a b : Q) : bool := if Qlt_le_dec a b then true else false.
Definition leb (a b : Q) : bool := if Qlt_le_dec b a then false else true.
Definition gtb (a b : Q) : bool := ltb b a.
Definition geb (a b : Q) : bool := leb b a.

(** Round half to even, the rule of [round] on floats. *)
Definition round_half_even (q : Q) : Z :=
  let f := Qfloor q in
  let r := q - inject_Z f in
  match Qcompare r (1 # 2) with
  | Lt => f
  | Gt => (f + 1)%Z
  | Eq => if Z.even f then f else (f + 1)%Z
  end.

(** [round(q, n)] for [n] decimal places. *)
Definition round (q : Q) (n : nat) : Q :=
  let scale := (10 ^ Z.of_nat n)%Z in
  inject_Z (round_half_even (q * inject_Z scale)) / inject_Z scale.

(** [sum(xs)], starting from 0 and adding left to right. *)
Definition sum (xs : list Q) : Q := fold_left Qplus xs 0.

End Py.

(** ** The numeric library the code calls

    [math.log], [math.sqrt], [math.exp], [norm.cdf] and [norm.pdf] on the
    arguments where they are defined.  The domain checks ([math.log] of a
    non-positive number and [math.sqrt] of a negative one raise [ValueError])
    are written out in [log] and [sqrt] below. *)

Record MathLib : Type := {
  ln_pos : Q -> Q;
  sqrt_nonneg : Q -> Q;
  exp_ : Q -> option Q;      (* [None]: OverflowError *)
  norm_cdf : Q -> Q;
  norm_pdf : Q -> Q
}.

Section MathCalls.
Context (M : MathLib).

Definition log (x : Q) : option Q :=
  if Py.leb x 0 then None else Some (ln_pos M x).

Definition sqrt (x : Q) : option Q :=
  if Py.ltb x 0 then None else Some (sqrt_nonneg M x).

Definition exp (x : Q) : option Q := exp_ M x.
End MathCalls.

(** ** [core/indicators.py] *)

Module Indicators.

(** The dict returned by [black_scholes_greeks]. *)
Record Greeks : Type := {
  delta : Q;
  gamma : Q;
  theta : Q;
  vega : Q;
  iv : Q
}.

Definition zero_greeks (sigma : Q) : Greeks :=
  {| delta := 0; gamma := 0; theta := 0; vega := 0; iv := sigma |}.

Definition is_CE (option_type : string) : bool := String.eqb option_type "CE".

Section Pricing.
Context (M : MathLib).

(** The body of the [try] block of [black_scholes_greeks]; [None] when
    any step raises. *)
Definition black_scholes_try
    (S K T r sigma : Q) (option_type : string) : option Greeks :=
  sk ← Py.div S K;
  l ← log M sk;
  sT ← sqrt M T;
  d1 ← Py.div (l + (r + 0.5 * sigma ^ 2) * T) (sigma * sT);
  let d2 := d1 - sigma * sT in
  let delta_ :=
    if is_CE option_type then norm_cdf M d1 else norm_cdf M d1 - 1.0 in
  gamma_ ← Py.div (norm_pdf M d1) (S * sigma * sT);
  let vega_ := S * norm_pdf M d1 * sT * 0.01 in
  t1 ← Py.div (- (S * norm_pdf M d1 * sigma)) (2 * sT);
  e ← exp M (- r * T);
  let theta_ :=
    (t1
     - r * K * e
       * (if is_CE option_type then norm_cdf M d2 else norm_cdf M (- d2)))
    / 365 in
  Some {| delta := Py.round delta_ 4;
          gamma := Py.round gamma_ 6;
          theta := Py.round theta_ 4;
          vega := Py.round vega_ 4;
          iv := sigma |}.

Definition black_scholes_greeks
    (S K T r sigma : Q) (option_type : string) : Greeks :=
  if Py.leb T 0 then zero_greeks sigma
  else
    match black_scholes_try S K T r sigma option_type with
    | Some g => g
    | None => zero_greeks sigma       (* except Exception *)
    end.

(** One pass through the body of the Newton-Raphson loop with the
    current [sigma]: [None] when the body raises, otherwise the new
    [sigma] and whether a [break] was met. *)
Definition iv_body
    (market_price S K T : Q) (option_type : string) (r sigma : Q)
    : option (Q * bool) :=
  sk ← Py.div S K;
  l ← log M sk;
  sT ← sqrt M T;
  d1 ← Py.div (l + (r + 0.5 * sigma ^ 2) * T) (sigma * sT);
  let d2 := d1 - sigma * sT in
  e ← exp M (- r * T);
  let price :=
    if is_CE option_type
    then S * norm_cdf M d1 - K * e * norm_cdf M d2
    else K * e * norm_cdf M (- d2) - S * norm_cdf M (- d1) in
  let vega_ := S * norm_pdf M d1 * sT in
  if Py.ltb (Qabs vega_) (1 # 10000000000) then Some (sigma, true)
  else
    let diff := market_price - price in
    step ← Py.div diff vega_;
    let sigma1 := sigma + step in
    let sigma2 := Py.max 0.01 (Py.min sigma1 5.0) in
    Some (sigma2, Py.ltb (Qabs diff) 0.001).

(** [for _ in range(n)]: the final [sigma] and the number of passes
    through the loop body, counted from [iters]. *)
Fixpoint iv_loop
    (n : nat) (market_price S K T : Q) (option_type : string) (r : Q)
    (sigma : Q) (iters : nat) : Q * nat :=
  match n with
  | O => (sigma, iters)
  | Datatypes.S n' =>
      match iv_body market_price S K T option_type r sigma with
      | None => (sigma, Datatypes.S iters)
      | Some (sigma', true) => (sigma', Datatypes.S iters)
      | Some (sigma', false) =>
          iv_loop n' market_price S K T option_type r sigma'
            (Datatypes.S iters)
      end
  end.

(** Number of Newton-Raphson passes [estimate_iv_from_price] makes. *)
Definition iv_iterations
    (market_price S K T : Q) (option_type : string) (r : Q) : nat :=
  if Py.leb T 0 || Py.leb market_price 0 then O
  else snd (iv_loop 100 market_price S K T option_type r 0.20 O).

Definition estimate_iv_from_price
    (market_price S K T : Q) (option_type : string) (r : Q) : Q :=
  if Py.leb T 0 || Py.leb market_price 0 then 0.15
  else
    Py.round (fst (iv_loop 100 market_price S K T option_type r 0.20 O)) 4.

End Pricing.

(** *** Gamma risk score *)

(** A position dict as [compute_gamma_risk_score] reads it: every key may
    be absent. *)
Record GammaPos : Type := {
  gp_gamma : option Q;
  gp_quantity : option Z;
  gp_side : option string
}.

Definition side_sign (side : string) : Q :=
  if String.eqb side "SELL" then (-1) else 1.

Definition gamma_term (spot : Q) (pos : GammaPos) : Q :=
  let gamma_ := default 0.0 (gp_gamma pos) in
  let qty := default 75%Z (gp_quantity pos) in
  let sign := side_sign (default "SELL"%string (gp_side pos)) in
  sign * gamma_ * inject_Z qty * spot.

Definition total_gamma_exposure (positions : list GammaPos) (spot : Q) : Q :=
  fold_left (fun acc pos => acc + gamma_term spot pos) positions 0.0.

Definition score_of_exposure (total : Q) : Q :=
  let clamped := Py.max (-50000) (Py.min 50000 total) in
  let score := 50 + (clamped / 50000) * 50 in
  Py.round score 2.

Definition compute_gamma_risk_score
    (positions : list GammaPos) (spot : Q) : Q :=
  score_of_exposure (total_gamma_exposure positions spot).

(** *** Supertrend *)

(** One OHLC row of the input frame. *)
Record Bar : Type := {
  open_ : Q;
  high : Q;
  low : Q;
  close : Q
}.

(** A float cell that may be NaN ([None]); comparisons with NaN are
    false. *)
Definition nan_lt (a b : option Q) : bool :=
  match a, b with
  | Some x, Some y => Py.ltb x y
  | _, _ => false
  end.

Definition nan_gt (a b : option Q) : bool := nan_lt b a.

(** True range: the row-wise maximum of the three columns, the two that
    use [close.shift(1)] being NaN (and skipped) on the first row. *)
Fixpoint true_range (prev_close : option Q) (bars : list Bar) : list Q :=
  match bars with
  | [] => []
  | b :: rest =>
      let hl := high b - low b in
      let tr :=
        match prev_close with
        | None => hl
        | Some pc =>
            Py.max (Py.max hl (Qabs (high b - pc))) (Qabs (low b - pc))
        end in
      tr :: true_range (Some (close b)) rest
  end.

(** [ewm(span, adjust=False).mean()]: y0 = x0 and
    yt = (1 - alpha) y(t-1) + alpha xt with alpha = 2 / (span + 1);
    pandas raises [ValueError] unless span >= 1. *)
Fixpoint ewm_from (alpha prev : Q) (xs : list Q) : list Q :=
  match xs with
  | [] => []
  | x :: rest =>
      let y := (1 - alpha) * prev + alpha * x in
      y :: ewm_from alpha y rest
  end.

Definition ewm_mean (span : Z) (xs : list Q) : option (list Q) :=
  if (span <? 1)%Z then None
  else
    let alpha := 2 / (inject_Z span + 1) in
    Some match xs with
         | [] => []
         | x :: rest => x :: ewm_from alpha x rest
         end.

(** The two series the loop fills: [supertrend] and [direction], created
    empty (all NaN). *)
Record StSeries : Type := {
  supertrend : list (option Q);
  direction : list (option Z)
}.

Definition dir_is (d : option Z) (v : Z) : bool :=
  match d with
  | Some x => (x =? v)%Z
  | None => false
  end.

(** The body of [for i in range(1, len(df))]. *)
Definition supertrend_step
    (closes : list Q) (upper_band lower_band : list Q)
    (s : StSeries) (i : nat) : StSeries :=
  let prev_close := closes !! (i - 1)%nat in
  let curr_close := closes !! i in
  let ub_i := upper_band !! i in
  let lb_i := lower_band !! i in
  let st_prev := mjoin (supertrend s !! (i - 1)%nat) in
  let dir_prev := mjoin (direction s !! (i - 1)%nat) in
  let '(final_ub, final_lb) :=
    if (i =? 1)%nat then (ub_i, lb_i)
    else
      let prev_ub :=
        if dir_is dir_prev (-1) then st_prev
        else upper_band !! (i - 1)%nat in
      let final_ub :=
        if nan_lt ub_i prev_ub || nan_gt prev_close prev_ub
        then ub_i else prev_ub in
      let prev_lb :=
        if dir_is dir_prev 1 then st_prev
        else lower_band !! (i - 1)%nat in
      let final_lb :=
        if nan_gt lb_i prev_lb || nan_lt prev_close prev_lb
        then lb_i else prev_lb in
      (final_ub, final_lb) in
  let prev_dir := if (1 <? i)%nat then dir_prev else Some 1%Z in
  let '(d, v) :=
    if dir_is prev_dir 1 then
      if nan_lt curr_close final_lb then ((-1)%Z, final_ub)
      else (1%Z, final_lb)
    else
      if nan_gt curr_close final_ub then (1%Z, final_lb)
      else ((-1)%Z, final_ub) in
  {| supertrend := <[i := v]> (supertrend s);
     direction := <[i := Some d]> (direction s) |}.

(** [direction.map({1: "BULLISH", -1: "BEARISH"})]: any other cell maps
    to NaN. *)
Definition direction_label (d : option Z) : option string :=
  match d with
  | Some 1%Z => Some "BULLISH"%string
  | Some (-1)%Z => Some "BEARISH"%string
  | _ => None
  end.

(** The two columns [compute_supertrend] adds to the frame. *)
Record SupertrendFrame : Type := {
  st_value : list (option Q);
  st_direction : list (option string)
}.

Definition compute_supertrend
    (df : list Bar) (period : Z) (multiplier : Q)
    : option SupertrendFrame :=
  let hl2 := map (fun b => (high b + low b) / 2) df in
  atr ← ewm_mean period (true_range None df);
  let upper_band := zip_with (fun m a => m + multiplier * a) hl2 atr in
  let lower_band := zip_with (fun m a => m - multiplier * a) hl2 atr in
  let n := length df in
  let init :=
    {| supertrend := replicate n None; direction := replicate n None |} in
  let final :=
    fold_left (supertrend_step (map close df) upper_band lower_band)
      (seq 1 (n - 1)) init in
  Some {| st_value := supertrend final;
          st_direction := map direction_label (direction final) |}.

(** The basic bands of [compute_supertrend]: hl2 + multiplier * atr and
    hl2 - multiplier * atr. *)
Definition basic_bands
    (df : list Bar) (period : Z) (multiplier : Q)
    : option (list Q * list Q) :=
  let hl2 := map (fun b => (high b + low b) / 2) df in
  atr ← ewm_mean period (true_range None df);
  Some (zip_with (fun m a => m + multiplier * a) hl2 atr,
        zip_with (fun m a => m - multiplier * a) hl2 atr).

(** *** VWAP *)

(** One row of the frame [compute_vwap] reads. *)
Record VolBar : Type := {
  vb_high : Q;
  vb_low : Q;
  vb_close : Q;
  vb_volume : Q
}.

Definition typical_price (b : VolBar) : Q :=
  (vb_high b + vb_low b + vb_close b) / 3.

(** The two running sums and their quotient, row by row.  A quotient by a
    zero cumulative volume is NaN or an infinity in pandas, not a number:
    [None]. *)
Fixpoint vwap_from (cum_tp_vol cum_vol : Q) (df : list VolBar)
    : list (option Q) :=
  match df with
  | [] => []
  | b :: rest =>
      let cum_tp_vol' := cum_tp_vol + typical_price b * vb_volume b in
      let cum_vol' := cum_vol + vb_volume b in
      Py.div cum_tp_vol' cum_vol' :: vwap_from cum_tp_vol' cum_vol' rest
  end.

Definition compute_vwap (df : list VolBar) : list (option Q) :=
  vwap_from 0 0 df.

End Indicators.

(** ** [core/strategy.py] *)

Module Strategy.
Import Indicators.

(** *** Constants *)

Definition NIFTY_LOT_SIZE : Z := 65.
Definition STRIKE_STEP : Z := 50.
Definition MAX_TRADES_PER_DAY : Z := 2.
Definition HEDGE_DELTA_TARGET : Q := 0.10.

(** The strategy imports these names from [core.config], which does not
    define them; they are taken as given. *)
Record Config : Type := {
  CE_DELTA_TARGET : Q;
  PE_DELTA_TARGET : Q;
  GAMMA_L1_SPOT_MOVE : Q;
  GAMMA_L1_PREMIUM_PCT : Q;
  GAMMA_L2_DELTA_LIMIT : Q;
  GAMMA_L3_SPOT_MOVE : Q;
  GAMMA_L3_TIME_WINDOW : Q;
  EXPIRY_OTM_OFFSET : Z;
  EXPIRY_TARGET_PCT : Q;
  EXPIRY_STOP_MULT : Q
}.

(** *** Legs *)

Record Position : Type := {
  symbol : string;
  strike : Z;
  option_type : string;
  side : string;                (* BUY / SELL *)
  entry_price : Q;
  current_price : Q;
  quantity : Z;
  greeks : Greeks;
  is_hedge : bool;
  leg_entry_time : Q
}.

(** [Position(...)]: [current_price] starts at [entry_price]. *)
Definition new_position
    (sym : string) (k : Z) (ot sd : string) (px : Q) (qty : Z)
    (g : Greeks) (hedge : bool) (now_ : Q) : Position :=
  {| symbol := sym; strike := k; option_type := ot; side := sd;
     entry_price := px; current_price := px; quantity := qty;
     greeks := g; is_hedge := hedge; leg_entry_time := now_ |}.

Definition leg_sign (p : Position) : Q :=
  if String.eqb (side p) "SELL" then (-1) else 1.

(** [Position.pnl] *)
Definition pnl (p : Position) : Q :=
  leg_sign p * (entry_price p - current_price p) * inject_Z (quantity p).

(** [Position.delta_exposure] *)
Definition delta_exposure (p : Position) : Q :=
  leg_sign p * delta (greeks p) * inject_Z (quantity p).

Definition reprice (p : Position) (px : Q) (g : Greeks) : Position :=
  {| symbol := symbol p; strike := strike p; option_type := option_type p;
     side := side p; entry_price := entry_price p; current_price := px;
     quantity := quantity p; greeks := g; is_hedge := is_hedge p;
     leg_entry_time := leg_entry_time p |}.

(** *** The persistence store ([data/database.py]) *)

Record TradeRow : Type := {
  row_trade_date : Z;
  row_entry_time : Q;
  row_exit_time : option Q;
  row_ce_strike : Z;
  row_pe_strike : Z;
  row_ce_entry_px : Q;
  row_pe_entry_px : Q;
  row_ce_hedge_strike : Z;
  row_pe_hedge_strike : Z;
  row_ce_hedge_px : Q;
  row_pe_hedge_px : Q;
  row_quantity : Z;
  row_premium_collected : Q;
  row_realized_pnl : Q;
  row_unrealized_pnl : Q;
  row_status : string;
  row_close_reason : option string;
  row_adjustment_level : Z;
  row_net_delta : Q;
  row_gamma_score : Q;
  row_strategy_type : string
}.

Inductive AdjAction : Type :=
| CLOSE_ALL
| RollLeg (ot : string) (k : Z)       (* "Roll {type} {strike} → new 20-delta" *)
| RollUntested.                        (* "Roll untested leg closer" *)

Inductive AdjReason : Type :=
| MoveIn (move_pct elapsed_min : Q)    (* "{..}% move in {..}m" *)
| DeltaOver (abs_delta limit : Q)      (* "Delta {..} > {..}" *)
| Trigger (name : string) (move_pct premium_pct : Q).

(** A row of the [adjustments] table. *)
Record AdjustmentRecord : Type := {
  adj_trade_id : Z;
  adj_level : Z;
  adj_action : AdjAction;
  adj_reason : AdjReason;
  adj_spot : Q;
  adj_pnl : Q;
  adj_time : Q
}.

Record Database : Type := {
  trades : gmap Z TradeRow;
  next_trade_id : Z;                   (* autoincrement primary key *)
  adjustments : list AdjustmentRecord
}.

Definition insert_trade (row : TradeRow) (d : Database) : Z * Database :=
  (next_trade_id d,
   {| trades := <[next_trade_id d := row]> (trades d);
      next_trade_id := (next_trade_id d + 1)%Z;
      adjustments := adjustments d |}).

(** [update_trade(id, updates)]: rows with that id, if any, are changed. *)
Definition update_trade
    (id : Z) (updates : TradeRow -> TradeRow) (d : Database) : Database :=
  {| trades := alter updates id (trades d);
     next_trade_id := next_trade_id d;
     adjustments := adjustments d |}.

Definition insert_adjustment
    (a : AdjustmentRecord) (d : Database) : Database :=
  {| trades := trades d;
     next_trade_id := next_trade_id d;
     adjustments := adjustments d ++ [a] |}.

Definition get_open_trades (d : Database) : list (Z * TradeRow) :=
  List.filter (fun kr => String.eqb (row_status kr.2) "OPEN")
    (map_to_list (trades d)).

Definition get_trade_count_today (today_ : Z) (d : Database) : Z :=
  Z.of_nat
    (length (List.filter (fun kr => (row_trade_date kr.2 =? today_)%Z)
               (map_to_list (trades d)))).

(** The partial updates the strategy writes. *)
Definition with_adjustment_level (level : Z) (r : TradeRow) : TradeRow :=
  {| row_trade_date := row_trade_date r; row_entry_time := row_entry_time r;
     row_exit_time := row_exit_time r; row_ce_strike := row_ce_strike r;
     row_pe_strike := row_pe_strike r;
     row_ce_entry_px := row_ce_entry_px r;
     row_pe_entry_px := row_pe_entry_px r;
     row_ce_hedge_strike := row_ce_hedge_strike r;
     row_pe_hedge_strike := row_pe_hedge_strike r;
     row_ce_hedge_px := row_ce_hedge_px r;
     row_pe_hedge_px := row_pe_hedge_px r; row_quantity := row_quantity r;
     row_premium_collected := row_premium_collected r;
     row_realized_pnl := row_realized_pnl r;
     row_unrealized_pnl := row_unrealized_pnl r;
     row_status := row_status r; row_close_reason := row_close_reason r;
     row_adjustment_level := level;
     row_net_delta := row_net_delta r; row_gamma_score := row_gamma_score r;
     row_strategy_type := row_strategy_type r |}.

Definition with_unrealized_pnl (v : Q) (r : TradeRow) : TradeRow :=
  {| row_trade_date := row_trade_date r; row_entry_time := row_entry_time r;
     row_exit_time := row_exit_time r; row_ce_strike := row_ce_strike r;
     row_pe_strike := row_pe_strike r;
     row_ce_entry_px := row_ce_entry_px r;
     row_pe_entry_px := row_pe_entry_px r;
     row_ce_hedge_strike := row_ce_hedge_strike r;
     row_pe_hedge_strike := row_pe_hedge_strike r;
     row_ce_hedge_px := row_ce_hedge_px r;
     row_pe_hedge_px := row_pe_hedge_px r; row_quantity := row_quantity r;
     row_premium_collected := row_premium_collected r;
     row_realized_pnl := row_realized_pnl r;
     row_unrealized_pnl := v;
     row_status := row_status r; row_close_reason := row_close_reason r;
     row_adjustment_level := row_adjustment_level r;
     row_net_delta := row_net_delta r; row_gamma_score := row_gamma_score r;
     row_strategy_type := row_strategy_type r |}.

Definition with_closed
    (exit_ : Q) (realized : Q) (reason : string) (r : TradeRow) : TradeRow :=
  {| row_trade_date := row_trade_date r; row_entry_time := row_entry_time r;
     row_exit_time := Some exit_; row_ce_strike := row_ce_strike r;
     row_pe_strike := row_pe_strike r;
     row_ce_entry_px := row_ce_entry_px r;
     row_pe_entry_px := row_pe_entry_px r;
     row_ce_hedge_strike := row_ce_hedge_strike r;
     row_pe_hedge_strike := row_pe_hedge_strike r;
     row_ce_hedge_px := row_ce_hedge_px r;
     row_pe_hedge_px := row_pe_hedge_px r; row_quantity := row_quantity r;
     row_premium_collected := row_premium_collected r;
     row_realized_pnl := realized;
     row_unrealized_pnl := 0.0;
     row_status := "CLOSED"; row_close_reason := Some reason;
     row_adjustment_level := row_adjustment_level r;
     row_net_delta := row_net_delta r; row_gamma_score := row_gamma_score r;
     row_strategy_type := row_strategy_type r |}.

(** *** Notifications *)

Inductive Alert : Type :=
| EntryAlert (ce_k pe_k : Z) (premium est_loss risk spot_ : Q)
| ExitAlert (trade_id : Z) (pnl_ return_pct : Q) (reason : string)
| AdjustmentAlert (level : Z) (action : AdjAction) (why : AdjReason)
    (spot_ : Q).

(** *** What the collaborators answer during one call *)

Record Env : Type := {
  now : Q;                  (* [datetime.now(IST)], in minutes *)
  time_of_day : Q;          (* [now.time()], minutes after midnight *)
  today : Z;                (* [date.today()], as a day number *)
  get_spot_price : option Q;
  get_option_ltp : string -> option Q;
  nearest_weekly_expiry : string;
  years_to_expiry : Q       (* (expiry_dt - now) in years, before the floor *)
}.

(** [build_option_symbol] *)
Definition build_option_symbol
    (k : Z) (ot : string) (expiry_str : string) : string :=
  ("NSE:NIFTY" +:+ expiry_str +:+ pretty k +:+ ot)%string.

(** [round_to_strike(price, step=50)] *)
Definition round_to_strike (price : Q) : Z :=
  (Py.round_half_even (price / inject_Z STRIKE_STEP) * STRIKE_STEP)%Z.

(** *** The orchestrator object *)

Record State : Type := {
  capital : Q;
  risk_pct : Q;
  num_lots : Z;
  is_running : bool;
  lock_held : bool;          (* [self._lock], a [threading.Lock] *)
  active_positions : gmap Z (list Position);
  entry_spot : gmap Z Q;
  entry_time : gmap Z Q;
  adjustment_counts : gmap Z Z;
  trade_premium : gmap Z Q;
  spot : Q;
  supertrend_dir : string;
  vwap : Q;
  trade_date : Z;
  trades_today : Z;
  daily_pnl : Q;
  db : Database;             (* the store behind [data.database] *)
  alerts : list Alert        (* what [_send_alert] has been given *)
}.

(** [__init__] *)
Definition init
    (capital_ risk_pct_ : Q) (num_lots_ : Z) (today_ : Z) (d : Database)
    : State :=
  {| capital := capital_; risk_pct := risk_pct_;
     num_lots := Z.max 1 num_lots_;
     is_running := false; lock_held := false;
     active_positions := ∅; entry_spot := ∅; entry_time := ∅;
     adjustment_counts := ∅; trade_premium := ∅;
     spot := 0.0; supertrend_dir := "UNKNOWN"; vwap := 0.0;
     trade_date := today_; trades_today := 0; daily_pnl := 0.0;
     db := d; alerts := [] |}.

(** *** Attribute assignments *)

Definition set_running (v : bool) (s : State) : State :=
  {| capital := capital s; risk_pct := risk_pct s; num_lots := num_lots s;
     is_running := v; lock_held := lock_held s;
     active_positions := active_positions s; entry_spot := entry_spot s;
     entry_time := entry_time s; adjustment_counts := adjustment_counts s;
     trade_premium := trade_premium s; spot := spot s;
     supertrend_dir := supertrend_dir s; vwap := vwap s;
     trade_date := trade_date s; trades_today := trades_today s;
     daily_pnl := daily_pnl s; db := db s; alerts := alerts s |}.

Definition set_lock (v : bool) (s : State) : State :=
  {| capital := capital s; risk_pct := risk_pct s; num_lots := num_lots s;
     is_running := is_running s; lock_held := v;
     active_positions := active_positions s; entry_spot := entry_spot s;
     entry_time := entry_time s; adjustment_counts := adjustment_counts s;
     trade_premium := trade_premium s; spot := spot s;
     supertrend_dir := supertrend_dir s; vwap := vwap s;
     trade_date := trade_date s; trades_today := trades_today s;
     daily_pnl := daily_pnl s; db := db s; alerts := alerts s |}.

Definition set_spot (v : Q) (s : State) : State :=
  {| capital := capital s; risk_pct := risk_pct s; num_lots := num_lots s;
     is_running := is_running s; lock_held := lock_held s;
     active_positions := active_positions s; entry_spot := entry_spot s;
     entry_time := entry_time s; adjustment_counts := adjustment_counts s;
     trade_premium := trade_premium s; spot := v;
     supertrend_dir := supertrend_dir s; vwap := vwap s;
     trade_date := trade_date s; trades_today := trades_today s;
     daily_pnl := daily_pnl s; db := db s; alerts := alerts s |}.

Definition set_day (d : Z) (n : Z) (s : State) : State :=
  {| capital := capital s; risk_pct := risk_pct s; num_lots := num_lots s;
     is_running := is_running s; lock_held := lock_held s;
     active_positions := active_positions s; entry_spot := entry_spot s;
     entry_time := entry_time s; adjustment_counts := adjustment_counts s;
     trade_premium := trade_premium s; spot := spot s;
     supertrend_dir := supertrend_dir s; vwap := vwap s; trade_date := d;
     trades_today := n; daily_pnl := daily_pnl s; db := db s;
     alerts := alerts s |}.

Definition set_daily_pnl (v : Q) (s : State) : State :=
  {| capital := capital s; risk_pct := risk_pct s; num_lots := num_lots s;
     is_running := is_running s; lock_held := lock_held s;
     active_positions := active_positions s; entry_spot := entry_spot s;
     entry_time := entry_time s; adjustment_counts := adjustment_counts s;
     trade_premium := trade_premium s; spot := spot s;
     supertrend_dir := supertrend_dir s; vwap := vwap s;
     trade_date := trade_date s; trades_today := trades_today s;
     daily_pnl := v; db := db s; alerts := alerts s |}.

Definition set_db (f : Database -> Database) (s : State) : State :=
  {| capital := capital s; risk_pct := risk_pct s; num_lots := num_lots s;
     is_running := is_running s; lock_held := lock_held s;
     active_positions := active_positions s; entry_spot := entry_spot s;
     entry_time := entry_time s; adjustment_counts := adjustment_counts s;
     trade_premium := trade_premium s; spot := spot s;
     supertrend_dir := supertrend_dir s; vwap := vwap s;
     trade_date := trade_date s; trades_today := trades_today s;
     daily_pnl := daily_pnl s; db := f (db s); alerts := alerts s |}.

(** [self._send_alert(msg)] *)
Definition push_alert (a : Alert) (s : State) : State :=
  {| capital := capital s; risk_pct := risk_pct s; num_lots := num_lots s;
     is_running := is_running s; lock_held := lock_held s;
     active_positions := active_positions s; entry_spot := entry_spot s;
     entry_time := entry_time s; adjustment_counts := adjustment_counts s;
     trade_premium := trade_premium s; spot := spot s;
     supertrend_dir := supertrend_dir s; vwap := vwap s;
     trade_date := trade_date s; trades_today := trades_today s;
     daily_pnl := daily_pnl s; db := db s; alerts := alerts s ++ [a] |}.

Definition set_active_positions (f : gmap Z (list Position) -> gmap Z (list Position)) (s : State) : State :=
  {| capital := capital s; risk_pct := risk_pct s; num_lots := num_lots s;
     is_running := is_running s; lock_held := lock_held s;
     active_positions := f (active_positions s);
     entry_spot := entry_spot s; entry_time := entry_time s;
     adjustment_counts := adjustment_counts s;
     trade_premium := trade_premium s; spot := spot s;
     supertrend_dir := supertrend_dir s; vwap := vwap s;
     trade_date := trade_date s; trades_today := trades_today s;
     daily_pnl := daily_pnl s; db := db s; alerts := alerts s |}.

(** [self.adjustment_counts[trade_id] = n] *)
Definition set_adjustment_count (tid : Z) (n : Z) (s : State) : State :=
  {| capital := capital s; risk_pct := risk_pct s; num_lots := num_lots s;
     is_running := is_running s; lock_held := lock_held s;
     active_positions := active_positions s; entry_spot := entry_spot s;
     entry_time := entry_time s;
     adjustment_counts := <[tid := n]> (adjustment_counts s);
     trade_premium := trade_premium s; spot := spot s;
     supertrend_dir := supertrend_dir s; vwap := vwap s;
     trade_date := trade_date s; trades_today := trades_today s;
     daily_pnl := daily_pnl s; db := db s; alerts := alerts s |}.

(** The block of [open_position] under the lock. *)
Definition register_trade (tid : Z) (legs : list Position) (spot_ now_ premium : Q) (s : State) : State :=
  {| capital := capital s; risk_pct := risk_pct s; num_lots := num_lots s;
     is_running := is_running s; lock_held := lock_held s;
     active_positions := <[tid := legs]> (active_positions s);
     entry_spot := <[tid := spot_]> (entry_spot s);
     entry_time := <[tid := now_]> (entry_time s);
     adjustment_counts := <[tid := 0%Z]> (adjustment_counts s);
     trade_premium := <[tid := premium]> (trade_premium s);
     spot := spot s; supertrend_dir := supertrend_dir s; vwap := vwap s;
     trade_date := trade_date s; trades_today := (trades_today s + 1)%Z;
     daily_pnl := daily_pnl s; db := db s; alerts := alerts s |}.

(** The five [pop(trade_id, None)] of [close_position]. *)
Definition pop_trade (tid : Z) (s : State) : State :=
  {| capital := capital s; risk_pct := risk_pct s; num_lots := num_lots s;
     is_running := is_running s; lock_held := lock_held s;
     active_positions := delete tid (active_positions s);
     entry_spot := delete tid (entry_spot s);
     entry_time := delete tid (entry_time s);
     adjustment_counts := delete tid (adjustment_counts s);
     trade_premium := delete tid (trade_premium s); spot := spot s;
     supertrend_dir := supertrend_dir s; vwap := vwap s;
     trade_date := trade_date s; trades_today := trades_today s;
     daily_pnl := daily_pnl s; db := db s; alerts := alerts s |}.

(** The [clear()]s and counter resets of [reset_day]. *)
Definition clear_day (today_ : Z) (s : State) : State :=
  {| capital := capital s; risk_pct := risk_pct s; num_lots := num_lots s;
     is_running := is_running s; lock_held := lock_held s;
     active_positions := ∅; entry_spot := ∅; entry_time := ∅;
     adjustment_counts := ∅; trade_premium := ∅; spot := spot s;
     supertrend_dir := supertrend_dir s; vwap := vwap s;
     trade_date := today_; trades_today := 0%Z; daily_pnl := 0.0;
     db := db s; alerts := alerts s |}.

(** *** Running a method

    A call returns a value, raises, or never comes back because it waits
    for a lock its own thread already holds. *)

Inductive Outcome (A : Type) : Type :=
| Returned (a : A)
| Raised (e : Py.Exc)
| Blocked.
Arguments Returned {A} a.
Arguments Raised {A} e.
Arguments Blocked {A}.

Definition Run (A : Type) : Type := State -> Outcome A * State.

Definition ret {A} (a : A) : Run A := fun s => (Returned a, s).

Definition bind {A B} (m : Run A) (k : A -> Run B) : Run B :=
  fun s =>
    match m s with
    | (Returned a, s') => k a s'
    | (Raised e, s') => (Raised e, s')
    | (Blocked, s') => (Blocked, s')
    end.

Definition raise {A} (e : Py.Exc) : Run A := fun s => (Raised e, s).
Definition get : Run State := fun s => (Returned s, s).
Definition modify (f : State -> State) : Run unit :=
  fun s => (Returned tt, f s).

#[export] Instance run_ret : MRet Run := @ret.
#[export] Instance run_bind : MBind Run := fun A B k m => bind m k.

(** A numeric step that may raise. *)
Definition lift_num {A} (o : option A) : Run A :=
  match o with
  | Some a => ret a
  | None => raise Py.NumericFault
  end.

(** [d[k]] on a dict. *)
Definition lift_key {A} (o : option A) : Run A :=
  match o with
  | Some a => ret a
  | None => raise Py.KeyError
  end.

(** [with self._lock: body].  [threading.Lock] is not re-entrant: taking
    it while it is held waits for a release that cannot come.  The lock is
    released when the body returns or raises. *)
Definition with_lock {A} (body : Run A) : Run A :=
  fun s =>
    if lock_held s then (Blocked, s)
    else
      match body (set_lock true s) with
      | (Blocked, s') => (Blocked, s')
      | (o, s') => (o, set_lock false s')
      end.

(** [for x in xs: f(x)] *)
Fixpoint for_each {A} (xs : list A) (f : A -> Run unit) : Run unit :=
  match xs with
  | [] => ret tt
  | x :: rest => f x;; for_each rest f
  end.

(** [list(self.active_positions.keys())].  Python lists the keys in the
    order of insertion, the map in the order of the keys; trade ids are
    handed out in increasing order, and nothing below depends on the
    order. *)
Definition trade_ids (s : State) : list Z :=
  (map_to_list (active_positions s)).*1.

(** *** Methods of [GammaStrangleStrategy] *)

Section Engine.
Context (M : MathLib) (C : Config) (E : Env).

Definition start : Run unit := modify (set_running true).
Definition stop : Run unit := modify (set_running false).

(** [sum(p.pnl for p in positions)] *)
Definition legs_pnl (legs : list Position) : Q := Py.sum (map pnl legs).

(** [calculate_mtm(trade_id)] *)
Definition calculate_mtm (trade_id : option Z) (s : State) : Q :=
  match trade_id with
  | Some tid => legs_pnl (default [] (active_positions s !! tid))
  | None =>
      Py.sum (map (fun kv => legs_pnl kv.2)
                (map_to_list (active_positions s)))
  end.

(** [_record_adjustment] *)
Definition _record_adjustment
    (tid level : Z) (action : AdjAction) (reason : AdjReason)
    (spot_ pnl_ : Q) : Run unit :=
  modify (set_db (insert_adjustment
                    {| adj_trade_id := tid; adj_level := level;
                       adj_action := action; adj_reason := reason;
                       adj_spot := spot_; adj_pnl := pnl_;
                       adj_time := now E |}));;
  modify (set_db (update_trade tid (with_adjustment_level level))).

(** [close_position] *)
Definition close_position (tid : Z) (reason : string) : Run Q :=
  s ← get;
  match active_positions s !! tid with
  | None => mret 0.0
  | Some _ =>
      let pnl_ := calculate_mtm (Some tid) s in
      with_lock (modify (pop_trade tid));;
      modify (fun s' => set_daily_pnl (daily_pnl s' + pnl_) s');;
      modify (set_db (update_trade tid (with_closed (now E) pnl_ reason)));;
      s' ← get;
      share ← lift_num (Py.div pnl_ (capital s'));
      modify (push_alert (ExitAlert tid pnl_ (share * 100) reason));;
      mret pnl_
  end.

(** [close_all_positions] *)
Fixpoint close_each (ids : list Z) (reason : string) (total : Q) : Run Q :=
  match ids with
  | [] => mret total
  | tid :: rest =>
      p ← close_position tid reason;
      close_each rest reason (total + p)
  end.

Definition close_all_positions (reason : string) : Run Q :=
  s ← get;
  close_each (trade_ids s) reason 0.0.

Definition _force_close_trade (tid : Z) (reason : string) : Run unit :=
  close_position tid reason;; mret tt.

(** [reset_day] *)
Definition reset_day : Run unit :=
  with_lock (
    s ← get;
    for_each (trade_ids s) (fun tid => _force_close_trade tid "DAY_RESET");;
    modify (clear_day (today E))).

(** [check_entry] *)
Definition check_entry : Run bool :=
  s ← get;
  if negb (is_running s) then mret false
  else if negb (Py.leb 560 (time_of_day E) && Py.leb (time_of_day E) 885)
  then mret false
  else
    (if bool_decide (trade_date s ≠ today E)
     then modify (set_day (today E)
                    (get_trade_count_today (today E) (db s)))
     else mret tt);;
    s ← get;
    if (MAX_TRADES_PER_DAY <=? trades_today s)%Z then mret false
    else
      let max_loss := capital s * (risk_pct s / 100) in
      if Py.leb (daily_pnl s) (- max_loss) then mret false
      else if String.eqb (supertrend_dir s) "UNKNOWN" then mret false
      else if (1 <=? length (get_open_trades (db s)))%nat then mret false
      else mret true.

(** Time to expiry in years, floored at 0.001. *)
Definition time_to_expiry : Q := Py.max (years_to_expiry E) 0.001.

(** [_get_simulated_ltp]; [None] when the fallback pricing raises. *)
Definition _get_simulated_ltp
    (sym : string) (spot_ : Q) (k : Z) (T : Q) (ot : string) : option Q :=
  let ltp := get_option_ltp E sym in
  if Py.otruthy ltp && Py.gtb (default 0 ltp) 0 then ltp
  else
    let K := inject_Z k in
    d1 ← (if Py.gtb T 0 then
             sk ← Py.div spot_ K;
             l ← log M sk;
             sT ← sqrt M T;
             Py.div (l + (0.065 + 0.5 * 0.15 ^ 2) * T) (0.15 * sT)
           else Some 0);
    e ← exp M (- 0.065 * T);
    sT ← sqrt M T;
    let price :=
      if is_CE ot
      then spot_ * norm_cdf M d1 - K * e * norm_cdf M (d1 - 0.15 * sT)
      else K * e * norm_cdf M (- (d1 - 0.15 * sT))
           - spot_ * norm_cdf M (- d1) in
    Some (Py.max 0.05 (Py.round price 2)).

(** [range(atm - 1500, atm + 1550, STRIKE_STEP)] *)
Definition strike_ladder (spot_ : Q) : list Z :=
  map (fun i => (round_to_strike spot_ - 1500 + STRIKE_STEP * Z.of_nat i)%Z)
    (seq 0 61).

(** [_find_strike_by_delta]; [best_diff] starts at infinity ([None]). *)
Definition _find_strike_by_delta
    (spot_ T target_delta : Q) (ot : string) : Z :=
  fst (fold_left
         (fun (best : Z * option Q) (k : Z) =>
            let g := black_scholes_greeks M spot_ (inject_Z k) T
                       0.065 0.15 ot in
            let diff := Qabs (Qabs (delta g) - target_delta) in
            let better :=
              match best.2 with
              | None => true
              | Some bd => Py.ltb diff bd
              end in
            if better then (k, Some diff) else best)
         (strike_ladder spot_)
         (round_to_strike spot_, None)).

Definition bs (spot_ : Q) (k : Z) (T : Q) (ot : string) : Greeks :=
  black_scholes_greeks M spot_ (inject_Z k) T 0.065 0.15 ot.

(** The dicts [open_position] hands to [compute_gamma_risk_score]. *)
Definition gamma_pos (qty : Z) (p : Position) : GammaPos :=
  {| gp_gamma := Some (gamma (greeks p));
     gp_quantity := Some qty;
     gp_side := Some (side p) |}.

(** [open_position] *)
Definition open_position (strategy_type : string) : Run (option Z) :=
  ok ← check_entry;
  if negb ok then mret None
  else if negb (Py.otruthy (get_spot_price E)) then mret None
  else
    let spot_ := default 0 (get_spot_price E) in
    modify (set_spot spot_);;
    let expiry := nearest_weekly_expiry E in
    let T := time_to_expiry in
    let '(ce_strike, pe_strike, ce_hedge_strike, pe_hedge_strike) :=
      if String.eqb strategy_type "EXPIRY" && Py.geb (time_of_day E) 585
      then
        let atm := round_to_strike spot_ in
        let ce := (atm + EXPIRY_OTM_OFFSET C)%Z in
        let pe := (atm - EXPIRY_OTM_OFFSET C)%Z in
        (ce, pe, (ce + 150)%Z, (pe - 150)%Z)
      else
        (_find_strike_by_delta spot_ T (CE_DELTA_TARGET C) "CE",
         _find_strike_by_delta spot_ T (Qabs (PE_DELTA_TARGET C)) "PE",
         _find_strike_by_delta spot_ T HEDGE_DELTA_TARGET "CE",
         _find_strike_by_delta spot_ T HEDGE_DELTA_TARGET "PE") in
    let ce_sym := build_option_symbol ce_strike "CE" expiry in
    let pe_sym := build_option_symbol pe_strike "PE" expiry in
    let ceh_sym := build_option_symbol ce_hedge_strike "CE" expiry in
    let peh_sym := build_option_symbol pe_hedge_strike "PE" expiry in
    ce_px ← lift_num (_get_simulated_ltp ce_sym spot_ ce_strike T "CE");
    pe_px ← lift_num (_get_simulated_ltp pe_sym spot_ pe_strike T "PE");
    ceh_px ← lift_num
      (_get_simulated_ltp ceh_sym spot_ ce_hedge_strike T "CE");
    peh_px ← lift_num
      (_get_simulated_ltp peh_sym spot_ pe_hedge_strike T "PE");
    s ← get;
    let qty := (NIFTY_LOT_SIZE * num_lots s)%Z in
    let premium := (ce_px + pe_px - ceh_px - peh_px) * inject_Z qty in
    let max_loss_allowed := capital s * (risk_pct s / 100) in
    let estimated_max_loss := Qabs pe_px * inject_Z qty in
    if Py.gtb estimated_max_loss max_loss_allowed then mret None
    else
      let positions :=
        [ new_position ce_sym ce_strike "CE" "SELL" ce_px qty
            (bs spot_ ce_strike T "CE") false (now E);
          new_position pe_sym pe_strike "PE" "SELL" pe_px qty
            (bs spot_ pe_strike T "PE") false (now E);
          new_position ceh_sym ce_hedge_strike "CE" "BUY" ceh_px qty
            (bs spot_ ce_hedge_strike T "CE") true (now E);
          new_position peh_sym pe_hedge_strike "PE" "BUY" peh_px qty
            (bs spot_ pe_hedge_strike T "PE") true (now E) ] in
      let net_delta := Py.sum (map delta_exposure positions) in
      let gamma_score :=
        compute_gamma_risk_score (map (gamma_pos qty) positions) spot_ in
      let row :=
        {| row_trade_date := today E; row_entry_time := now E;
           row_exit_time := None;
           row_ce_strike := ce_strike; row_pe_strike := pe_strike;
           row_ce_entry_px := ce_px; row_pe_entry_px := pe_px;
           row_ce_hedge_strike := ce_hedge_strike;
           row_pe_hedge_strike := pe_hedge_strike;
           row_ce_hedge_px := ceh_px; row_pe_hedge_px := peh_px;
           row_quantity := qty; row_premium_collected := premium;
           row_realized_pnl := 0.0; row_unrealized_pnl := 0.0;
           row_status := "OPEN"; row_close_reason := None;
           row_adjustment_level := 0;
           row_net_delta := net_delta; row_gamma_score := gamma_score;
           row_strategy_type := strategy_type |} in
      let trade_id := (insert_trade row (db s)).1 in
      modify (set_db (fun d => (insert_trade row d).2));;
      with_lock
        (modify (register_trade trade_id positions spot_ (now E) premium));;
      modify (push_alert (EntryAlert ce_strike pe_strike premium
                            estimated_max_loss (risk_pct s) spot_));;
      mret (Some trade_id).

(** The strikes [open_position] selects for a spot: short call, short put,
    call hedge, put hedge. *)
Definition entry_strikes (strategy_type : string) (spot_ : Q)
    : Z * Z * Z * Z :=
  if String.eqb strategy_type "EXPIRY" && Py.geb (time_of_day E) 585
  then
    let atm := round_to_strike spot_ in
    let ce := (atm + EXPIRY_OTM_OFFSET C)%Z in
    let pe := (atm - EXPIRY_OTM_OFFSET C)%Z in
    (ce, pe, (ce + 150)%Z, (pe - 150)%Z)
  else
    (_find_strike_by_delta spot_ time_to_expiry (CE_DELTA_TARGET C) "CE",
     _find_strike_by_delta spot_ time_to_expiry
       (Qabs (PE_DELTA_TARGET C)) "PE",
     _find_strike_by_delta spot_ time_to_expiry HEDGE_DELTA_TARGET "CE",
     _find_strike_by_delta spot_ time_to_expiry HEDGE_DELTA_TARGET "PE").

(** The four entry prices it then asks for, in the same order; [None] when
    one of the quotes raises. *)
Definition entry_quotes (strategy_type : string) (spot_ : Q)
    : option (Q * Q * Q * Q) :=
  let '(ce_strike, pe_strike, ce_hedge_strike, pe_hedge_strike) :=
    entry_strikes strategy_type spot_ in
  let expiry := nearest_weekly_expiry E in
  let T := time_to_expiry in
  ce_px ← _get_simulated_ltp (build_option_symbol ce_strike "CE" expiry)
            spot_ ce_strike T "CE";
  pe_px ← _get_simulated_ltp (build_option_symbol pe_strike "PE" expiry)
            spot_ pe_strike T "PE";
  ceh_px ← _get_simulated_ltp
             (build_option_symbol ce_hedge_strike "CE" expiry)
             spot_ ce_hedge_strike T "CE";
  peh_px ← _get_simulated_ltp
             (build_option_symbol pe_hedge_strike "PE" expiry)
             spot_ pe_hedge_strike T "PE";
  Some (ce_px, pe_px, ceh_px, peh_px).

(** The loop of [_update_position_prices]: the legs are objects changed
    in place, so the legs before a raising quote stay repriced. *)
Fixpoint reprice_legs
    (spot_ T : Q) (legs : list Position) (total : Q)
    : option Q * list Position :=
  match legs with
  | [] => (Some total, [])
  | p :: rest =>
      match _get_simulated_ltp (symbol p) spot_ (strike p) T
              (option_type p) with
      | None => (None, p :: rest)
      | Some new_px =>
          let p' := reprice p new_px
                      (bs spot_ (strike p) T (option_type p)) in
          let r := reprice_legs spot_ T rest (total + pnl p') in
          (r.1, p' :: r.2)
      end
  end.

(** [_update_position_prices] *)
Definition _update_position_prices (tid : Z) (spot_ : Q) : Run unit :=
  s ← get;
  match active_positions s !! tid with
  | None => modify (set_db (update_trade tid (with_unrealized_pnl 0.0)))
  | Some legs =>
      let r := reprice_legs spot_ time_to_expiry legs 0.0 in
      modify (set_active_positions (<[tid := r.2]>));;
      total_unrealised ← lift_num r.1;
      modify (set_db (update_trade tid
                        (with_unrealized_pnl total_unrealised)))
  end.

(** [_roll_leg]: [idx] is the place of [old_pos] in the structure's
    list, which [positions.remove(old_pos)] finds by identity. *)
Definition _roll_leg
    (tid : Z) (idx : nat) (old_pos : Position) (spot_ : Q) : Run unit :=
  let expiry := nearest_weekly_expiry E in
  let T := time_to_expiry in
  let ot := option_type old_pos in
  let new_strike := _find_strike_by_delta spot_ T 0.20 ot in
  let new_sym := build_option_symbol new_strike ot expiry in
  new_px ← lift_num (_get_simulated_ltp new_sym spot_ new_strike T ot);
  let new_greeks := bs spot_ new_strike T ot in
  s ← get;
  positions ← lift_key (active_positions s !! tid);
  let leg := new_position new_sym new_strike ot "SELL" new_px
               (quantity old_pos) new_greeks false (now E) in
  modify (set_active_positions (<[tid := delete idx positions ++ [leg]]>)).

Definition is_short_core (p : Position) : bool :=
  String.eqb (side p) "SELL" && negb (is_hedge p).

(** [max(short_legs, key=...)]: the first leg with the greatest key. *)
Definition first_max
    (key : Position -> Q) (l : list (nat * Position))
    : option (nat * Position) :=
  fold_left
    (fun best x =>
       match best with
       | None => Some x
       | Some b => if Py.ltb (key b.2) (key x.2) then Some x else best
       end)
    l None.

Definition indexed (legs : list Position) : list (nat * Position) :=
  imap (fun i p => (i, p)) legs.

(** [_roll_untested_leg] *)
Definition _roll_untested_leg (tid : Z) (spot_ : Q) : Run unit :=
  s ← get;
  positions ← lift_key (active_positions s !! tid);
  let short_legs :=
    List.filter (fun ip => is_short_core ip.2) (indexed positions) in
  match first_max (fun p => Qabs (inject_Z (strike p) - spot_))
          short_legs with
  | None => mret tt
  | Some (idx, untested) => _roll_leg tid idx untested spot_
  end.

(** [_check_expiry_targets] *)
Definition _check_expiry_targets (tid : Z) : Run unit :=
  s ← get;
  let premium := default 0 (trade_premium s !! tid) in
  if Py.leb premium 0 then mret tt
  else
    let pnl_ := calculate_mtm (Some tid) s in
    if Py.geb pnl_ (premium * EXPIRY_TARGET_PCT C)
    then close_position tid "TARGET_HIT";; mret tt
    else if Py.leb pnl_ (- premium * EXPIRY_STOP_MULT C)
    then close_position tid "STOP_LOSS";; mret tt
    else mret tt.

(** Level 2 test on one leg. *)
Definition l2_breach (p : Position) : bool :=
  is_short_core p
  && Py.gtb (Qabs (delta (greeks p)) * 100) (GAMMA_L2_DELTA_LIMIT C).

(** The Level 3 test. *)
Definition l3_triggered (spot_move elapsed_min : Q) : bool :=
  Py.geb spot_move (GAMMA_L3_SPOT_MOVE C)
  && Py.leb elapsed_min (GAMMA_L3_TIME_WINDOW C).

(** [spot or self.fyers.get_spot_price() or self.spot] *)
Definition effective_spot (ospot : option Q) (s : State) : option Q :=
  Py.or_else (Py.or_else ospot (get_spot_price E)) (Some (spot s)).

(** [adjust_positions] *)
Definition adjust_positions (tid : Z) (ospot : option Q) : Run unit :=
  s ← get;
  match active_positions s !! tid with
  | None => mret tt
  | Some positions =>
      if negb (Py.otruthy (effective_spot ospot s)) then mret tt
      else
        let spot_ := default 0 (effective_spot ospot s) in
        entry_s ← lift_key (entry_spot s !! tid);
        entry_t ← lift_key (entry_time s !! tid);
        let adj_count := default 0%Z (adjustment_counts s !! tid) in
        premium ← lift_key (trade_premium s !! tid);
        let current_pnl := calculate_mtm (Some tid) s in
        spot_move ← lift_num (Py.div (Qabs (spot_ - entry_s)) entry_s);
        let elapsed_min := now E - entry_t in
        if l3_triggered spot_move elapsed_min then
          _record_adjustment tid 3 CLOSE_ALL
            (MoveIn (spot_move * 100) elapsed_min) spot_ current_pnl;;
          close_position tid "GAMMA_L3";;
          mret tt
        else
          match List.find (fun ip => l2_breach ip.2)
                  (indexed positions) with
          | Some (idx, pos) =>
              let abs_delta := Qabs (delta (greeks pos)) * 100 in
              let action := RollLeg (option_type pos) (strike pos) in
              let why := DeltaOver abs_delta (GAMMA_L2_DELTA_LIMIT C) in
              _record_adjustment tid 2 action why spot_ current_pnl;;
              _roll_leg tid idx pos spot_;;
              modify (set_adjustment_count tid (adj_count + 1));;
              modify (push_alert (AdjustmentAlert 2 action why spot_))
          | None =>
              premium_change ←
                (if Py.truthy premium
                 then r ← lift_num (Py.div current_pnl premium);
                      mret (Qabs r)
                 else mret 0);
              if Py.geb spot_move (GAMMA_L1_SPOT_MOVE C)
                 || Py.geb premium_change (GAMMA_L1_PREMIUM_PCT C)
              then
                let trigger : string :=
                  if Py.geb spot_move (GAMMA_L1_SPOT_MOVE C)
                  then "spot_move" else "premium_+40%" in
                let why := Trigger trigger (spot_move * 100)
                             (premium_change * 100) in
                _record_adjustment tid 1 RollUntested why spot_
                  current_pnl;;
                _roll_untested_leg tid spot_;;
                modify (set_adjustment_count tid (adj_count + 1));;
                modify (push_alert
                          (AdjustmentAlert 1 RollUntested why spot_))
              else mret tt
          end
  end.

(** [monitor_positions] *)
Definition monitor_positions : Run unit :=
  s ← get;
  if bool_decide (active_positions s = ∅) then mret tt
  else if negb (Py.otruthy (get_spot_price E)) then mret tt
  else
    let spot_ := default 0 (get_spot_price E) in
    modify (set_spot spot_);;
    for_each (trade_ids s)
      (fun tid =>
         _update_position_prices tid spot_;;
         adjust_positions tid (Some spot_);;
         _check_expiry_targets tid).

(** [get_net_delta] *)
Definition get_net_delta (s : State) : Q :=
  Py.round
    (fold_left
       (fun total kv =>
          fold_left (fun t p => t + delta_exposure p) kv.2 total)
       (map_to_list (active_positions s)) 0.0)
    4.

(** [get_gamma_risk_score] *)
Definition get_gamma_risk_score (s : State) : Q :=
  let all_pos :=
    concat (map (fun kv => map (fun p => gamma_pos (quantity p) p) kv.2)
              (map_to_list (active_positions s))) in
  match all_pos with
  | [] => 50.0
  | _ => compute_gamma_risk_score all_pos
           (if Py.truthy (spot s) then spot s else 22000)
  end.

End Engine.

(** *** End-of-day report *)

(** The columns of [daily_summary] that [generate_eod_summary] fills. *)
Record DailySummary : Type := {
  sum_trade_date : Z;
  sum_total_trades : nat;
  sum_winning_trades : nat;
  sum_net_pnl : Q;
  sum_max_drawdown : Q;
  sum_capital_used : Q;
  sum_win_rate : Q
}.

(** [get_trades_for_date(d)] *)
Definition get_trades_for_date (d : Z) (db_ : Database)
    : list (Z * TradeRow) :=
  List.filter (fun kr => (row_trade_date kr.2 =? d)%Z)
    (map_to_list (trades db_)).

(** [x or 0] on a float. *)
Definition or_zero (x : Q) : Q := if Py.truthy x then x else 0.

(** [min(xs)] of a non-empty sequence: the first of the least. *)
Definition min_of (x : Q) (xs : list Q) : Q := fold_left Py.min xs x.

(** [upsert_daily_summary]: [trade_date] is unique in [daily_summary]; the
    row of that date is replaced, or a new one inserted. *)
Definition upsert_daily_summary
    (sm : DailySummary) (table : gmap Z DailySummary)
    : gmap Z DailySummary :=
  <[sum_trade_date sm := sm]> table.

(** [generate_eod_summary], given the [daily_summary] table; it returns
    the summary and the table after the upsert. *)
Definition generate_eod_summary
    (E : Env) (s : State) (table : gmap Z DailySummary)
    : DailySummary * gmap Z DailySummary :=
  let trades_ := get_trades_for_date (today E) (db s) in
  let closed :=
    List.filter (fun kr => String.eqb (row_status kr.2) "CLOSED") trades_ in
  let wins :=
    List.filter (fun kr => Py.gtb (or_zero (row_realized_pnl kr.2)) 0)
      closed in
  let realized := map (fun kr => or_zero (row_realized_pnl kr.2)) closed in
  let total_pnl := Py.sum realized in
  let max_dd :=
    match realized with
    | [] => 0
    | x :: xs => min_of x xs
    end in
  let win_rate :=
    match closed with
    | [] => 0
    | _ => inject_Z (Z.of_nat (length wins))
           / inject_Z (Z.of_nat (length closed)) * 100
    end in
  let summary :=
    {| sum_trade_date := today E;
       sum_total_trades := length closed;
       sum_winning_trades := length wins;
       sum_net_pnl := total_pnl;
       sum_max_drawdown := max_dd;
       sum_capital_used := capital s;
       sum_win_rate := win_rate |} in
  (summary, upsert_daily_summary summary table).

(** *** Expiry date ([data/fyers_client.py]) *)

(** [date.weekday()] of a day given by its proleptic ordinal: Monday is 0. *)
Definition weekday (ordinal : Z) : Z := (ordinal + 6) `mod` 7.

(** The date [get_nearest_weekly_expiry] picks, as an ordinal, from
    today's ordinal and the hour of the day; the function returns this date
    rendered by [strftime("%y%b%d").upper()]. *)
Definition nearest_weekly_expiry_date (today_ hour : Z) : Z :=
  let days_until_thursday := ((3 - weekday today_) `mod` 7)%Z in
  let days_until_thursday :=
    if (days_until_thursday =? 0)%Z && (15 <=? hour)%Z
    then 7%Z else days_until_thursday in
  (today_ + days_until_thursday)%Z.

End Strategy.

Import Indicators Strategy.

(** ** Concrete collaborators for running the model *)

(** First-order stand-ins for the numeric library.  Every statement below
    is proved for an arbitrary [MathLib]; this one only serves to run the
    model on concrete inputs. *)
Definition linear_math : MathLib :=
  {| ln_pos := fun x => x - 1;
     sqrt_nonneg := fun x => (1 + x) / 2;
     exp_ := fun x => Some (1 + x);
     norm_cdf := fun x => Py.max 0 (Py.min 1 ((1 # 2) + x / 4));
     norm_pdf := fun x => Py.max 0 ((2 # 5) - x * x / 10) |}.

(** The thresholds named in the comments of [adjust_positions] and in the
    module docstring: 1.2% within 45 minutes, delta 35, 0.6% or +40%,
    ATM +/- 100. *)
Definition example_config : Config :=
  {| CE_DELTA_TARGET := 0.22;
     PE_DELTA_TARGET := -0.22;
     GAMMA_L1_SPOT_MOVE := 0.006;
     GAMMA_L1_PREMIUM_PCT := 0.40;
     GAMMA_L2_DELTA_LIMIT := 35;
     GAMMA_L3_SPOT_MOVE := 0.012;
     GAMMA_L3_TIME_WINDOW := 45;
     EXPIRY_OTM_OFFSET := 100;
     EXPIRY_TARGET_PCT := 0.5;
     EXPIRY_STOP_MULT := 2 |}.

Definition empty_db : Database :=
  {| trades := ∅; next_trade_id := 1; adjustments := [] |}.

(** Broker quotes by symbol; anything else is unquoted. *)
Definition quote_table (qs : list (string * Q)) (sym : string) : option Q :=
  snd <$> List.find (fun q => String.eqb q.1 sym) qs.

(** 10:00 on day 100, spot 22000, expiry-mode strikes quoted. *)
Definition env_open : Env :=
  {| now := 600; time_of_day := 600; today := 100;
     get_spot_price := Some 22000;
     get_option_ltp :=
       quote_table [ ("NSE:NIFTY24JUN0622100CE", 120);
                     ("NSE:NIFTY24JUN0621900PE", 110);
                     ("NSE:NIFTY24JUN0622250CE", 40);
                     ("NSE:NIFTY24JUN0621750PE", 35) ]%string;
     nearest_weekly_expiry := "24JUN06";
     years_to_expiry := 0.01 |}.

(** Ten minutes later, spot 22300 (a 1.36% move). *)
Definition env_tick : Env :=
  {| now := 610; time_of_day := 610; today := 100;
     get_spot_price := Some 22300;
     get_option_ltp :=
       quote_table [ ("NSE:NIFTY24JUN0622100CE", 260);
                     ("NSE:NIFTY24JUN0621900PE", 40);
                     ("NSE:NIFTY24JUN0622250CE", 150);
                     ("NSE:NIFTY24JUN0621750PE", 12) ]%string;
     nearest_weekly_expiry := "24JUN06";
     years_to_expiry := 0.01 |}.

(** A running engine with nothing open, on the trade date of [env_open]. *)
Definition ready : State :=
  {| capital := 1000000; risk_pct := 2.0; num_lots := 1; is_running := true;
     lock_held := false; active_positions := ∅; entry_spot := ∅;
     entry_time := ∅; adjustment_counts := ∅; trade_premium := ∅;
     spot := 0; supertrend_dir := "BULLISH"; vwap := 0; trade_date := 100;
     trades_today := 0; daily_pnl := 0; db := empty_db; alerts := [] |}.

(** Yesterday's two trades, both closed, as the store keeps them. *)
Definition row_yesterday : TradeRow :=
  {| row_trade_date := 99; row_entry_time := 580; row_exit_time := Some 910;
     row_ce_strike := 22100; row_pe_strike := 21900;
     row_ce_entry_px := 120; row_pe_entry_px := 110;
     row_ce_hedge_strike := 22250; row_pe_hedge_strike := 21750;
     row_ce_hedge_px := 40; row_pe_hedge_px := 35;
     row_quantity := 65; row_premium_collected := 10075;
     row_realized_pnl := 1300; row_unrealized_pnl := 0.0;
     row_status := "CLOSED"; row_close_reason := Some "FORCE_CLOSE"%string;
     row_adjustment_level := 0; row_net_delta := 0; row_gamma_score := 50;
     row_strategy_type := "EXPIRY" |}.

Definition yesterday_db : Database :=
  {| trades := {[ 1%Z := row_yesterday; 2%Z := row_yesterday ]};
     next_trade_id := 3; adjustments := [] |}.

(** The same engine the morning after a day with two trades: the counter
    still holds yesterday's 2 and the trade date yesterday's 99. *)
Definition next_morning : State :=
  set_day 99 2 (set_db (fun _ => yesterday_db) ready).

(** The same engine with a capital of 100000: 2% of it is less than the
    worst-case estimate of one lot. *)
Definition thin : State :=
  {| capital := 100000; risk_pct := 2.0; num_lots := 1; is_running := true;
     lock_held := false; active_positions := ∅; entry_spot := ∅;
     entry_time := ∅; adjustment_counts := ∅; trade_premium := ∅;
     spot := 0; supertrend_dir := "BULLISH"; vwap := 0; trade_date := 100;
     trades_today := 0; daily_pnl := 0; db := empty_db; alerts := [] |}.

(** The four legs [open_position] builds from [env_open] in expiry mode. *)
Definition legs_1 : list Position :=
  [ new_position "NSE:NIFTY24JUN0622100CE" 22100 "CE" "SELL" 120 65
      (bs linear_math 22000 22100 0.01 "CE") false 600;
    new_position "NSE:NIFTY24JUN0621900PE" 21900 "PE" "SELL" 110 65
      (bs linear_math 22000 21900 0.01 "PE") false 600;
    new_position "NSE:NIFTY24JUN0622250CE" 22250 "CE" "BUY" 40 65
      (bs linear_math 22000 22250 0.01 "CE") true 600;
    new_position "NSE:NIFTY24JUN0621750PE" 21750 "PE" "BUY" 35 65
      (bs linear_math 22000 21750 0.01 "PE") true 600 ].

Definition row_1 : TradeRow :=
  {| row_trade_date := 100; row_entry_time := 600; row_exit_time := None;
     row_ce_strike := 22100; row_pe_strike := 21900;
     row_ce_entry_px := 120; row_pe_entry_px := 110;
     row_ce_hedge_strike := 22250; row_pe_hedge_strike := 21750;
     row_ce_hedge_px := 40; row_pe_hedge_px := 35;
     row_quantity := 65;
     row_premium_collected := (120 + 110 - 40 - 35) * inject_Z 65;
     row_realized_pnl := 0.0; row_unrealized_pnl := 0.0;
     row_status := "OPEN"; row_close_reason := None;
     row_adjustment_level := 0;
     row_net_delta := Py.sum (map delta_exposure legs_1);
     row_gamma_score :=
       compute_gamma_risk_score (map (gamma_pos 65) legs_1) 22000;
     row_strategy_type := "EXPIRY" |}.

(** The engine with that one structure open. *)
Definition one_open : State :=
  {| capital := 1000000; risk_pct := 2.0; num_lots := 1; is_running := true;
     lock_held := false;
     active_positions := {[ 1%Z := legs_1 ]};
     entry_spot := {[ 1%Z := 22000 ]};
     entry_time := {[ 1%Z := 600 ]};
     adjustment_counts := {[ 1%Z := 0%Z ]};
     trade_premium := {[ 1%Z := (120 + 110 - 40 - 35) * inject_Z 65 ]};
     spot := 22000; supertrend_dir := "BULLISH"; vwap := 0;
     trade_date := 100; trades_today := 1; daily_pnl := 0;
     db := {| trades := {[ 1%Z := row_1 ]}; next_trade_id := 2;
              adjustments := [] |};
     alerts := [EntryAlert 22100 21900 ((120 + 110 - 40 - 35) * inject_Z 65)
                  (Qabs 110 * inject_Z 65) 2.0 22000] |}.

(** A ledger holding a second structure as well. *)
Definition two_open : State :=
  register_trade 2 legs_1 22000 600 ((120 + 110 - 40 - 35) * inject_Z 65)
    one_open.

(** A short call against a long call of the same gamma, then the long call
    alone. *)
Definition short_call : GammaPos :=
  {| gp_gamma := Some 0.0005; gp_quantity := Some 65%Z;
     gp_side := Some "SELL"%string |}.

Definition long_call : GammaPos :=
  {| gp_gamma := Some 0.0005; gp_quantity := Some 65%Z;
     gp_side := Some "BUY"%string |}.

(** A short call sold at 100 and now quoted at 80, and the long call with
    the same prices. *)
Definition short_leg : Position :=
  new_position "NSE:NIFTY24JUN0622100CE" 22100 "CE" "SELL" 100 65
    (zero_greeks 0.15) false 600.

Definition short_leg_fallen : Position := reprice short_leg 80 (zero_greeks 0.15).

Definition long_leg_fallen : Position :=
  reprice
    (new_position "NSE:NIFTY24JUN0622250CE" 22250 "CE" "BUY" 100 65
       (zero_greeks 0.15) true 600)
    80 (zero_greeks 0.15).

(** Five bars: a rise, a collapse through the lower band, a recovery. *)
Definition sample_bars : list Bar :=
  [ {| open_ := 100; high := 102; low := 99; close := 101 |};
    {| open_ := 101; high := 104; low := 100; close := 103 |};
    {| open_ := 103; high := 103; low := 80; close := 81 |};
    {| open_ := 81; high := 83; low := 79; close := 80 |};
    {| open_ := 80; high := 120; low := 80; close := 119 |} ].

(** A cell of [direction] holding 1 or -1. *)
Definition assigned (cell : option (option Z)) : Prop :=
  cell = Some (Some 1%Z) \/ cell = Some (Some (-1)%Z).

(** Row [i] carries a copy of a basic band: with direction [up] the lower
    band of some row from 1 to [i], with direction [down] the upper band of
    such a row. *)
Definition follows_band
    {D : Type} (up down : D) (ub lb : list Q)
    (value : list (option Q)) (dir : list (option D)) (i : nat) : Prop :=
  (dir !! i = Some (Some up)
   /\ exists (j : nat) (x : Q),
        (1 <= j <= i)%nat /\ lb !! j = Some x
        /\ value !! i = Some (Some x))
  \/ (dir !! i = Some (Some down)
      /\ exists (j : nat) (x : Q),
           (1 <= j <= i)%nat /\ ub !! j = Some x
           /\ value !! i = Some (Some x)).

(** Three volume bars. *)
Definition sample_volume_bars : list VolBar :=
  [ {| vb_high := 102; vb_low := 99; vb_close := 101; vb_volume := 1000 |};
    {| vb_high := 104; vb_low := 100; vb_close := 103; vb_volume := 500 |};
    {| vb_high := 103; vb_low := 98; vb_close := 99; vb_volume := 2500 |} ].

(** The same bars after an opening bar on which nothing traded. *)
Definition sample_quiet_bars : list VolBar :=
  {| vb_high := 101; vb_low := 101; vb_close := 101; vb_volume := 0 |}
  :: sample_volume_bars.

(** The sum of the legs' exposure terms, written as a plain sum. *)
Definition exposure_sum (spot : Q) (legs : list GammaPos) : Q :=
  fold_right Qplus 0 (map (gamma_term spot) legs).

(** A dict that [compute_gamma_risk_score] reads as a short leg: its side
    is SELL or missing, its gamma and quantity (or their defaults) are not
    negative. *)
Definition reads_as_short (p : GammaPos) : Prop :=
  default "SELL"%string (gp_side p) = "SELL"%string
  /\ 0 <= default 0.0 (gp_gamma p)
  /\ (0 <= default 75 (gp_quantity p))%Z.

(** A dict that adds nothing to the exposure: its gamma is zero or missing,
    or its quantity is zero. *)
Definition reads_as_flat (p : GammaPos) : Prop :=
  default 0.0 (gp_gamma p) == 0 \/ default 75%Z (gp_quantity p) = 0%Z.

(** A long call whose Greeks were never filled in. *)
Definition blank_call : GammaPos :=
  {| gp_gamma := None; gp_quantity := Some 65%Z;
     gp_side := Some "BUY"%string |}.

(** The same engine with its capital set to zero, as the settings endpoint
    allows. *)
Definition one_open_no_capital : State :=
  {| capital := 0; risk_pct := risk_pct one_open;
     num_lots := num_lots one_open; is_running := is_running one_open;
     lock_held := lock_held one_open;
     active_positions := active_positions one_open;
     entry_spot := entry_spot one_open; entry_time := entry_time one_open;
     adjustment_counts := adjustment_counts one_open;
     trade_premium := trade_premium one_open; spot := spot one_open;
     supertrend_dir := supertrend_dir one_open; vwap := vwap one_open;
     trade_date := trade_date one_open;
     trades_today := trades_today one_open;
     daily_pnl := daily_pnl one_open; db := db one_open;
     alerts := alerts one_open |}.

(** 100 minutes after the entry, spot 22300. *)
Definition env_late : Env :=
  {| now := 700; time_of_day := 700; today := 100;
     get_spot_price := Some 22300;
     get_option_ltp := get_option_ltp env_tick;
     nearest_weekly_expiry := "24JUN06";
     years_to_expiry := 0.01 |}.

(** 15:20 on day 99, the time of the end-of-day report. *)
Definition env_eod : Env :=
  {| now := 920; time_of_day := 920; today := 99;
     get_spot_price := Some 22000;
     get_option_ltp := fun _ => None;
     nearest_weekly_expiry := "24JUN06";
     years_to_expiry := 0.01 |}.

(** The same structure after its Greeks have gone flat. *)
Definition one_calm : State :=
  set_active_positions
    (<[1%Z := map (fun p => reprice p (current_price p) (zero_greeks 0.15)) legs_1]>)
    one_open.

(** The same structure once every premium has doubled: buying back what was
    sold for 230 costs 460, what was bought for 75 sells for 150. *)
Definition one_doubled : State :=
  set_active_positions
    (<[1%Z := map (fun p => reprice p (2 * entry_price p) (greeks p)) legs_1]>)
    one_open.

(** The same structure once every premium has halved. *)
Definition one_halved : State :=
  set_active_positions
    (<[1%Z := map (fun p => reprice p (entry_price p / 2) (greeks p)) legs_1]>)
    one_open.

(** ** The per-trade maps *)

(** The five per-trade maps of the orchestrator. *)
Definition ledger (s : State) :
    gmap Z (list Position) * gmap Z Q * gmap Z Q * gmap Z Z * gmap Z Q :=
  (active_positions s, entry_spot s, entry_time s, adjustment_counts s,
   trade_premium s).

(** Their key sets. *)
Definition ledger_keys (s : State) :
    gset Z * gset Z * gset Z * gset Z * gset Z :=
  (dom (active_positions s), dom (entry_spot s), dom (entry_time s),
   dom (adjustment_counts s), dom (trade_premium s)).

(** The five maps have one and the same key set. *)
Definition keys_agree (s : State) : Prop :=
  dom (entry_spot s) = dom (active_positions s)
  /\ dom (entry_time s) = dom (active_positions s)
  /\ dom (adjustment_counts s) = dom (active_positions s)
  /\ dom (trade_premium s) = dom (active_positions s).

(** Every one of the five key sets is [f] of what it was. *)
Definition keys_become (f : gset Z -> gset Z) (s s' : State) : Prop :=
  dom (active_positions s') = f (dom (active_positions s))
  /\ dom (entry_spot s') = f (dom (entry_spot s))
  /\ dom (entry_time s') = f (dom (entry_time s))
  /\ dom (adjustment_counts s') = f (dom (adjustment_counts s))
  /\ dom (trade_premium s') = f (dom (trade_premium s)).

(** The state [close_position] reaches once the structure is off the
    ledger and the trade row is closed. *)
Definition closed_state
    (E : Env) (tid : Z) (reason : string) (pnl_ : Q) (s : State) : State :=
  set_db (update_trade tid (with_closed (now E) pnl_ reason))
    (set_daily_pnl (daily_pnl s + pnl_) (pop_trade tid s)).

(** The sum of the entry premiums of the legs on one side. *)
Definition premiums_of (sd : string) (legs : list Position) : Q :=
  Py.sum (map entry_price
            (List.filter (fun p => String.eqb (side p) sd) legs)).

(** What [open_position] must have registered when it returns [tid]. *)
Definition registered_structure (E : Env) (s s' : State) (tid : Z) : Prop :=
  exists (ce pe ceh peh : Position) (premium : Q),
    active_positions s' !! tid = Some [ce; pe; ceh; peh]
    /\ (side ce = "SELL"%string /\ is_hedge ce = false)
    /\ (side pe = "SELL"%string /\ is_hedge pe = false)
    /\ (side ceh = "BUY"%string /\ is_hedge ceh = true)
    /\ (side peh = "BUY"%string /\ is_hedge peh = true)
    /\ Forall (fun p => quantity p = (NIFTY_LOT_SIZE * num_lots s)%Z)
         [ce; pe; ceh; peh]
    /\ trade_premium s' !! tid = Some premium
    /\ premium
       == (premiums_of "SELL" [ce; pe; ceh; peh]
           - premiums_of "BUY" [ce; pe; ceh; peh])
          * inject_Z (NIFTY_LOT_SIZE * num_lots s)
    /\ trades_today s' = (trades_today (check_entry E s).2 + 1)%Z
    /\ (trade_date s = today E -> trades_today s' = (trades_today s + 1)%Z)
    /\ keys_become (fun d => {[tid]} ∪ d) s s'.

(** Relations between the state before and after a step. *)

(** The five key sets are what they were. *)
Definition keeps_keys (s s' : State) : Prop :=
  ledger_keys s' = ledger_keys s.

(** The same, for a step made on behalf of a structure of the ledger. *)
Definition keeps_keys_of (tid : Z) (s s' : State) : Prop :=
  tid ∈ dom (active_positions s) -> keys_agree s ->
  ledger_keys s' = ledger_keys s.

(** Agreement of the key sets survives and no key is added. *)
Definition shrinks (s s' : State) : Prop :=
  keys_agree s ->
  keys_agree s' /\ dom (active_positions s') ⊆ dom (active_positions s).

(** Every run of [m] relates the state it starts in to the one it leaves,
    however it ends. *)
Definition steps (R : State -> State -> Prop) {A : Type} (m : Run A) : Prop :=
  forall s : State, R s (m s).2.

(** The public operations of the engine. *)
Inductive Op : Type :=
| OpStart
| OpStop
| OpResetDay
| OpCheckEntry
| OpOpen (strategy_type : string)
| OpMonitor
| OpAdjust (tid : Z) (ospot : option Q)
| OpClose (tid : Z) (reason : string)
| OpCloseAll (reason : string).

(** The state an operation leaves behind, however it ends. *)
Definition after (M : MathLib) (C : Config) (E : Env) (op : Op) (s : State)
    : State :=
  match op with
  | OpStart => (start s).2
  | OpStop => (stop s).2
  | OpResetDay => (reset_day E s).2
  | OpCheckEntry => (check_entry E s).2
  | OpOpen st => (open_position M C E st s).2
  | OpMonitor => (monitor_positions M C E s).2
  | OpAdjust tid ospot => (adjust_positions M C E tid ospot s).2
  | OpClose tid reason => (close_position E tid reason s).2
  | OpCloseAll reason => (close_all_positions E reason s).2
  end.

(** The daily counter [check_entry] compares with the limit: reloaded from
    the store when the stored trade date is not today. *)
Definition counter_at_gate (E : Env) (s : State) : Z :=
  if bool_decide (trade_date s <> today E)
  then get_trade_count_today (today E) (db s)
  else trades_today s.

(** Whether a call ended waiting for the lock. *)
Definition is_blocked {A : Type} (o : Outcome A) : bool :=
  match o with
  | Blocked => true
  | _ => false
  end.

(** Started with the lock free, [m] comes back and leaves the lock free. *)
Definition lock_safe {A : Type} (m : Run A) : Prop :=
  forall s : State,
    lock_held s = false ->
    is_blocked (m s).1 = false /\ lock_held (m s).2 = false.

(** Whether an operation ends waiting for the lock. *)
Definition blocked_on
    (M : MathLib) (C : Config) (E : Env) (op : Op) (s : State) : bool :=
  match op with
  | OpStart => is_blocked (start s).1
  | OpStop => is_blocked (stop s).1
  | OpResetDay => is_blocked (reset_day E s).1
  | OpCheckEntry => is_blocked (check_entry E s).1
  | OpOpen st => is_blocked (open_position M C E st s).1
  | OpMonitor => is_blocked (monitor_positions M C E s).1
  | OpAdjust tid ospot => is_blocked (adjust_positions M C E tid ospot s).1
  | OpClose tid reason => is_blocked (close_position E tid reason s).1
  | OpCloseAll reason => is_blocked (close_all_positions E reason s).1
  end.

(** The ledger and the store are in step: every structure of the ledger
    has its trade row, marked OPEN. *)
Definition in_sync (s : State) : Prop :=
  forall tid : Z,
    tid ∈ dom (active_positions s) ->
    row_status <$> trades (db s) !! tid = Some "OPEN"%string.

(** A step that keeps ledger and store in step and the structures of the
    ledger the same ... *)
Definition sync_keeps (s s' : State) : Prop :=
  in_sync s ->
  in_sync s' /\ dom (active_positions s') = dom (active_positions s).

(** ... the same, for a step made on behalf of a structure of the
    ledger ... *)
Definition sync_keeps_of (tid : Z) (s s' : State) : Prop :=
  tid ∈ dom (active_positions s) -> sync_keeps s s'.

(** ... and a step that may take structures off the ledger. *)
Definition sync_shrinks (s s' : State) : Prop :=
  in_sync s ->
  in_sync s' /\ dom (active_positions s') ⊆ dom (active_positions s).

(** A run of operations, each at its own moment. *)
Fixpoint run_ops
    (M : MathLib) (C : Config) (ops : list (Env * Op)) (s : State) : State :=
  match ops with
  | [] => s
  | (E, op) :: rest => run_ops M C rest (after M C E op s)
  end.

(** Trade ids in the store are below the next id to hand out, as with an
    autoincrement key. *)
Definition store_fresh (d : Database) : Prop :=
  forall k : Z, k ∈ dom (trades d) -> (k < next_trade_id d)%Z.

(** What a step may do to the store: add rows under new ids, append to
    the adjustments, and never reopen a CLOSED row. *)
Definition store_grows (s s' : State) : Prop :=
  store_fresh (db s) ->
  store_fresh (db s')
  /\ dom (trades (db s)) ⊆ dom (trades (db s'))
  /\ (next_trade_id (db s) <= next_trade_id (db s'))%Z
  /\ adjustments (db s) `prefix_of` adjustments (db s')
  /\ forall tid : Z,
       row_status <$> trades (db s) !! tid = Some "CLOSED"%string ->
       row_status <$> trades (db s') !! tid = Some "CLOSED"%string.

(** The same, for a step that adds no row. *)
Definition store_steady (s s' : State) : Prop :=
  store_grows s s'
  /\ dom (trades (db s')) = dom (trades (db s))
  /\ next_trade_id (db s') = next_trade_id (db s).

(** * Properties *)

(** ** Python numbers *)

(** Division by a literal, rewritten as a product for [lra]. *)
Ltac qconst := unfold Qdiv in *; cbn [Qinv Qnum Qden] in *.

Section PyFacts.

Lemma leb_true (a b : Q) : Py.leb a b = true <-> a <= b.
Proof.
  unfold Py.leb. destruct (Qlt_le_dec b a) as [H | H]; split; intro K.
  - discriminate.
  - exfalso. lra.
  - exact H.
  - reflexivity.
Qed.

Lemma ltb_true (a b : Q) : Py.ltb a b = true <-> a < b.
Proof.
  unfold Py.ltb. destruct (Qlt_le_dec a b) as [H | H]; split; intro K.
  - exact H.
  - reflexivity.
  - discriminate.
  - exfalso. lra.
Qed.

Lemma leb_false (a b : Q) : Py.leb a b = false <-> b < a.
Proof.
  unfold Py.leb. destruct (Qlt_le_dec b a) as [H | H]; split; intro K;
    try discriminate; try reflexivity; try assumption.
  exfalso. lra.
Qed.

Lemma max_lower (a b : Q) : a <= Py.max a b /\ b <= Py.max a b.
Proof. unfold Py.max. destruct (Qlt_le_dec a b); split; lra. Qed.

Lemma max_cases (a b : Q) : Py.max a b = a \/ Py.max a b = b.
Proof. unfold Py.max. destruct (Qlt_le_dec a b); auto. Qed.

Lemma min_upper (a b : Q) : Py.min a b <= a /\ Py.min a b <= b.
Proof. unfold Py.min. destruct (Qlt_le_dec b a); split; lra. Qed.

Lemma min_cases (a b : Q) : Py.min a b = a \/ Py.min a b = b.
Proof. unfold Py.min. destruct (Qlt_le_dec b a); auto. Qed.

(** The clamp [max(lo, min(x, hi))] stays between its bounds. *)
Lemma clamp_between (lo hi x : Q) :
  lo <= hi -> lo <= Py.max lo (Py.min x hi) <= hi.
Proof.
  intros Hlh.
  destruct (max_lower lo (Py.min x hi)) as [H1 _].
  destruct (min_upper x hi) as [_ H3].
  split; [exact H1 |].
  destruct (max_cases lo (Py.min x hi)) as [-> | ->]; lra.
Qed.

Lemma max_mono (a x y : Q) : x <= y -> Py.max a x <= Py.max a y.
Proof.
  intros H. unfold Py.max.
  destruct (Qlt_le_dec a x), (Qlt_le_dec a y); lra.
Qed.

Lemma min_mono (a x y : Q) : x <= y -> Py.min a x <= Py.min a y.
Proof.
  intros H. unfold Py.min.
  destruct (Qlt_le_dec x a), (Qlt_le_dec y a); lra.
Qed.

(** *** Rounding *)

Lemma floor_bounds (q : Q) :
  inject_Z (Qfloor q) <= q /\ q < inject_Z (Qfloor q) + 1.
Proof.
  split; [apply Qfloor_le |].
  pose proof (Qlt_floor q) as H.
  rewrite inject_Z_plus in H. exact H.
Qed.

Lemma round_half_even_cases (q : Q) :
  Py.round_half_even q = Qfloor q
  \/ Py.round_half_even q = (Qfloor q + 1)%Z.
Proof.
  unfold Py.round_half_even.
  destruct (Qcompare _ _); [destruct (Z.even _) | |]; auto.
Qed.

Lemma round_half_even_mono (x y : Q) :
  x <= y -> (Py.round_half_even x <= Py.round_half_even y)%Z.
Proof.
  intros Hxy.
  pose proof (Qfloor_resp_le _ _ Hxy) as Hf.
  destruct (Z.eq_dec (Qfloor x) (Qfloor y)) as [Heq | Hne].
  - unfold Py.round_half_even. rewrite <- Heq.
    destruct (Qcompare_spec (x - inject_Z (Qfloor x)) (1 # 2)) as [Cx|Cx|Cx];
      destruct (Qcompare_spec (y - inject_Z (Qfloor x)) (1 # 2))
        as [Cy|Cy|Cy];
      try (destruct (Z.even (Qfloor x))); try lia; exfalso; lra.
  - destruct (round_half_even_cases x) as [-> | ->];
      destruct (round_half_even_cases y) as [-> | ->]; lia.
Qed.

Lemma round_half_even_Z (z : Z) : Py.round_half_even (inject_Z z) = z.
Proof.
  unfold Py.round_half_even. rewrite Qfloor_Z.
  assert (H : Qcompare (inject_Z z - inject_Z z) (1 # 2) = Lt).
  { rewrite <- Qlt_alt. generalize (inject_Z z). intros q. lra. }
  rewrite H. reflexivity.
Qed.

Lemma scale_pos (n : nat) : 0 < inject_Z (10 ^ Z.of_nat n).
Proof.
  replace 0 with (inject_Z 0) by reflexivity.
  rewrite <- Zlt_Qlt. apply Z.pow_pos_nonneg; lia.
Qed.

Lemma round_mono (x y : Q) (n : nat) :
  x <= y -> Py.round x n <= Py.round y n.
Proof.
  intros H. unfold Py.round.
  pose proof (scale_pos n) as Hs.
  set (sc := inject_Z (10 ^ Z.of_nat n)) in *.
  assert (Hm : x * sc <= y * sc) by nra.
  apply round_half_even_mono in Hm. rewrite Zle_Qle in Hm.
  apply Qmult_le_compat_r; [exact Hm |].
  apply Qlt_le_weak, Qinv_lt_0_compat, Hs.
Qed.

(** A value already on the decimal grid is left alone. *)
Lemma round_grid (z : Z) (n : nat) :
  Py.round (inject_Z z / inject_Z (10 ^ Z.of_nat n)) n
  == inject_Z z / inject_Z (10 ^ Z.of_nat n).
Proof.
  unfold Py.round.
  pose proof (scale_pos n) as Hs.
  set (sc := inject_Z (10 ^ Z.of_nat n)) in *.
  assert (He : inject_Z z / sc * sc == inject_Z z) by (field; lra).
  assert (Hr : Py.round_half_even (inject_Z z / sc * sc) = z).
  { apply Z.le_antisymm.
    - rewrite <- (round_half_even_Z z) at 2.
      apply round_half_even_mono. lra.
    - rewrite <- (round_half_even_Z z) at 1.
      apply round_half_even_mono. lra. }
  rewrite Hr. reflexivity.
Qed.

(** Rounding keeps a value between two grid points. *)
Lemma round_between (lo hi : Z) (q : Q) (n : nat) :
  inject_Z lo / inject_Z (10 ^ Z.of_nat n) <= q ->
  q <= inject_Z hi / inject_Z (10 ^ Z.of_nat n) ->
  inject_Z lo / inject_Z (10 ^ Z.of_nat n) <= Py.round q n
  /\ Py.round q n <= inject_Z hi / inject_Z (10 ^ Z.of_nat n).
Proof.
  intros Hlo Hhi. split.
  - rewrite <- (round_grid lo n). apply round_mono, Hlo.
  - rewrite <- (round_grid hi n). apply round_mono, Hhi.
Qed.

End PyFacts.

(** ** Option pricing *)

Section PricingFacts.
Context (M : MathLib).

Ltac opt_step H :=
  match type of H with
  | (mbind _ ?o) = Some _ =>
      let v := fresh "v" in
      destruct o as [v |] eqn:?; simpl in H; [| discriminate H]
  end.

(** One pass of the Newton-Raphson body leaves [sigma] where it was or at
    a clamped value. *)
Lemma iv_body_range
    (market_price S K T : Q) (option_type : string) (r sigma s' : Q)
    (stop_ : bool) :
  0.01 <= sigma <= 5.0 ->
  iv_body M market_price S K T option_type r sigma = Some (s', stop_) ->
  0.01 <= s' <= 5.0.
Proof.
  intros Hs H. unfold iv_body in H.
  do 5 opt_step H.
  destruct (Py.ltb _ _) in H.
  - inversion H; subst. exact Hs.
  - opt_step H. inversion H; subst.
    apply clamp_between. lra.
Qed.

Lemma iv_loop_range
    (n : nat) (market_price S K T : Q) (option_type : string)
    (r sigma : Q) (iters : nat) :
  0.01 <= sigma <= 5.0 ->
  0.01 <= fst (iv_loop M n market_price S K T option_type r sigma iters)
       <= 5.0.
Proof.
  revert sigma iters.
  induction n as [| n IH]; intros sigma iters Hs; simpl; [exact Hs |].
  destruct (iv_body M market_price S K T option_type r sigma)
    as [[s' [|]] |] eqn:Hb; simpl.
  - eapply iv_body_range; eauto.
  - apply IH. eapply iv_body_range; eauto.
  - exact Hs.
Qed.

Lemma iv_loop_count
    (n : nat) (market_price S K T : Q) (option_type : string)
    (r sigma : Q) (iters : nat) :
  (snd (iv_loop M n market_price S K T option_type r sigma iters)
   <= iters + n)%nat.
Proof.
  revert sigma iters.
  induction n as [| n IH]; intros sigma iters; simpl; [lia |].
  destruct (iv_body M market_price S K T option_type r sigma)
    as [[s' [|]] |]; simpl; try lia.
  specialize (IH s' (Datatypes.S iters)). lia.
Qed.

(** C6: with time to expiry at or below zero, [black_scholes_greeks]
    returns delta = gamma = theta = vega = 0 and an [iv] field that is the
    input volatility itself, whatever the spot, strike, rate, volatility
    and option type. *)
Theorem black_scholes_greeks_expired
    (S K T r sigma : Q) (option_type : string) :
  T <= 0 ->
  delta (black_scholes_greeks M S K T r sigma option_type) = 0
  /\ gamma (black_scholes_greeks M S K T r sigma option_type) = 0
  /\ theta (black_scholes_greeks M S K T r sigma option_type) = 0
  /\ vega (black_scholes_greeks M S K T r sigma option_type) = 0
  /\ iv (black_scholes_greeks M S K T r sigma option_type) = sigma.
Proof.
  intros HT. unfold black_scholes_greeks.
  apply leb_true in HT. rewrite HT. simpl. repeat split.
Qed.

(** C7: [estimate_iv_from_price] makes at most 100 passes through the
    Newton-Raphson body, and the volatility it returns lies in
    [0.01, 5.0] on every path: the guard for expired or non-positive
    prices, the small-vega exit, convergence, exhaustion of the loop and a
    numeric fault inside the body. *)
Theorem estimate_iv_bounded
    (market_price S K T : Q) (option_type : string) (r : Q) :
  (iv_iterations M market_price S K T option_type r <= 100)%nat
  /\ 0.01 <= estimate_iv_from_price M market_price S K T option_type r
  /\ estimate_iv_from_price M market_price S K T option_type r <= 5.0.
Proof.
  unfold iv_iterations, estimate_iv_from_price.
  destruct (Py.leb T 0 || Py.leb market_price 0).
  - split; [lia | split; lra].
  - split.
    + pose proof (iv_loop_count 100 market_price S K T option_type r
                    0.20 0) as H. lia.
    + assert (Hs : 0.01 <= 0.20 <= 5.0) by lra.
      pose proof (iv_loop_range 100 market_price S K T option_type r
                    0.20 0 Hs) as [Hlo Hhi].
      set (x := fst (iv_loop M 100 market_price S K T option_type r
                       0.20 0)) in *.
      assert (E1 : inject_Z 100 / inject_Z (10 ^ Z.of_nat 4) == 0.01)
        by reflexivity.
      assert (E2 : inject_Z 50000 / inject_Z (10 ^ Z.of_nat 4) == 5.0)
        by reflexivity.
      pose proof (round_between 100 50000 x 4) as Hr.
      rewrite E1, E2 in Hr. apply Hr; assumption.
Qed.

End PricingFacts.

Lemma black_scholes_greeks_expired_witness :
  - (1 # 365) <= 0
  /\ delta (black_scholes_greeks linear_math 22000 22100 (- (1 # 365))
              0.065 0.15 "CE") = 0
  /\ gamma (black_scholes_greeks linear_math 22000 22100 (- (1 # 365))
              0.065 0.15 "CE") = 0
  /\ theta (black_scholes_greeks linear_math 22000 22100 (- (1 # 365))
              0.065 0.15 "CE") = 0
  /\ vega (black_scholes_greeks linear_math 22000 22100 (- (1 # 365))
             0.065 0.15 "CE") = 0
  /\ iv (black_scholes_greeks linear_math 22000 22100 (- (1 # 365))
           0.065 0.15 "CE") = 0.15.
Proof.
  assert (H : - (1 # 365) <= 0) by (vm_compute; discriminate).
  split; [exact H |].
  exact (black_scholes_greeks_expired linear_math 22000 22100 (- (1 # 365))
           0.065 0.15 "CE" H).
Defined.

(** ** Gamma risk score *)

Section ScoreFacts.

Lemma score_mono (e1 e2 : Q) :
  e1 <= e2 -> score_of_exposure e1 <= score_of_exposure e2.
Proof.
  intros H. unfold score_of_exposure. cbv zeta. apply round_mono.
  pose proof (max_mono (-50000) _ _ (min_mono 50000 _ _ H)) as Hc.
  set (c1 := Py.max (-50000) (Py.min 50000 e1)) in *.
  set (c2 := Py.max (-50000) (Py.min 50000 e2)) in *.
  clearbody c1 c2. qconst. lra.
Qed.

Lemma score_range (e : Q) : 0 <= score_of_exposure e <= 100.
Proof.
  unfold score_of_exposure. cbv zeta.
  assert (Hc : -50000 <= Py.max (-50000) (Py.min 50000 e) <= 50000).
  { destruct (max_lower (-50000) (Py.min 50000 e)) as [H1 _].
    destruct (min_upper 50000 e) as [H2 _].
    split; [exact H1 |].
    destruct (max_cases (-50000) (Py.min 50000 e)) as [-> | ->]; lra. }
  set (c := Py.max (-50000) (Py.min 50000 e)) in *. clearbody c.
  assert (E1 : inject_Z 0 / inject_Z (10 ^ Z.of_nat 2) == 0) by reflexivity.
  assert (E2 : inject_Z 10000 / inject_Z (10 ^ Z.of_nat 2) == 100)
    by reflexivity.
  pose proof (round_between 0 10000 (50 + c / 50000 * 50) 2) as Hr.
  rewrite E1, E2 in Hr. apply Hr; qconst; lra.
Qed.

Lemma score_neutral (e : Q) : e == 0 -> score_of_exposure e == 50.
Proof.
  intros He.
  assert (H50 : score_of_exposure 0 == 50) by reflexivity.
  apply Qle_antisym.
  - rewrite <- H50. apply score_mono. lra.
  - rewrite <- H50. apply score_mono. lra.
Qed.

(** C8: for every list of legs and every spot the gamma risk score lies in
    [0, 100]; it is exactly 50 when the signed aggregate exposure (the sum
    over legs of sign * gamma * quantity * spot, sign -1 for SELL legs) is
    zero; and it is non-decreasing in that exposure: of two leg sets, the
    one with the larger aggregate exposure never scores lower. *)
Theorem gamma_risk_score_profile
    (legs1 legs2 : list GammaPos) (spot1 spot2 : Q) :
  (0 <= compute_gamma_risk_score legs1 spot1
   /\ compute_gamma_risk_score legs1 spot1 <= 100)
  /\ (total_gamma_exposure legs1 spot1 == 0 ->
      compute_gamma_risk_score legs1 spot1 == 50)
  /\ (total_gamma_exposure legs1 spot1 <= total_gamma_exposure legs2 spot2 ->
      compute_gamma_risk_score legs1 spot1
      <= compute_gamma_risk_score legs2 spot2).
Proof.
  unfold compute_gamma_risk_score. split; [| split].
  - apply score_range.
  - apply score_neutral.
  - apply score_mono.
Qed.

End ScoreFacts.

Lemma gamma_risk_score_profile_witness :
  total_gamma_exposure [short_call; long_call] 22000 == 0
  /\ total_gamma_exposure [short_call; long_call] 22000
     <= total_gamma_exposure [long_call] 22000
  /\ compute_gamma_risk_score [short_call; long_call] 22000 == 50
  /\ compute_gamma_risk_score [short_call; long_call] 22000
     <= compute_gamma_risk_score [long_call] 22000.
Proof.
  assert (H0 : total_gamma_exposure [short_call; long_call] 22000 == 0)
    by reflexivity.
  assert (Hle : total_gamma_exposure [short_call; long_call] 22000
                <= total_gamma_exposure [long_call] 22000)
    by (vm_compute; discriminate).
  destruct (gamma_risk_score_profile [short_call; long_call] [long_call]
              22000 22000) as (_ & Hn & Hm).
  split; [exact H0 |]. split; [exact Hle |].
  split; [exact (Hn H0) | exact (Hm Hle)].
Defined.

(** ** Leg P&L *)

(** C4 (what the code does): [Position.pnl] is
    sign * (entry_price - current_price) * quantity with sign -1 for SELL and
    +1 for any other side.  With that sign a SELL leg of positive quantity
    whose current price is strictly below its entry price has strictly
    negative P&L: the credit leg does not gain when the price falls, it
    gains when the price rises. *)
Theorem leg_pnl_sign_inverted (p : Position) :
  pnl p
  == (if String.eqb (side p) "SELL" then -1 else 1)
     * (entry_price p - current_price p) * inject_Z (quantity p)
  /\ ((0 < quantity p)%Z ->
      side p = "SELL"%string ->
      (current_price p < entry_price p -> pnl p < 0)
      /\ (entry_price p < current_price p -> 0 < pnl p)).
Proof.
  split; [reflexivity |].
  intros Hq Hs.
  assert (Hq' : 0 < inject_Z (quantity p)).
  { replace 0 with (inject_Z 0) by reflexivity. rewrite <- Zlt_Qlt. exact Hq. }
  unfold pnl, leg_sign. rewrite Hs. simpl.
  set (q := inject_Z (quantity p)) in *. clearbody q.
  split; intros Hpx; nra.
Qed.

Lemma leg_pnl_sign_inverted_witness :
  (0 < quantity short_leg_fallen)%Z
  /\ side short_leg_fallen = "SELL"%string
  /\ current_price short_leg_fallen < entry_price short_leg_fallen
  /\ pnl short_leg_fallen < 0.
Proof.
  assert (Hq : (0 < quantity short_leg_fallen)%Z) by reflexivity.
  assert (Hs : side short_leg_fallen = "SELL"%string) by reflexivity.
  assert (Hpx : current_price short_leg_fallen < entry_price short_leg_fallen)
    by reflexivity.
  destruct (leg_pnl_sign_inverted short_leg_fallen) as [_ H].
  destruct (H Hq Hs) as [Hfall _].
  exact (conj Hq (conj Hs (conj Hpx (Hfall Hpx)))).
Defined.

(** The short leg sold at 100 and quoted at 80 (65 contracts): buying it
    back keeps 20 a contract, and its P&L reads -1300. *)
Example short_leg_price_fall_is_a_loss :
  side short_leg_fallen = "SELL"%string
  /\ current_price short_leg_fallen < entry_price short_leg_fallen
  /\ pnl short_leg_fallen == -1300.
Proof. repeat split. Qed.

(** The long leg with the same prices, worth 20 a contract less than it
    cost, reads +1300. *)
Example long_leg_price_fall_is_a_gain :
  side long_leg_fallen = "BUY"%string /\ pnl long_leg_fallen == 1300.
Proof. split; reflexivity. Qed.

(** The rest of the engine reads a positive P&L as profit.  Once every
    premium of the structure has doubled, closing it costs 10075 more than
    it collected, its mark-to-market reads +10075, and the target check
    closes it as TARGET_HIT with that figure as realized P&L ... *)
Example target_hit_on_doubled_premiums :
  calculate_mtm (Some 1%Z) one_doubled == 10075
  /\ (row_close_reason
        <$> trades
              (db (_check_expiry_targets example_config env_tick 1
                     one_doubled).2) !! 1%Z
      = Some (Some "TARGET_HIT"%string))
  /\ (row_realized_pnl
        <$> trades
              (db (_check_expiry_targets example_config env_tick 1
                     one_doubled).2) !! 1%Z
      = Some (calculate_mtm (Some 1%Z) one_doubled)).
Proof.
  split; [reflexivity |].
  split; vm_compute; reflexivity.
Qed.

(** ... and once every premium has halved, so that closing would keep half
    of the credit, the mark-to-market is negative and the target check
    leaves the structure open. *)
Example no_target_on_halved_premiums :
  calculate_mtm (Some 1%Z) one_halved < 0
  /\ _check_expiry_targets example_config env_tick 1 one_halved
     = (Returned tt, one_halved).
Proof.
  split; [reflexivity |].
  vm_compute. reflexivity.
Qed.

(** ** Supertrend *)

Section SupertrendFacts.

Lemma step_direction
    (closes ub lb : list Q) (s : StSeries) (i : nat) :
  exists d : Z,
    (d = 1 \/ d = -1)%Z
    /\ direction (supertrend_step closes ub lb s i)
       = <[i := Some d]> (direction s).
Proof.
  unfold supertrend_step.
  destruct (if (i =? 1)%nat then _ else _) as [final_ub final_lb].
  destruct (dir_is _ 1).
  - destruct (nan_lt _ _); simpl; eauto.
  - destruct (nan_gt _ _); simpl; eauto.
Qed.

Lemma step_length (closes ub lb : list Q) (s : StSeries) (i : nat) :
  length (direction (supertrend_step closes ub lb s i))
  = length (direction s).
Proof.
  destruct (step_direction closes ub lb s i) as (d & _ & ->).
  apply length_insert.
Qed.

(** The body assigns its own cell ... *)
Lemma step_assigns (closes ub lb : list Q) (s : StSeries) (i : nat) :
  (i < length (direction s))%nat ->
  assigned (direction (supertrend_step closes ub lb s i) !! i).
Proof.
  intros Hi.
  destruct (step_direction closes ub lb s i) as (d & Hd & ->).
  rewrite list_lookup_insert_eq by exact Hi.
  destruct Hd as [-> | ->]; [left | right]; reflexivity.
Qed.

(** ... and never unassigns another. *)
Lemma step_keeps (closes ub lb : list Q) (s : StSeries) (i j : nat) :
  assigned (direction s !! j) ->
  assigned (direction (supertrend_step closes ub lb s i) !! j).
Proof.
  intros Hj.
  destruct (Nat.eq_dec i j) as [-> | Hne].
  - apply step_assigns.
    apply lookup_lt_is_Some. destruct Hj as [-> | ->]; eauto.
  - destruct (step_direction closes ub lb s i) as (d & _ & ->).
    rewrite list_lookup_insert_ne by exact Hne. exact Hj.
Qed.

Lemma loop_length (closes ub lb : list Q) (idx : list nat) (s : StSeries) :
  length (direction (fold_left (supertrend_step closes ub lb) idx s))
  = length (direction s).
Proof.
  revert s. induction idx as [| i idx IH]; intros s; simpl; [reflexivity |].
  rewrite IH. apply step_length.
Qed.

Lemma loop_keeps
    (closes ub lb : list Q) (idx : list nat) (s : StSeries) (j : nat) :
  assigned (direction s !! j) ->
  assigned
    (direction (fold_left (supertrend_step closes ub lb) idx s) !! j).
Proof.
  revert s. induction idx as [| i idx IH]; intros s Hj; simpl; [exact Hj |].
  apply IH, step_keeps, Hj.
Qed.

Lemma loop_assigns
    (closes ub lb : list Q) (idx : list nat) (s : StSeries) (j : nat) :
  In j idx ->
  (j < length (direction s))%nat ->
  assigned
    (direction (fold_left (supertrend_step closes ub lb) idx s) !! j).
Proof.
  revert s. induction idx as [| i idx IH]; intros s Hin Hj; simpl.
  - destruct Hin.
  - destruct Hin as [-> | Hin].
    + apply loop_keeps, step_assigns, Hj.
    + apply IH; [exact Hin |]. rewrite step_length. exact Hj.
Qed.

(** C9: on an OHLC frame of at least two bars (and a smoothing span that
    pandas accepts, span >= 1) [compute_supertrend] returns, and every bar
    after the first carries the direction BULLISH or BEARISH, never a
    missing one. *)
Theorem supertrend_direction_defined
    (df : list Bar) (period : Z) (multiplier : Q) :
  (2 <= length df)%nat ->
  (1 <= period)%Z ->
  exists out : SupertrendFrame,
    compute_supertrend df period multiplier = Some out
    /\ length (st_direction out) = length df
    /\ forall i : nat,
         (1 <= i < length df)%nat ->
         st_direction out !! i = Some (Some "BULLISH"%string)
         \/ st_direction out !! i = Some (Some "BEARISH"%string).
Proof.
  intros Hlen Hp. unfold compute_supertrend, ewm_mean.
  destruct (period <? 1)%Z eqn:Hlt; [apply Z.ltb_lt in Hlt; lia |].
  simpl. eexists. split; [reflexivity |]. simpl. split.
  - rewrite length_map, loop_length. simpl. apply length_replicate.
  - intros i Hi. rewrite list_lookup_fmap.
    match goal with
    | |- context [fold_left (supertrend_step ?c ?u ?l) ?idx ?s] =>
        pose proof (loop_assigns c u l idx s i) as Ha
    end.
    destruct Ha as [Ha | Ha].
    + apply in_seq. lia.
    + simpl. rewrite length_replicate. lia.
    + left. rewrite Ha. reflexivity.
    + right. rewrite Ha. reflexivity.
Qed.

End SupertrendFacts.

Lemma supertrend_direction_defined_witness :
  (2 <= length sample_bars)%nat
  /\ (1 <= 3)%Z
  /\ exists out : SupertrendFrame,
       compute_supertrend sample_bars 3 (1 # 2) = Some out
       /\ length (st_direction out) = length sample_bars
       /\ forall i : nat,
            (1 <= i < length sample_bars)%nat ->
            st_direction out !! i = Some (Some "BULLISH"%string)
            \/ st_direction out !! i = Some (Some "BEARISH"%string).
Proof.
  assert (H1 : (2 <= length sample_bars)%nat) by (simpl; lia).
  assert (H2 : (1 <= 3)%Z) by lia.
  exact (conj H1 (conj H2
           (supertrend_direction_defined sample_bars 3 (1 # 2) H1 H2))).
Defined.

(** The directions of the sample: the second bar opens bullish, the
    collapse turns the trend, the last bar turns it back. *)
Example sample_directions :
  st_direction <$> compute_supertrend sample_bars 3 (1 # 2)
  = Some [None; Some "BULLISH"; Some "BEARISH"; Some "BEARISH";
          Some "BULLISH"]%string.
Proof. vm_compute. reflexivity. Qed.

(** ** Running methods *)

(* Numeric and selection code stays folded while the control flow of a
   method is simplified. *)
Arguments l3_triggered : simpl never.
Arguments l2_breach : simpl never.
Arguments legs_pnl : simpl never.
Arguments _find_strike_by_delta : simpl never.
Arguments _get_simulated_ltp : simpl never.
Arguments bs : simpl never.
Arguments black_scholes_greeks : simpl never.
Arguments compute_gamma_risk_score : simpl never.
Arguments round_to_strike : simpl never.
Arguments build_option_symbol : simpl never.
Arguments reprice_legs : simpl never.
Arguments get_trade_count_today : simpl never.
Arguments get_open_trades : simpl never.
Arguments time_to_expiry : simpl never.
Arguments Py.div : simpl never.
Arguments Py.leb : simpl never.
Arguments Py.ltb : simpl never.
Arguments Py.geb : simpl never.
Arguments Py.gtb : simpl never.
Arguments Py.max : simpl never.
Arguments Py.sum : simpl never.
Arguments Py.otruthy : simpl never.
Arguments Py.truthy : simpl never.
Arguments effective_spot : simpl never.
Arguments indexed : simpl never.
Arguments first_max : simpl never.
Arguments Qabs : simpl never.
Arguments Qplus : simpl never.
Arguments Qminus : simpl never.
Arguments Qmult : simpl never.
Arguments Qdiv : simpl never.
Arguments Qopp : simpl never.
Arguments inject_Z : simpl never.
Arguments Z.leb : simpl never.
Arguments Nat.leb : simpl never.
Arguments Z.mul : simpl never.
Arguments Z.add : simpl never.

Section RunFacts.

Lemma bind_eq {A B : Type} (m : Run A) (k : A -> Run B) (s : State) :
  (m ≫= k) s
  = match m s with
    | (Returned a, s') => k a s'
    | (Raised e, s') => (Raised e, s')
    | (Blocked, s') => (Blocked, s')
    end.
Proof. reflexivity. Qed.

Lemma set_lock_pop (tid : Z) (s : State) :
  lock_held s = false ->
  set_lock false (pop_trade tid (set_lock true s)) = pop_trade tid s.
Proof. destruct s; simpl; intros ->; reflexivity. Qed.

Lemma set_lock_register
    (tid : Z) (legs : list Position) (sp t pr : Q) (s : State) :
  lock_held s = false ->
  set_lock false (register_trade tid legs sp t pr (set_lock true s))
  = register_trade tid legs sp t pr s.
Proof. destruct s; simpl; intros ->; reflexivity. Qed.

(** [close_position] on a structure of the ledger, lock free. *)
Lemma close_position_open
    (E : Env) (tid : Z) (reason : string) (s : State)
    (legs : list Position) :
  active_positions s !! tid = Some legs ->
  lock_held s = false ->
  close_position E tid reason s
  = match Py.div (legs_pnl legs) (capital s) with
    | Some share =>
        (Returned (legs_pnl legs),
         push_alert (ExitAlert tid (legs_pnl legs) (share * 100) reason)
           (closed_state E tid reason (legs_pnl legs) s))
    | None =>
        (Raised Py.NumericFault, closed_state E tid reason (legs_pnl legs) s)
    end.
Proof.
  intros Hl Hk. unfold close_position.
  rewrite bind_eq. simpl. rewrite Hl.
  rewrite bind_eq. unfold with_lock at 1. rewrite Hk. simpl.
  rewrite (set_lock_pop tid s Hk).
  repeat (rewrite bind_eq; simpl).
  unfold closed_state.
  destruct (Py.div (legs_pnl legs) (capital s)); reflexivity.
Qed.

(** [close_position] on a structure of the ledger while the lock is held
    never comes back, and has changed nothing. *)
Lemma close_position_held
    (E : Env) (tid : Z) (reason : string) (s : State)
    (legs : list Position) :
  active_positions s !! tid = Some legs ->
  lock_held s = true ->
  close_position E tid reason s = (Blocked, s).
Proof.
  intros Hl Hk. unfold close_position.
  rewrite bind_eq. simpl. rewrite Hl.
  rewrite bind_eq. unfold with_lock at 1. rewrite Hk. reflexivity.
Qed.

Lemma close_position_unknown
    (E : Env) (tid : Z) (reason : string) (s : State) :
  active_positions s !! tid = None ->
  close_position E tid reason s = (Returned 0.0, s).
Proof.
  intros Hl. unfold close_position. rewrite bind_eq. simpl. rewrite Hl.
  reflexivity.
Qed.

Lemma div_nonzero (x y : Q) : ~ y == 0 -> Py.div x y = Some (x / y).
Proof.
  intros H. unfold Py.div.
  destruct (Qeq_bool y 0) eqn:Hq; [| reflexivity].
  apply Qeq_bool_iff in Hq. contradiction.
Qed.

Lemma otruthy_nonzero (x : Q) : ~ x == 0 -> Py.otruthy (Some x) = true.
Proof.
  intros H. unfold Py.otruthy, Py.truthy.
  destruct (Qeq_bool x 0) eqn:Hq; [| reflexivity].
  apply Qeq_bool_iff in Hq. contradiction.
Qed.

End RunFacts.

(** ** Closing *)

Section CloseFacts.

(** C3: [close_position] on a trade id that is not in the live ledger
    returns 0.0 and leaves the whole engine state (ledger, daily P&L, store,
    notifications) as it was; hence, once a first call for an id has come
    back (by returning or raising), a second call for the same id returns
    0.0 and changes nothing. *)
Theorem close_position_idempotent
    (E1 E2 : Env) (tid : Z) (r1 r2 : string) (s : State) :
  (active_positions s !! tid = None ->
   close_position E1 tid r1 s = (Returned 0.0, s))
  /\ ((close_position E1 tid r1 s).1 <> Blocked ->
      close_position E2 tid r2 (close_position E1 tid r1 s).2
      = (Returned 0.0, (close_position E1 tid r1 s).2)).
Proof.
  split; [apply close_position_unknown |].
  intros Hnb.
  destruct (active_positions s !! tid) as [legs |] eqn:Hl.
  - destruct (lock_held s) eqn:Hk.
    + rewrite (close_position_held E1 tid r1 s legs Hl Hk) in Hnb.
      exfalso. apply Hnb. reflexivity.
    + rewrite (close_position_open E1 tid r1 s legs Hl Hk).
      destruct (Py.div (legs_pnl legs) (capital s)); simpl;
        apply close_position_unknown; simpl; apply lookup_delete_eq.
  - rewrite (close_position_unknown E1 tid r1 s Hl). simpl.
    apply close_position_unknown, Hl.
Qed.

(** [reset_day] with an empty ledger clears the maps and the counters. *)
Lemma reset_day_idle (E : Env) (s : State) :
  lock_held s = false ->
  active_positions s = ∅ ->
  reset_day E s = (Returned tt, clear_day (today E) s).
Proof.
  intros Hk He. unfold reset_day, with_lock. rewrite Hk.
  rewrite bind_eq. simpl. unfold trade_ids. simpl. rewrite He.
  rewrite map_to_list_empty. simpl.
  destruct s; simpl in *; subst; reflexivity.
Qed.

(** [reset_day] takes the ledger lock and then calls [close_position],
    which takes the same lock again: with a structure open the call waits
    on itself. *)
Lemma reset_day_waits_on_itself (E : Env) (s : State) :
  lock_held s = false ->
  active_positions s <> ∅ ->
  reset_day E s = (Blocked, set_lock true s).
Proof.
  intros Hk Hne. unfold reset_day, with_lock. rewrite Hk.
  rewrite bind_eq. simpl. rewrite bind_eq.
  unfold trade_ids. simpl.
  destruct (map_to_list (active_positions s)) as [| [tid legs] rest] eqn:Hm.
  - apply map_to_list_empty_iff in Hm. contradiction.
  - assert (Hl : active_positions (set_lock true s) !! tid = Some legs).
    { simpl. apply elem_of_map_to_list. rewrite Hm. left. }
    simpl. rewrite bind_eq. unfold _force_close_trade. rewrite bind_eq.
    rewrite (close_position_held E tid "DAY_RESET" _ legs Hl eq_refl).
    reflexivity.
Qed.

(** C5 (what the code does): called with any structure open, [reset_day]
    never returns; no structure is closed or taken off the ledger, the
    store and the notifications are untouched, and the daily trade counter
    and daily P&L are not reset. *)
Theorem reset_day_blocks_on_open_structures (E : Env) (s : State) :
  lock_held s = false ->
  active_positions s <> ∅ ->
  (reset_day E s).1 = Blocked
  /\ ledger (reset_day E s).2 = ledger s
  /\ db (reset_day E s).2 = db s
  /\ alerts (reset_day E s).2 = alerts s
  /\ trades_today (reset_day E s).2 = trades_today s
  /\ daily_pnl (reset_day E s).2 = daily_pnl s.
Proof.
  intros Hk Hne. rewrite (reset_day_waits_on_itself E s Hk Hne).
  repeat split.
Qed.

End CloseFacts.

Lemma close_position_idempotent_witness :
  active_positions one_open !! 7%Z = None
  /\ close_position env_tick 7 "MANUAL" one_open = (Returned 0.0, one_open)
  /\ (close_position env_tick 1 "MANUAL" one_open).1 <> Blocked
  /\ close_position env_tick 1 "MANUAL"
       (close_position env_tick 1 "MANUAL" one_open).2
     = (Returned 0.0, (close_position env_tick 1 "MANUAL" one_open).2).
Proof.
  assert (H7 : active_positions one_open !! 7%Z = None) by reflexivity.
  assert (H1 : (close_position env_tick 1 "MANUAL" one_open).1 <> Blocked)
    by (vm_compute; discriminate).
  exact (conj H7
           (conj
              (proj1 (close_position_idempotent env_tick env_tick 7
                        "MANUAL" "MANUAL" one_open) H7)
              (conj H1
                 (proj2 (close_position_idempotent env_tick env_tick 1
                           "MANUAL" "MANUAL" one_open) H1)))).
Defined.

Lemma reset_day_blocks_on_open_structures_witness :
  lock_held one_open = false
  /\ active_positions one_open <> ∅
  /\ (reset_day env_tick one_open).1 = Blocked
  /\ ledger (reset_day env_tick one_open).2 = ledger one_open
  /\ db (reset_day env_tick one_open).2 = db one_open
  /\ alerts (reset_day env_tick one_open).2 = alerts one_open
  /\ trades_today (reset_day env_tick one_open).2 = trades_today one_open
  /\ daily_pnl (reset_day env_tick one_open).2 = daily_pnl one_open.
Proof.
  assert (Hk : lock_held one_open = false) by reflexivity.
  assert (Hne : active_positions one_open <> ∅).
  { intros H. apply (f_equal (fun m => m !! 1%Z)) in H. discriminate H. }
  exact (conj Hk (conj Hne
           (reset_day_blocks_on_open_structures env_tick one_open Hk Hne))).
Defined.

(** The same with two structures open: both are still on the ledger and
    still OPEN in the store, and the daily counter is not reset. *)
Example reset_day_two_open :
  (reset_day env_tick two_open).1 = Blocked
  /\ dom (active_positions (reset_day env_tick two_open).2) = {[ 1%Z; 2%Z ]}
  /\ trades_today (reset_day env_tick two_open).2 = 2%Z
  /\ row_status <$> trades (db (reset_day env_tick two_open).2) !! 1%Z
     = Some "OPEN"%string.
Proof.
  assert (Hne : active_positions two_open <> ∅).
  { intros H. apply (f_equal (fun m => m !! 1%Z)) in H. discriminate H. }
  rewrite (reset_day_waits_on_itself env_tick two_open eq_refl Hne).
  split; [reflexivity |].
  split; [| split; reflexivity].
  simpl. rewrite dom_insert_L, dom_singleton_L. set_solver.
Qed.

(** ** Gamma defence *)

Section DefenceFacts.
Context (M : MathLib) (C : Config) (E : Env).

Lemma geb_true (a b : Q) : Py.geb a b = true <-> b <= a.
Proof. unfold Py.geb. apply leb_true. Qed.

(** C1 (as the code has it): when [adjust_positions] evaluates a structure
    of the ledger from a tick that does not itself hold the ledger lock, and
    the Level-3 condition holds (|spot - entry spot| / entry spot at or above
    the L3 move threshold, minutes since entry at or below the L3 window),
    then exactly one adjustment record is appended, of level 3 and action
    CLOSE_ALL; the structure leaves all five per-trade maps, its P&L is added
    to the daily P&L and its row is closed with reason GAMMA_L3; no leg of
    any structure is rolled, no other adjustment record is written, and the
    only notification is the exit alert (which is lost, the call raising,
    when the capital is zero). *)
Theorem level3_closes_structure
    (tid : Z) (ospot : option Q) (s : State)
    (legs : list Position) (sp es et prem : Q) :
  lock_held s = false ->
  active_positions s !! tid = Some legs ->
  entry_spot s !! tid = Some es ->
  entry_time s !! tid = Some et ->
  trade_premium s !! tid = Some prem ->
  effective_spot E ospot s = Some sp ->
  ~ sp == 0 ->
  ~ es == 0 ->
  GAMMA_L3_SPOT_MOVE C <= Qabs (sp - es) / es ->
  now E - et <= GAMMA_L3_TIME_WINDOW C ->
  adjustments (db (adjust_positions M C E tid ospot s).2)
  = adjustments (db s)
    ++ [ {| adj_trade_id := tid; adj_level := 3; adj_action := CLOSE_ALL;
            adj_reason := MoveIn (Qabs (sp - es) / es * 100) (now E - et);
            adj_spot := sp; adj_pnl := legs_pnl legs; adj_time := now E |} ]
  /\ ledger (adjust_positions M C E tid ospot s).2
     = (delete tid (active_positions s), delete tid (entry_spot s),
        delete tid (entry_time s), delete tid (adjustment_counts s),
        delete tid (trade_premium s))
  /\ trades (db (adjust_positions M C E tid ospot s).2)
     = alter (with_closed (now E) (legs_pnl legs) "GAMMA_L3") tid
         (alter (with_adjustment_level 3) tid (trades (db s)))
  /\ daily_pnl (adjust_positions M C E tid ospot s).2
     = daily_pnl s + legs_pnl legs
  /\ (adjust_positions M C E tid ospot s).1 <> Blocked
  /\ (alerts (adjust_positions M C E tid ospot s).2 = alerts s
      \/ exists share : Q,
           alerts (adjust_positions M C E tid ospot s).2
           = alerts s
             ++ [ExitAlert tid (legs_pnl legs) share "GAMMA_L3"])
  /\ (~ capital s == 0 ->
      (adjust_positions M C E tid ospot s).1 = Returned tt).
Proof.
  intros Hk Hl Hes Het Hpr Hsp Hnz Hez Hmove Hwin.
  unfold adjust_positions.
  rewrite bind_eq. simpl. rewrite Hl, Hsp.
  rewrite (otruthy_nonzero sp Hnz). simpl.
  rewrite Hes, Het, Hpr. simpl.
  repeat (rewrite bind_eq; simpl).
  rewrite (div_nonzero _ es Hez). simpl.
  assert (H3 : l3_triggered C (Qabs (sp - es) / es) (now E - et) = true).
  { unfold l3_triggered. apply andb_true_intro. split.
    - apply geb_true, Hmove.
    - apply leb_true, Hwin. }
  rewrite H3.
  rewrite bind_eq. unfold _record_adjustment.
  repeat (rewrite bind_eq; simpl).
  match goal with
  | |- context [close_position E tid "GAMMA_L3" ?s1] =>
      rewrite (close_position_open E tid "GAMMA_L3" s1 legs Hl Hk)
  end.
  simpl.
  destruct (Py.div (legs_pnl legs) (capital s)) as [share |] eqn:Hd; simpl.
  - repeat split; try reflexivity; try discriminate.
    right. eexists. reflexivity.
  - repeat split; try reflexivity; try discriminate.
    + left. reflexivity.
    + intros Hc. rewrite (div_nonzero _ _ Hc) in Hd. discriminate Hd.
Qed.

End DefenceFacts.

Lemma level3_closes_structure_witness :
  lock_held one_open = false
  /\ active_positions one_open !! 1%Z = Some legs_1
  /\ GAMMA_L3_SPOT_MOVE example_config <= Qabs (22300 - 22000) / 22000
  /\ now env_tick - 600 <= GAMMA_L3_TIME_WINDOW example_config
  /\ adjustments
       (db (adjust_positions linear_math example_config env_tick 1
              (Some 22300) one_open).2)
     = [ {| adj_trade_id := 1; adj_level := 3; adj_action := CLOSE_ALL;
            adj_reason :=
              MoveIn (Qabs (22300 - 22000) / 22000 * 100) (now env_tick - 600);
            adj_spot := 22300; adj_pnl := legs_pnl legs_1;
            adj_time := now env_tick |} ]
  /\ ledger
       (adjust_positions linear_math example_config env_tick 1
          (Some 22300) one_open).2
     = (delete 1%Z (active_positions one_open),
        delete 1%Z (entry_spot one_open),
        delete 1%Z (entry_time one_open),
        delete 1%Z (adjustment_counts one_open),
        delete 1%Z (trade_premium one_open)).
Proof.
  assert (Hk : lock_held one_open = false) by reflexivity.
  assert (Hl : active_positions one_open !! 1%Z = Some legs_1) by reflexivity.
  assert (Hm : GAMMA_L3_SPOT_MOVE example_config
               <= Qabs (22300 - 22000) / 22000)
    by (vm_compute; discriminate).
  assert (Hw : now env_tick - 600 <= GAMMA_L3_TIME_WINDOW example_config)
    by (vm_compute; discriminate).
  assert (Hnz : ~ 22300 == 0) by (intros H; discriminate H).
  assert (Hez : ~ 22000 == 0) by (intros H; discriminate H).
  pose proof (level3_closes_structure linear_math example_config env_tick
                1 (Some 22300) one_open legs_1 22300 22000 600
                ((120 + 110 - 40 - 35) * inject_Z 65)
                Hk Hl eq_refl eq_refl eq_refl eq_refl Hnz Hez Hm Hw)
    as (Ha & Hb & _).
  exact (conj Hk (conj Hl (conj Hm (conj Hw (conj Ha Hb))))).
Defined.

(** C1, as stated, fails on the close reason: the Level-3 trigger of the
    spec's example (entry spot 22000, spot 22300 ten minutes later) closes
    the row with reason GAMMA_L3, which is not L3. *)
Lemma level3_close_reason_is_GAMMA_L3 :
  l3_triggered example_config (Qabs (22300 - 22000) / 22000)
    (now env_tick - 600) = true
  /\ row_close_reason
       <$> trades
             (db (adjust_positions linear_math example_config env_tick 1
                    (Some 22300) one_open).2) !! 1%Z
     = Some (Some "GAMMA_L3"%string)
  /\ "GAMMA_L3"%string <> "L3"%string
  /\ last (alerts (adjust_positions linear_math example_config env_tick 1
                     (Some 22300) one_open).2)
     = Some (ExitAlert 1 (legs_pnl legs_1)
               (legs_pnl legs_1 / 1000000 * 100) "GAMMA_L3").
Proof.
  split; [reflexivity |].
  split; [vm_compute; reflexivity |].
  split; [discriminate |].
  vm_compute. reflexivity.
Qed.

(** The same trigger met by a whole monitor tick: the prices are refreshed,
    Level 3 closes the structure, and the target/stop check that follows
    finds nothing to do.  One adjustment record, of level 3; one exit
    alert. *)
Example monitor_tick_level3 :
  (monitor_positions linear_math example_config env_tick one_open).1
  = Returned tt
  /\ adj_level
       <$> adjustments
             (db (monitor_positions linear_math example_config env_tick
                    one_open).2)
     = [3%Z]
  /\ ledger (monitor_positions linear_math example_config env_tick
               one_open).2
     = (∅, ∅, ∅, ∅, ∅)
  /\ length
       (alerts (monitor_positions linear_math example_config env_tick
                  one_open).2)
     = 2%nat.
Proof. vm_compute. repeat split. Qed.

(** ** Entry *)

Section EntryFacts.
Context (M : MathLib) (C : Config) (E : Env).

(** [check_entry] always returns; it either leaves the engine as it was or,
    on a day rollover, reloads the daily counter from the store. *)
Lemma check_entry_returns (s : State) :
  exists ok : bool,
    check_entry E s = (Returned ok, (check_entry E s).2)
    /\ ((check_entry E s).2 = s
        \/ (trade_date s <> today E
            /\ (check_entry E s).2
               = set_day (today E)
                   (get_trade_count_today (today E) (db s)) s)).
Proof.
  unfold check_entry. rewrite bind_eq. simpl.
  destruct (is_running s); simpl; [| eauto].
  destruct (Py.leb 560 (time_of_day E) && Py.leb (time_of_day E) 885);
    simpl; [| eauto].
  rewrite bind_eq.
  destruct (bool_decide (trade_date s <> today E)) eqn:Hd; simpl;
    rewrite bind_eq; simpl.
  - apply bool_decide_eq_true in Hd.
    repeat match goal with
           | |- context [if ?b then _ else _] => destruct b; simpl
           end; eauto.
  - repeat match goal with
           | |- context [if ?b then _ else _] => destruct b; simpl
           end; eauto.
Qed.

Lemma check_entry_same_day (s : State) :
  trade_date s = today E -> (check_entry E s).2 = s.
Proof.
  intros Hd.
  destruct (check_entry_returns s) as (ok & _ & [H | [Hne _]]);
    [exact H | contradiction].
Qed.

Lemma check_entry_frame (s : State) :
  ledger (check_entry E s).2 = ledger s
  /\ lock_held (check_entry E s).2 = lock_held s
  /\ num_lots (check_entry E s).2 = num_lots s.
Proof.
  destruct (check_entry_returns s) as (ok & _ & [-> | [_ ->]]);
    repeat split.
Qed.

Lemma ledger_keys_of (s s' : State) :
  ledger s' = ledger s -> ledger_keys s' = ledger_keys s.
Proof.
  unfold ledger, ledger_keys. intros H. inversion H. reflexivity.
Qed.

(** The two ways [open_position] can end: with a whole structure
    registered, or with the five maps as they were. *)
Lemma open_position_cases
    (strategy_type : string) (s s' : State) (o : Outcome (option Z)) :
  open_position M C E strategy_type s = (o, s') ->
  match o with
  | Returned (Some tid) => registered_structure E s s' tid
  | _ => ledger s' = ledger s
  end.
Proof.
  intros H. unfold open_position in H. rewrite bind_eq in H.
  destruct (check_entry_returns s) as (ok & Hce & _).
  destruct (check_entry_frame s) as (Hfl & Hfk & Hfn).
  pose proof (check_entry_same_day s) as Hsame.
  rewrite Hce in H.
  remember ((check_entry E s).2) as g eqn:Hg. clear Hce.
  destruct ok; simpl in H;
    [| inversion H; subst; exact Hfl].
  destruct (Py.otruthy (get_spot_price E)); simpl in H;
    [| inversion H; subst; exact Hfl].
  rewrite bind_eq in H; simpl in H.
  match type of H with
  | context [if ?c then ?a else ?b] =>
      destruct (if c then a else b) as [[[ce_k pe_k] ceh_k] peh_k]
  end.
  do 4 (rewrite bind_eq in H;
        match type of H with
        | context [lift_num ?q] =>
            destruct q as [? |]; simpl in H;
            [| inversion H; subst; exact Hfl]
        end).
  rewrite bind_eq in H; simpl in H.
  destruct (Py.gtb _ _); simpl in H;
    [inversion H; subst; exact Hfl |].
  rewrite bind_eq in H; simpl in H.
  rewrite bind_eq in H. unfold with_lock in H; simpl in H.
  destruct (lock_held g) eqn:Hk; simpl in H;
    [inversion H; subst; exact Hfl |].
  inversion H; subst; clear H.
  unfold ledger in Hfl. inversion Hfl as [[Hap Hes Het Hac Hpr]].
  unfold registered_structure. simpl.
  do 5 eexists.
  split; [apply lookup_insert_eq |].
  do 4 (split; [split; reflexivity |]).
  split; [rewrite Hfn; repeat constructor |].
  split; [apply lookup_insert_eq |].
  split.
  { unfold premiums_of, Py.sum. simpl. rewrite Hfn. ring. }
  split; [reflexivity |].
  split; [intros Hd; rewrite (Hsame Hd); reflexivity |].
  unfold keys_become. simpl.
  rewrite !dom_insert_L, Hap, Hes, Het, Hac, Hpr. repeat split.
Qed.

(** What the gate leaves untouched. *)
Lemma check_entry_keeps (s : State) :
  capital (check_entry E s).2 = capital s
  /\ risk_pct (check_entry E s).2 = risk_pct s
  /\ db (check_entry E s).2 = db s
  /\ alerts (check_entry E s).2 = alerts s.
Proof.
  destruct (check_entry_returns s) as (ok & _ & [-> | [_ ->]]);
    repeat split.
Qed.

(** The counter the gate lets through is the counter of today. *)
Lemma check_entry_counter (s : State) :
  (check_entry E s).1 = Returned true ->
  trades_today (check_entry E s).2 = counter_at_gate E s.
Proof.
  unfold check_entry, counter_at_gate. rewrite bind_eq. simpl.
  destruct (is_running s); simpl; [| discriminate].
  destruct (Py.leb 560 (time_of_day E) && Py.leb (time_of_day E) 885);
    simpl; [| discriminate].
  rewrite bind_eq.
  destruct (bool_decide (trade_date s <> today E)) eqn:Hd; simpl;
    rewrite bind_eq; simpl;
    repeat match goal with
           | |- context [if ?b then _ else _] => destruct b; simpl
           end; intros; try discriminate; reflexivity.
Qed.

(** The three refusals of [open_position]: the gate says no, there is no
    spot, or the worst-case estimate exceeds the allowance. *)
Lemma open_position_refusals (strategy_type : string) (s : State) :
  ((check_entry E s).1 = Returned false ->
   open_position M C E strategy_type s = (Returned None, (check_entry E s).2))
  /\ (Py.otruthy (get_spot_price E) = false ->
      open_position M C E strategy_type s
      = (Returned None, (check_entry E s).2))
  /\ (forall ce_px pe_px ceh_px peh_px : Q,
        (check_entry E s).1 = Returned true ->
        Py.otruthy (get_spot_price E) = true ->
        entry_quotes M C E strategy_type (default 0 (get_spot_price E))
        = Some (ce_px, pe_px, ceh_px, peh_px) ->
        capital s * (risk_pct s / 100)
        < Qabs pe_px * inject_Z (NIFTY_LOT_SIZE * num_lots s) ->
        open_position M C E strategy_type s
        = (Returned None,
           set_spot (default 0 (get_spot_price E)) (check_entry E s).2)).
Proof.
  destruct (check_entry_returns s) as (ok & Hce & _).
  destruct (check_entry_keeps s) as (Hcap & Hrisk & _).
  destruct (check_entry_frame s) as (_ & _ & Hlots).
  remember ((check_entry E s).2) as g eqn:Hg.
  unfold open_position. rewrite bind_eq. rewrite Hce. simpl.
  split; [| split].
  - intros Hok. injection Hok as ->. reflexivity.
  - intros Hsp. destruct ok; simpl; [rewrite Hsp |]; reflexivity.
  - intros ce_px pe_px ceh_px peh_px Hok Hsp Hq Hrisk'.
    injection Hok as ->. simpl. rewrite Hsp. simpl.
    rewrite bind_eq. simpl.
    unfold entry_quotes, entry_strikes in Hq.
    revert Hq.
    match goal with
    | |- context [if ?c then ?a else ?b] =>
        destruct (if c then a else b) as [[[ce_k pe_k] ceh_k] peh_k]
    end.
    intros Hq.
    do 4 (rewrite bind_eq;
          match goal with
          | |- context [lift_num ?q] =>
              destruct q as [? |]; simpl in Hq; [| discriminate Hq]
          end; simpl).
    injection Hq as -> -> -> ->.
    rewrite bind_eq. simpl.
    rewrite Hcap, Hrisk, Hlots.
    unfold Py.gtb, Py.ltb.
    destruct (Qlt_le_dec _ _) as [_ | Hle]; [reflexivity |].
    exfalso. exact (Qlt_not_le _ _ Hrisk' Hle).
Qed.


(** C2: whenever [open_position] returns a trade id, the structure
    registered under it has exactly four legs, two SELL core legs and two
    BUY hedge legs, each of quantity lot size x number of lots; its net
    credit is (sum of SELL entry premiums - sum of BUY entry premiums) x
    quantity; and the trades-today counter ends exactly 1 above the count of
    today's trades the gate admitted it on, which is the stored counter when
    the stored trade date is today.  When the gate refuses ([check_entry]
    returns False) or no spot is quoted, and when the four entry prices are
    quoted and the worst-case estimate |pe_px| * quantity exceeds
    capital * risk_pct / 100, it returns None with the five per-trade maps,
    the store and the alerts as before.  In every case other than a trade id
    (also a raising quote or a held lock) the five per-trade maps are exactly
    as before: no partial structure is ever registered. *)
Theorem open_position_all_or_nothing
    (strategy_type : string) (s s' : State) (o : Outcome (option Z)) :
  open_position M C E strategy_type s = (o, s') ->
  match o with
  | Returned (Some tid) =>
      exists (ce pe ceh peh : Position) (premium : Q),
        active_positions s' !! tid = Some [ce; pe; ceh; peh]
        /\ side ce = "SELL"%string /\ is_hedge ce = false
        /\ side pe = "SELL"%string /\ is_hedge pe = false
        /\ side ceh = "BUY"%string /\ is_hedge ceh = true
        /\ side peh = "BUY"%string /\ is_hedge peh = true
        /\ quantity ce = (NIFTY_LOT_SIZE * num_lots s)%Z
        /\ quantity pe = (NIFTY_LOT_SIZE * num_lots s)%Z
        /\ quantity ceh = (NIFTY_LOT_SIZE * num_lots s)%Z
        /\ quantity peh = (NIFTY_LOT_SIZE * num_lots s)%Z
        /\ trade_premium s' !! tid = Some premium
        /\ premium
           == (premiums_of "SELL" [ce; pe; ceh; peh]
               - premiums_of "BUY" [ce; pe; ceh; peh])
              * inject_Z (NIFTY_LOT_SIZE * num_lots s)
        /\ trades_today s' = (counter_at_gate E s + 1)%Z
        /\ (trade_date s = today E ->
            trades_today s' = (trades_today s + 1)%Z)
  | _ => ledger s' = ledger s
  end
  /\ ((check_entry E s).1 = Returned false
      \/ Py.otruthy (get_spot_price E) = false ->
      o = Returned None
      /\ ledger s' = ledger s /\ db s' = db s /\ alerts s' = alerts s)
  /\ (forall ce_px pe_px ceh_px peh_px : Q,
        entry_quotes M C E strategy_type (default 0 (get_spot_price E))
        = Some (ce_px, pe_px, ceh_px, peh_px) ->
        capital s * (risk_pct s / 100)
        < Qabs pe_px * inject_Z (NIFTY_LOT_SIZE * num_lots s) ->
        o = Returned None
        /\ ledger s' = ledger s /\ db s' = db s /\ alerts s' = alerts s).
Proof.
  intros H.
  destruct (open_position_refusals strategy_type s) as (Hgate & Hspot & Hrisk).
  destruct (check_entry_frame s) as (Hfl & _ & _).
  destruct (check_entry_keeps s) as (_ & _ & Hdb & Hal).
  assert (Hquiet : forall st : State,
             open_position M C E strategy_type s = (Returned None, st) ->
             ledger st = ledger s -> db st = db s -> alerts st = alerts s ->
             o = Returned None
             /\ ledger s' = ledger s /\ db s' = db s /\ alerts s' = alerts s).
  { intros st Hst Hl Hd Ha. rewrite Hst in H. inversion H; subst.
    repeat split; assumption. }
  assert (Hrefused : (check_entry E s).1 = Returned false
                     \/ Py.otruthy (get_spot_price E) = false ->
                     o = Returned None
                     /\ ledger s' = ledger s /\ db s' = db s
                     /\ alerts s' = alerts s).
  { intros [Hg | Hs];
      [apply (Hquiet _ (Hgate Hg)) | apply (Hquiet _ (Hspot Hs))];
      assumption. }
  split; [| split; [exact Hrefused |]].
  - pose proof (open_position_cases strategy_type s s' o H) as Hc.
    destruct o as [[tid |] | e |]; try exact Hc.
    destruct Hc as (ce & pe & ceh & peh & premium & Hl & [S1 G1] & [S2 G2]
                    & [S3 G3] & [S4 G4] & Hq & Hp & Hpe & Ht & Hd & _).
    inversion Hq as [| ? ? Q1 Hq1]; subst.
    inversion Hq1 as [| ? ? Q2 Hq2]; subst.
    inversion Hq2 as [| ? ? Q3 Hq3]; subst.
    inversion Hq3 as [| ? ? Q4 _]; subst.
    assert (Hok : (check_entry E s).1 = Returned true).
    { destruct (check_entry_returns s) as ([|] & Hce & _);
        [rewrite Hce; reflexivity |].
      assert (Hf : (check_entry E s).1 = Returned false)
        by (rewrite Hce; reflexivity).
      destruct (Hrefused (or_introl Hf)) as [Hno _]. discriminate Hno. }
    rewrite (check_entry_counter s Hok) in Ht.
    exists ce, pe, ceh, peh, premium.
    repeat (split; [assumption |]). exact Hd.
  - intros ce_px pe_px ceh_px peh_px Hq Hover.
    destruct (check_entry_returns s) as ([|] & Hce & _).
    + destruct (Py.otruthy (get_spot_price E)) eqn:Hs.
      * assert (Hok : (check_entry E s).1 = Returned true)
          by (rewrite Hce; reflexivity).
        apply (Hquiet _ (Hrisk _ _ _ _ Hok eq_refl Hq Hover));
          assumption.
      * apply Hrefused. right. reflexivity.
    + apply Hrefused. left. rewrite Hce. reflexivity.
Qed.

End EntryFacts.

Lemma open_position_all_or_nothing_witness :
  open_position linear_math example_config env_open "EXPIRY" ready
  = (Returned (Some 1%Z), one_open)
  /\ (exists (ce pe ceh peh : Position) (premium : Q),
       active_positions one_open !! 1%Z = Some [ce; pe; ceh; peh]
       /\ side ce = "SELL"%string /\ is_hedge ce = false
       /\ side pe = "SELL"%string /\ is_hedge pe = false
       /\ side ceh = "BUY"%string /\ is_hedge ceh = true
       /\ side peh = "BUY"%string /\ is_hedge peh = true
       /\ quantity ce = (NIFTY_LOT_SIZE * num_lots ready)%Z
       /\ quantity pe = (NIFTY_LOT_SIZE * num_lots ready)%Z
       /\ quantity ceh = (NIFTY_LOT_SIZE * num_lots ready)%Z
       /\ quantity peh = (NIFTY_LOT_SIZE * num_lots ready)%Z
       /\ trade_premium one_open !! 1%Z = Some premium
       /\ premium
          == (premiums_of "SELL" [ce; pe; ceh; peh]
              - premiums_of "BUY" [ce; pe; ceh; peh])
             * inject_Z (NIFTY_LOT_SIZE * num_lots ready)
       /\ trades_today one_open = (counter_at_gate env_open ready + 1)%Z
       /\ (trade_date ready = today env_open ->
           trades_today one_open = (trades_today ready + 1)%Z))
  /\ entry_quotes linear_math example_config env_open "EXPIRY"
       (default 0 (get_spot_price env_open))
     = Some (120, 110, 40, 35)
  /\ capital thin * (risk_pct thin / 100)
     < Qabs 110 * inject_Z (NIFTY_LOT_SIZE * num_lots thin)
  /\ (open_position linear_math example_config env_open "EXPIRY" thin).1
     = Returned None
  /\ ledger (open_position linear_math example_config env_open "EXPIRY"
               thin).2 = ledger thin
  /\ db (open_position linear_math example_config env_open "EXPIRY" thin).2
     = db thin
  /\ alerts (open_position linear_math example_config env_open "EXPIRY"
               thin).2 = alerts thin.
Proof.
  assert (H : open_position linear_math example_config env_open "EXPIRY"
                ready
              = (Returned (Some 1%Z), one_open))
    by (vm_compute; reflexivity).
  assert (Hq : entry_quotes linear_math example_config env_open "EXPIRY"
                 (default 0 (get_spot_price env_open))
               = Some (120, 110, 40, 35))
    by (vm_compute; reflexivity).
  assert (Hover : capital thin * (risk_pct thin / 100)
                  < Qabs 110 * inject_Z (NIFTY_LOT_SIZE * num_lots thin))
    by reflexivity.
  destruct (open_position_all_or_nothing linear_math example_config env_open
              "EXPIRY" ready one_open (Returned (Some 1%Z)) H)
    as (Hyes & _ & _).
  destruct (open_position_all_or_nothing linear_math example_config env_open
              "EXPIRY" thin _ _ (surjective_pairing _))
    as (_ & _ & Hno).
  exact (conj H (conj Hyes (conj Hq (conj Hover (Hno _ _ _ _ Hq Hover))))).
Defined.

(** On the first entry of a new day the gate reloads the counter from the
    store before the increment: with no trade dated today the count of the
    day is 0 and the counter ends at 1, whatever it held the day before. *)
Example open_position_after_rollover :
  (open_position linear_math example_config env_open "EXPIRY"
     next_morning).1 = Returned (Some 3%Z)
  /\ trades_today next_morning = 2%Z
  /\ counter_at_gate env_open next_morning = 0%Z
  /\ trades_today
       (open_position linear_math example_config env_open "EXPIRY"
          next_morning).2 = 1%Z.
Proof.
  split; [vm_compute; reflexivity |].
  split; [reflexivity |].
  split; vm_compute; reflexivity.
Qed.

(** A risk rejection: nothing is registered, nothing is stored, the
    counter stays. *)
Example open_position_risk_rejected :
  (open_position linear_math example_config env_open "EXPIRY" thin).1
  = Returned None
  /\ ledger (open_position linear_math example_config env_open "EXPIRY"
               thin).2 = ledger thin
  /\ db (open_position linear_math example_config env_open "EXPIRY" thin).2
     = db thin
  /\ trades_today
       (open_position linear_math example_config env_open "EXPIRY" thin).2
     = 0%Z.
Proof. vm_compute. repeat split. Qed.

(** The regular mode picks its strikes by delta and registers four legs as
    well. *)
Example open_position_regular_mode :
  (open_position linear_math example_config env_open "GAMMA_STRANGLE"
     ready).1 = Returned (Some 1%Z)
  /\ length
       <$> active_positions
             (open_position linear_math example_config env_open
                "GAMMA_STRANGLE" ready).2 !! 1%Z
     = Some 4%nat.
Proof. vm_compute. split; reflexivity. Qed.

(** ** The key sets of the per-trade maps *)

Section StepRules.
Context (R : State -> State -> Prop) `{!PreOrder R}.

Lemma steps_ret {A : Type} (a : A) : steps R (mret a : Run A).
Proof. intros s. simpl. reflexivity. Qed.

Lemma steps_lift_num {A : Type} (o : option A) : steps R (lift_num o).
Proof. intros s. destruct o; simpl; reflexivity. Qed.

Lemma steps_lift_key {A : Type} (o : option A) : steps R (lift_key o).
Proof. intros s. destruct o; simpl; reflexivity. Qed.

Lemma steps_modify (f : State -> State) :
  (forall s, R s (f s)) -> steps R (modify f).
Proof. intros H s. simpl. apply H. Qed.

Lemma steps_bind {A B : Type} (m : Run A) (k : A -> Run B) :
  steps R m -> (forall a, steps R (k a)) -> steps R (m ≫= k).
Proof.
  intros Hm Hk s. rewrite bind_eq. specialize (Hm s).
  destruct (m s) as [[a | e |] s1]; simpl in *; try exact Hm.
  etransitivity; [exact Hm | apply Hk].
Qed.

Lemma steps_get : steps R get.
Proof. intros s. simpl. reflexivity. Qed.

(** After [get] the continuation runs in the state it was handed. *)
Lemma steps_get_bind {B : Type} (k : State -> Run B) :
  (forall s, R s (k s s).2) -> steps R (get ≫= k).
Proof. intros H s. rewrite bind_eq. simpl. apply H. Qed.

Lemma steps_with_lock {A : Type} (body : Run A) :
  (forall b s, R s (set_lock b s)) ->
  steps R body -> steps R (with_lock body).
Proof.
  intros Hl Hb s. unfold with_lock.
  destruct (lock_held s); [simpl; reflexivity |].
  specialize (Hb (set_lock true s)).
  assert (H1 : R s (body (set_lock true s)).2)
    by (etransitivity; [apply Hl | exact Hb]).
  destruct (body (set_lock true s)) as [[a | e |] s1]; simpl in *;
    try exact H1; (etransitivity; [exact H1 | apply Hl]).
Qed.

Lemma steps_for_each {A : Type} (xs : list A) (f : A -> Run unit) :
  (forall x, steps R (f x)) -> steps R (for_each xs f).
Proof.
  intros Hf. induction xs as [| x xs IH]; simpl.
  - apply steps_ret.
  - apply steps_bind; [apply Hf | intros _; exact IH].
Qed.

End StepRules.

Section KeyFacts.

#[local] Instance keeps_keys_preorder : PreOrder keeps_keys.
Proof.
  split.
  - intros s. reflexivity.
  - intros a b c Hab Hbc. unfold keeps_keys in *. congruence.
Qed.

Lemma ledger_keys_eq (s s' : State) :
  ledger_keys s' = ledger_keys s ->
  dom (active_positions s') = dom (active_positions s)
  /\ dom (entry_spot s') = dom (entry_spot s)
  /\ dom (entry_time s') = dom (entry_time s)
  /\ dom (adjustment_counts s') = dom (adjustment_counts s)
  /\ dom (trade_premium s') = dom (trade_premium s).
Proof. unfold ledger_keys. intros H. inversion H. auto. Qed.

Lemma keys_agree_transfer (s s' : State) :
  ledger_keys s' = ledger_keys s -> keys_agree s -> keys_agree s'.
Proof.
  intros H Ha. apply ledger_keys_eq in H.
  destruct H as (H1 & H2 & H3 & H4 & H5).
  unfold keys_agree. rewrite H1, H2, H3, H4, H5. exact Ha.
Qed.

#[local] Instance keeps_keys_of_preorder (tid : Z) :
  PreOrder (keeps_keys_of tid).
Proof.
  split.
  - intros s _ _. reflexivity.
  - intros a b c Hab Hbc Hin Hag. unfold keeps_keys_of in *.
    specialize (Hab Hin Hag).
    rewrite <- Hab. apply Hbc.
    + apply ledger_keys_eq in Hab. destruct Hab as [H1 _].
      rewrite H1. exact Hin.
    + eapply keys_agree_transfer; eassumption.
Qed.

#[local] Instance shrinks_preorder : PreOrder shrinks.
Proof.
  split.
  - intros s Ha. split; [exact Ha | reflexivity].
  - intros a b c Hab Hbc Ha.
    destruct (Hab Ha) as [Hb Hs1]. destruct (Hbc Hb) as [Hc Hs2].
    split; [exact Hc | etransitivity; eassumption].
Qed.

(** A step that keeps the key sets of a known structure is a step that
    shrinks. *)
Lemma keeps_of_shrinks (tid : Z) (s s' : State) :
  tid ∈ dom (active_positions s) -> keeps_keys_of tid s s' -> shrinks s s'.
Proof.
  intros Hin Hk Ha. specialize (Hk Hin Ha). split.
  - eapply keys_agree_transfer; eassumption.
  - apply ledger_keys_eq in Hk. destruct Hk as [H1 _].
    rewrite H1. reflexivity.
Qed.

Lemma keeps_shrinks (s s' : State) : keeps_keys s s' -> shrinks s s'.
Proof.
  intros Hk Ha. split.
  - eapply keys_agree_transfer; eassumption.
  - apply ledger_keys_eq in Hk. destruct Hk as [H1 _].
    rewrite H1. reflexivity.
Qed.

Lemma pop_trade_keys (tid : Z) (s : State) :
  keys_become (fun d => d ∖ {[tid]}) s (pop_trade tid s).
Proof. unfold keys_become. simpl. rewrite !dom_delete_L. repeat split. Qed.

Lemma keys_become_shrinks (tid : Z) (s s' : State) :
  keys_become (fun d => d ∖ {[tid]}) s s' -> shrinks s s'.
Proof.
  intros (H1 & H2 & H3 & H4 & H5) (A2 & A3 & A4 & A5). split.
  - unfold keys_agree. rewrite H1, H2, H3, H4, H5, A2, A3, A4, A5.
    repeat split.
  - rewrite H1. apply subseteq_difference_l. reflexivity.
Qed.

(** A [close_position] that is not blocked takes the id out of all five
    maps. *)
Lemma close_position_keys
    (E : Env) (tid : Z) (reason : string) (s : State) :
  is_Some (active_positions s !! tid) ->
  (close_position E tid reason s).1 <> Blocked ->
  keys_become (fun d => d ∖ {[tid]}) s (close_position E tid reason s).2.
Proof.
  intros [legs Hl] Hnb.
  destruct (lock_held s) eqn:Hk.
  - rewrite (close_position_held E tid reason s legs Hl Hk) in Hnb.
    exfalso. apply Hnb. reflexivity.
  - rewrite (close_position_open E tid reason s legs Hl Hk).
    destruct (Py.div _ _); simpl; apply pop_trade_keys.
Qed.

Lemma close_position_shrinks (E : Env) (tid : Z) (reason : string) :
  steps shrinks (close_position E tid reason).
Proof.
  intros s.
  destruct (active_positions s !! tid) as [legs |] eqn:Hl.
  - destruct (lock_held s) eqn:Hk.
    + rewrite (close_position_held E tid reason s legs Hl Hk). reflexivity.
    + apply (keys_become_shrinks tid), close_position_keys.
      * rewrite Hl. eauto.
      * rewrite (close_position_open E tid reason s legs Hl Hk).
        destruct (Py.div _ _); discriminate.
  - rewrite (close_position_unknown E tid reason s Hl). reflexivity.
Qed.

Lemma steps_weaken
    (R R' : State -> State -> Prop) {A : Type} (m : Run A) :
  (forall s s', R s s' -> R' s s') -> steps R m -> steps R' m.
Proof. intros H Hm s. apply H, Hm. Qed.

Lemma steps_at
    (R : State -> State -> Prop) {A : Type} (m : Run A) (s : State) :
  steps R m -> R s (m s).2.
Proof. intros H. apply H. Qed.

(* From a goal about one state to the rule for all states. *)
Ltac at_state R :=
  match goal with
  | |- _ ?s (snd (?m ?s)) => apply (steps_at R m s)
  end.

Ltac steps_tac :=
  repeat match goal with
         | |- steps _ (@mret Run _ _ _) =>
             apply steps_ret; typeclasses eauto
         | |- steps _ get => apply steps_get; typeclasses eauto
         | |- steps _ (lift_num _) => apply steps_lift_num; typeclasses eauto
         | |- steps _ (lift_key _) => apply steps_lift_key; typeclasses eauto
         | |- steps _ (@mbind Run _ _ _ _ _) =>
             apply steps_bind; [typeclasses eauto | | intros ?; cbv beta]
         | |- steps _ (modify _) => apply steps_modify; intros ?
         end.

Lemma record_adjustment_keeps
    (E : Env) (tid level : Z) (action : AdjAction) (why : AdjReason)
    (sp pnl_ : Q) :
  steps keeps_keys (_record_adjustment E tid level action why sp pnl_).
Proof.
  unfold _record_adjustment. steps_tac; unfold keeps_keys; reflexivity.
Qed.

(** Writing the legs of a structure that is on the ledger adds no key. *)
Lemma set_legs_keeps (tid : Z) (legs : list Position) (s : State) :
  keeps_keys_of tid s (set_active_positions (<[tid := legs]>) s).
Proof.
  intros Hin _. unfold ledger_keys. simpl.
  rewrite dom_insert_L. do 4 f_equal.
  apply subseteq_union_1_L, singleton_subseteq_l, Hin.
Qed.

(** Nor does writing its adjustment count, the key sets agreeing. *)
Lemma set_count_keeps (tid n : Z) (s : State) :
  keeps_keys_of tid s (set_adjustment_count tid n s).
Proof.
  intros Hin (_ & _ & Hac & _). unfold ledger_keys. simpl.
  rewrite dom_insert_L. do 2 f_equal.
  apply subseteq_union_1_L, singleton_subseteq_l. rewrite Hac. exact Hin.
Qed.

Lemma roll_leg_keeps
    (M : MathLib) (E : Env) (tid : Z) (idx : nat) (old_pos : Position)
    (sp : Q) :
  steps (keeps_keys_of tid) (_roll_leg M E tid idx old_pos sp).
Proof.
  unfold _roll_leg. cbv zeta. steps_tac. apply set_legs_keeps.
Qed.

Lemma roll_untested_leg_keeps (M : MathLib) (E : Env) (tid : Z) (sp : Q) :
  steps (keeps_keys_of tid) (_roll_untested_leg M E tid sp).
Proof.
  unfold _roll_untested_leg. steps_tac.
  destruct (first_max _ _) as [[idx untested] |].
  - apply roll_leg_keeps.
  - steps_tac.
Qed.

Lemma keeps_keys_any (tid : Z) (s s' : State) :
  keeps_keys s s' -> keeps_keys_of tid s s'.
Proof. intros H _ _. exact H. Qed.

Lemma update_position_prices_shrinks
    (M : MathLib) (E : Env) (tid : Z) (sp : Q) :
  steps shrinks (_update_position_prices M E tid sp).
Proof.
  unfold _update_position_prices. apply steps_get_bind. intros s.
  destruct (active_positions s !! tid) as [legs |] eqn:Hl.
  - apply (keeps_of_shrinks tid).
    + apply elem_of_dom. rewrite Hl. eauto.
    + at_state (keeps_keys_of tid).
      steps_tac.
      * apply set_legs_keeps.
      * apply keeps_keys_any. unfold keeps_keys. reflexivity.
  - apply keeps_shrinks. unfold keeps_keys. reflexivity.
Qed.

Lemma check_expiry_targets_shrinks (C : Config) (E : Env) (tid : Z) :
  steps shrinks (_check_expiry_targets C E tid).
Proof.
  unfold _check_expiry_targets. apply steps_get_bind. intros s.
  cbv zeta.
  destruct (Py.leb _ 0); [reflexivity |].
  destruct (Py.geb _ _).
  - at_state shrinks. steps_tac. apply close_position_shrinks.
  - destruct (Py.leb _ _); [| reflexivity].
    at_state shrinks. steps_tac. apply close_position_shrinks.
Qed.

Ltac leaf :=
  first
    [ apply roll_leg_keeps
    | apply roll_untested_leg_keeps
    | apply set_count_keeps
    | apply set_legs_keeps
    | apply close_position_shrinks
    | apply (steps_weaken keeps_keys);
        [apply keeps_keys_any | apply record_adjustment_keeps]
    | apply (steps_weaken keeps_keys);
        [apply keeps_shrinks | apply record_adjustment_keeps]
    | apply keeps_keys_any; unfold keeps_keys; reflexivity
    | apply keeps_shrinks; unfold keeps_keys; reflexivity ].

(** [adjust_positions] changes the key sets only where it closes the
    structure. *)
Lemma adjust_positions_shrinks
    (M : MathLib) (C : Config) (E : Env) (tid : Z) (ospot : option Q) :
  steps shrinks (adjust_positions M C E tid ospot).
Proof.
  unfold adjust_positions. apply steps_get_bind. intros s.
  destruct (active_positions s !! tid) as [positions |] eqn:Hl;
    [| reflexivity].
  assert (Hin : tid ∈ dom (active_positions s))
    by (apply elem_of_dom; rewrite Hl; eauto).
  destruct (negb _); [reflexivity |]. cbv zeta.
  rewrite bind_eq.
  destruct (entry_spot s !! tid) as [entry_s |]; simpl; [| reflexivity].
  rewrite bind_eq.
  destruct (entry_time s !! tid) as [entry_t |]; simpl; [| reflexivity].
  rewrite bind_eq.
  destruct (trade_premium s !! tid) as [premium |]; simpl; [| reflexivity].
  rewrite bind_eq.
  destruct (Py.div _ entry_s) as [spot_move |]; simpl; [| reflexivity].
  destruct (l3_triggered _ _ _).
  - at_state shrinks. steps_tac; leaf.
  - destruct (List.find _ _) as [[idx pos] |].
    + apply (keeps_of_shrinks tid); [exact Hin |].
      at_state (keeps_keys_of tid). steps_tac; leaf.
    + apply (keeps_of_shrinks tid); [exact Hin |].
      at_state (keeps_keys_of tid). steps_tac.
      * destruct (Py.truthy premium); steps_tac.
      * destruct (_ || _); steps_tac; leaf.
Qed.

Lemma monitor_positions_shrinks (M : MathLib) (C : Config) (E : Env) :
  steps shrinks (monitor_positions M C E).
Proof.
  unfold monitor_positions. apply steps_get_bind. intros s.
  destruct (bool_decide _); [reflexivity |].
  destruct (negb _); [reflexivity |]. cbv zeta.
  at_state shrinks. steps_tac; [leaf |].
  apply steps_for_each; [typeclasses eauto |]. intros tid. steps_tac.
  - apply update_position_prices_shrinks.
  - apply adjust_positions_shrinks.
  - apply check_expiry_targets_shrinks.
Qed.

Lemma close_each_shrinks
    (E : Env) (ids : list Z) (reason : string) (total : Q) :
  steps shrinks (close_each E ids reason total).
Proof.
  revert total. induction ids as [| tid ids IH]; intros total; simpl.
  - steps_tac.
  - steps_tac; [leaf | apply IH].
Qed.

Lemma close_all_positions_shrinks (E : Env) (reason : string) :
  steps shrinks (close_all_positions E reason).
Proof.
  unfold close_all_positions. apply steps_get_bind. intros s.
  apply close_each_shrinks.
Qed.

Lemma reset_day_shrinks (E : Env) : steps shrinks (reset_day E).
Proof.
  unfold reset_day. apply steps_with_lock; [typeclasses eauto | |].
  - intros b s. apply keeps_shrinks. unfold keeps_keys. reflexivity.
  - steps_tac.
    + apply steps_for_each; [typeclasses eauto |]. intros tid.
      unfold _force_close_trade. steps_tac. leaf.
    + intros _. split.
      * repeat split.
      * simpl. rewrite dom_empty_L. apply empty_subseteq.
Qed.

(** [reset_day] either returns with the five maps empty or waits for the
    lock with the five maps as they were. *)
Lemma reset_day_outcome (E : Env) (s : State) :
  ((reset_day E s).1 = Returned tt
   /\ ledger (reset_day E s).2 = (∅, ∅, ∅, ∅, ∅))
  \/ ((reset_day E s).1 = Blocked
      /\ ledger (reset_day E s).2 = ledger s).
Proof.
  destruct (lock_held s) eqn:Hk.
  - right. unfold reset_day, with_lock. rewrite Hk. split; reflexivity.
  - destruct (decide (active_positions s = ∅)) as [He | Hne].
    + left. rewrite (reset_day_idle E s Hk He). split; reflexivity.
    + right. rewrite (reset_day_waits_on_itself E s Hk Hne).
      split; reflexivity.
Qed.

Lemma keys_become_agree (f : gset Z -> gset Z) (s s' : State) :
  keys_become f s s' -> keys_agree s -> keys_agree s'.
Proof.
  intros (H1 & H2 & H3 & H4 & H5) (A2 & A3 & A4 & A5).
  unfold keys_agree. rewrite H1, H2, H3, H4, H5, A2, A3, A4, A5.
  repeat split.
Qed.

Lemma open_position_agree
    (M : MathLib) (C : Config) (E : Env) (st : string) (s : State) :
  keys_agree s -> keys_agree (open_position M C E st s).2.
Proof.
  intros Ha.
  destruct (open_position M C E st s) as [o s'] eqn:Ho.
  pose proof (open_position_cases M C E st s s' o Ho) as H.
  simpl.
  destruct o as [[tid |] | e |];
    try (eapply keys_agree_transfer; [apply ledger_keys_of, H | exact Ha]).
  destruct H as (ce & pe & ceh & peh & pr & H).
  eapply keys_become_agree; [| exact Ha]. apply H.
Qed.

(** C10 (what holds of the code): the five per-trade maps (active
    positions, entry spot, entry time, adjustment counts, trade premium)
    always have the same key set.
    They start empty; every operation of the engine, however it ends, keeps
    the key sets in agreement; a successful [open_position] adds the new
    trade id to all five; a [close_position] that takes effect removes the id
    from all five; [reset_day] leaves all five empty whenever it returns (it
    returns when nothing is open; otherwise it waits on its own lock and the
    maps stay as they were, still in agreement); [start], [stop] and
    [check_entry] leave the five maps untouched; and no operation other than
    [open_position] ever adds a key (the monitor, the adjustment and
    close-all only lose keys, through [close_position]). *)
Theorem ledger_keys_invariant (M : MathLib) (C : Config) (E : Env) :
  (forall (cap risk : Q) (lots day : Z) (d : Database),
     ledger (init cap risk lots day d) = (∅, ∅, ∅, ∅, ∅)
     /\ keys_agree (init cap risk lots day d))
  /\ (forall (op : Op) (s : State),
        keys_agree s -> keys_agree (after M C E op s))
  /\ (forall (st : string) (s s' : State) (tid : Z),
        open_position M C E st s = (Returned (Some tid), s') ->
        keys_become (fun d => {[tid]} ∪ d) s s')
  /\ (forall (tid : Z) (reason : string) (s : State),
        is_Some (active_positions s !! tid) ->
        (close_position E tid reason s).1 <> Blocked ->
        keys_become (fun d => d ∖ {[tid]}) s (close_position E tid reason s).2)
  /\ (forall s : State,
        ((reset_day E s).1 = Returned tt
         /\ ledger (reset_day E s).2 = (∅, ∅, ∅, ∅, ∅))
        \/ ((reset_day E s).1 = Blocked
            /\ ledger (reset_day E s).2 = ledger s))
  /\ (forall s : State,
        ledger (after M C E OpStart s) = ledger s
        /\ ledger (after M C E OpStop s) = ledger s
        /\ ledger (after M C E OpCheckEntry s) = ledger s)
  /\ (forall (op : Op) (s : State),
        keys_agree s ->
        (forall st, op <> OpOpen st) ->
        dom (active_positions (after M C E op s))
        ⊆ dom (active_positions s)).
Proof.
  assert (Hshrink : forall (op : Op) (s : State),
            (forall st, op <> OpOpen st) -> shrinks s (after M C E op s)).
  { intros op s Hop. destruct op; simpl.
    - apply keeps_shrinks. unfold keeps_keys. reflexivity.
    - apply keeps_shrinks. unfold keeps_keys. reflexivity.
    - apply reset_day_shrinks.
    - apply keeps_shrinks, ledger_keys_of, check_entry_frame.
    - exfalso. exact (Hop strategy_type eq_refl).
    - apply monitor_positions_shrinks.
    - apply adjust_positions_shrinks.
    - apply close_position_shrinks.
    - apply close_all_positions_shrinks. }
  split; [| split; [| split; [| split; [| split; [| split]]]]].
  - intros. split; [reflexivity | repeat split].
  - intros op s Ha.
    destruct op; try (apply Hshrink; [discriminate | exact Ha]).
    apply open_position_agree, Ha.
  - intros st s s' tid Ho.
    pose proof (open_position_cases M C E st s s' _ Ho)
      as (ce & pe & ceh & peh & pr & H).
    apply H.
  - intros tid reason s. apply close_position_keys.
  - intros s. apply reset_day_outcome.
  - intros s. repeat split. apply check_entry_frame.
  - intros op s Ha Hop. apply Hshrink; assumption.
Qed.

End KeyFacts.

Lemma ledger_keys_invariant_witness :
  keys_agree one_open
  /\ keys_agree
       (after linear_math example_config env_tick (OpAdjust 1 (Some 22300))
          one_open)
  /\ open_position linear_math example_config env_open "EXPIRY" ready
     = (Returned (Some 1%Z), one_open)
  /\ keys_become (fun d => {[1%Z]} ∪ d) ready one_open
  /\ is_Some (active_positions one_open !! 1%Z)
  /\ (close_position env_tick 1 "MANUAL" one_open).1 <> Blocked
  /\ keys_become (fun d => d ∖ {[1%Z]}) one_open
       (close_position env_tick 1 "MANUAL" one_open).2
  /\ (reset_day env_tick one_open).1 = Blocked
  /\ ledger (reset_day env_tick one_open).2 = ledger one_open.
Proof.
  pose proof (ledger_keys_invariant linear_math example_config env_tick)
    as (_ & Hinv & _ & Hclose & Hreset & _).
  pose proof (ledger_keys_invariant linear_math example_config env_open)
    as (_ & _ & Hopen & _).
  assert (Ha : keys_agree one_open).
  { unfold keys_agree. simpl. rewrite !dom_singleton_L. repeat split. }
  assert (Ho : open_position linear_math example_config env_open "EXPIRY"
                 ready
               = (Returned (Some 1%Z), one_open))
    by (vm_compute; reflexivity).
  assert (Hs : is_Some (active_positions one_open !! 1%Z))
    by (exists legs_1; reflexivity).
  assert (Hb : (close_position env_tick 1 "MANUAL" one_open).1 <> Blocked)
    by (vm_compute; discriminate).
  assert (Hr : (reset_day env_tick one_open).1 = Blocked
               /\ ledger (reset_day env_tick one_open).2 = ledger one_open).
  { destruct (Hreset one_open) as [[Hret _] | Hblk]; [| exact Hblk].
    vm_compute in Hret. discriminate Hret. }
  exact (conj Ha
           (conj (Hinv (OpAdjust 1 (Some 22300)) one_open Ha)
              (conj Ho
                 (conj (Hopen "EXPIRY"%string ready one_open 1%Z Ho)
                    (conj Hs
                       (conj Hb
                          (conj (Hclose 1%Z "MANUAL"%string one_open Hs Hb)
                             Hr))))))).
Defined.


(** * Further properties of the indicators *)

Section RoundNear.

(** Rounding half to even moves a number by at most one half. *)
Lemma round_half_even_near (q : Q) :
  q - (1 # 2) <= inject_Z (Py.round_half_even q)
  /\ inject_Z (Py.round_half_even q) <= q + (1 # 2).
Proof.
  destruct (floor_bounds q) as [Hlo Hhi].
  unfold Py.round_half_even.
  destruct (Qcompare_spec (q - inject_Z (Qfloor q)) (1 # 2)) as [H | H | H].
  - destruct (Z.even (Qfloor q)).
    + split; lra.
    + rewrite inject_Z_plus. change (inject_Z 1) with 1. split; lra.
  - split; lra.
  - rewrite inject_Z_plus. change (inject_Z 1) with 1. split; lra.
Qed.

(** [round(x, n)] is within half a unit of the n-th decimal of [x]. *)
Lemma round_near (x : Q) (n : nat) :
  x - (1 # 2) / inject_Z (10 ^ Z.of_nat n) <= Py.round x n
  /\ Py.round x n <= x + (1 # 2) / inject_Z (10 ^ Z.of_nat n).
Proof.
  unfold Py.round.
  pose proof (scale_pos n) as Hs.
  set (sc := inject_Z (10 ^ Z.of_nat n)) in *. clearbody sc.
  destruct (round_half_even_near (x * sc)) as [Hlo Hhi].
  set (r := inject_Z (Py.round_half_even (x * sc))) in *. clearbody r.
  split.
  - apply Qle_shift_div_l; [exact Hs |].
    assert (He : (x - (1 # 2) / sc) * sc == x * sc - (1 # 2))
      by (field; lra).
    rewrite He. exact Hlo.
  - apply Qle_shift_div_r; [exact Hs |].
    assert (He : (x + (1 # 2) / sc) * sc == x * sc + (1 # 2))
      by (field; lra).
    rewrite He. exact Hhi.
Qed.

End RoundNear.

Section MorePricing.
Context (M : MathLib).

Ltac opt_case :=
  match goal with
  | |- context [mbind _ ?o] => destruct o; simpl
  end.

Lemma div_zero (x y : Q) : y == 0 -> Py.div x y = None.
Proof.
  intros H. unfold Py.div. apply Qeq_bool_iff in H. rewrite H. reflexivity.
Qed.

Lemma div_some (x y v : Q) : Py.div x y = Some v -> ~ y == 0 /\ v = x / y.
Proof.
  unfold Py.div. destruct (Qeq_bool y 0) eqn:H; [discriminate |].
  intros Hv. inversion Hv. split; [| reflexivity].
  intros Hy. apply Qeq_bool_iff in Hy. congruence.
Qed.

(** The [iv] entry is the input volatility on every path. *)
Lemma black_scholes_try_iv
    (S K T r sigma : Q) (ot : string) (g : Greeks) :
  black_scholes_try M S K T r sigma ot = Some g -> iv g = sigma.
Proof.
  unfold black_scholes_try. intros H.
  repeat match type of H with
         | mbind _ ?o = Some _ =>
             destruct o; simpl in H; [| discriminate H]
         end.
  inversion H. reflexivity.
Qed.

(** X1: [black_scholes_greeks] never lets a numeric fault out: its [iv]
    entry is the input volatility on every path, and with a zero strike, a
    non-positive spot/strike ratio or a zero volatility the result is the
    all-zero dict. *)
Theorem black_scholes_greeks_fault_is_zero
    (S K T r sigma : Q) (ot : string) :
  iv (black_scholes_greeks M S K T r sigma ot) = sigma
  /\ (K == 0 \/ S / K <= 0 \/ sigma == 0 ->
      black_scholes_greeks M S K T r sigma ot = zero_greeks sigma).
Proof.
  split.
  - unfold black_scholes_greeks. destruct (Py.leb T 0); [reflexivity |].
    destruct (black_scholes_try M S K T r sigma ot) as [g |] eqn:Hg;
      [| reflexivity].
    eapply black_scholes_try_iv; eassumption.
  - intros Hf. unfold black_scholes_greeks.
    destruct (Py.leb T 0); [reflexivity |].
    assert (Hn : black_scholes_try M S K T r sigma ot = None);
      [| rewrite Hn; reflexivity].
    unfold black_scholes_try.
    destruct (Py.div S K) as [sk |] eqn:HK; [| reflexivity]. simpl.
    apply div_some in HK. destruct HK as [HK ->].
    unfold log. destruct (Py.leb (S / K) 0) eqn:Hl; [reflexivity |]. simpl.
    apply leb_false in Hl.
    destruct Hf as [Hf | [Hf | Hf]]; [contradiction | lra |].
    unfold sqrt. destruct (Py.ltb T 0); [reflexivity |]. simpl.
    rewrite div_zero; [reflexivity |]. rewrite Hf. ring.
Qed.

(** X2: for the same inputs the call and the put differ only where the
    formulas do: gamma, vega and iv coincide, and the pricing faults for
    both or for neither.  Each delta is rounded to four decimals on its own:
    unless both results are the zero dict, the call delta exceeds the put
    delta by 1 to within rounding, less than two units of the fourth
    decimal. *)
Theorem put_call_greeks_agree (S K T r sigma : Q) :
  let ce := black_scholes_greeks M S K T r sigma "CE" in
  let pe := black_scholes_greeks M S K T r sigma "PE" in
  gamma ce = gamma pe
  /\ vega ce = vega pe
  /\ iv ce = iv pe
  /\ (black_scholes_try M S K T r sigma "CE" = None
      <-> black_scholes_try M S K T r sigma "PE" = None)
  /\ ((ce = zero_greeks sigma /\ pe = zero_greeks sigma)
      \/ Qabs (delta ce - delta pe - 1) < 0.0002).
Proof.
  cbv zeta. unfold black_scholes_greeks, black_scholes_try.
  destruct (Py.div S K) as [sk |]; simpl.
  2: { destruct (Py.leb T 0); repeat split; auto. }
  destruct (log M sk) as [l |]; simpl.
  2: { destruct (Py.leb T 0); repeat split; auto. }
  destruct (sqrt M T) as [sT |]; simpl.
  2: { destruct (Py.leb T 0); repeat split; auto. }
  destruct (Py.div (l + _) _) as [d1 |]; simpl.
  2: { destruct (Py.leb T 0); repeat split; auto. }
  destruct (Py.div (norm_pdf M d1) _) as [g |]; simpl.
  2: { destruct (Py.leb T 0); repeat split; auto. }
  destruct (Py.div (- _) _) as [t1 |]; simpl.
  2: { destruct (Py.leb T 0); repeat split; auto. }
  destruct (exp M _) as [e |]; simpl.
  2: { destruct (Py.leb T 0); repeat split; auto. }
  destruct (Py.leb T 0); simpl.
  { repeat split; try discriminate; auto. }
  split; [reflexivity |]. split; [reflexivity |]. split; [reflexivity |].
  split; [split; discriminate |]. right.
  destruct (round_near (norm_cdf M d1) 4) as [Hc1 Hc2].
  destruct (round_near (norm_cdf M d1 - 1.0) 4) as [Hp1 Hp2].
  change ((1 # 2) / inject_Z (10 ^ Z.of_nat 4)) with (1 # 20000) in *.
  set (c := norm_cdf M d1) in *. clearbody c.
  set (rc := Py.round c 4) in *. clearbody rc.
  set (rp := Py.round (c - 1.0) 4) in *. clearbody rp.
  apply Qabs_case; intros _; lra.
Qed.

(** With a zero strike the first pass of the solver faults, and the initial
    guess comes back. *)
Lemma iv_body_zero_strike
    (market_price S K T : Q) (ot : string) (r sigma : Q) :
  K == 0 -> iv_body M market_price S K T ot r sigma = None.
Proof.
  intros HK. unfold iv_body. rewrite (div_zero S K HK). reflexivity.
Qed.

(** X3: given a zero strike (and a live option: positive time and price)
    [estimate_iv_from_price] gives up in its first pass and returns its
    initial guess 0.20; given an expired option or a non-positive price it
    returns 0.15 without a single pass. *)
Theorem estimate_iv_degenerate
    (market_price S K T : Q) (ot : string) (r : Q) :
  (T <= 0 \/ market_price <= 0 ->
   estimate_iv_from_price M market_price S K T ot r = 0.15
   /\ iv_iterations M market_price S K T ot r = 0%nat)
  /\ (0 < T -> 0 < market_price -> K == 0 ->
      estimate_iv_from_price M market_price S K T ot r == 0.20
      /\ iv_iterations M market_price S K T ot r = 1%nat).
Proof.
  unfold estimate_iv_from_price, iv_iterations. split.
  - intros Hg.
    assert (Hb : Py.leb T 0 || Py.leb market_price 0 = true).
    { apply orb_true_iff.
      destruct Hg as [Hg | Hg]; [left | right]; apply leb_true, Hg. }
    rewrite Hb. split; reflexivity.
  - intros HT Hp HK.
    assert (Hb : Py.leb T 0 || Py.leb market_price 0 = false).
    { apply orb_false_iff. split; apply leb_false; assumption. }
    rewrite Hb.
    change (iv_loop M 100 market_price S K T ot r 0.20 0)
      with (match iv_body M market_price S K T ot r 0.20 with
            | None => (0.20, 1%nat)
            | Some (sigma', true) => (sigma', 1%nat)
            | Some (sigma', false) =>
                iv_loop M 99 market_price S K T ot r sigma' 1
            end).
    rewrite (iv_body_zero_strike market_price S K T ot r 0.20 HK).
    split; reflexivity.
Qed.

End MorePricing.

Lemma black_scholes_greeks_fault_is_zero_witness :
  (0 == 0 \/ 22000 / 0 <= 0 \/ 0.15 == 0)
  /\ black_scholes_greeks linear_math 22000 0 0.01 0.065 0.15 "CE"
     = zero_greeks 0.15.
Proof.
  assert (H : 0 == 0 \/ 22000 / 0 <= 0 \/ 0.15 == 0) by (left; reflexivity).
  exact (conj H
           (proj2 (black_scholes_greeks_fault_is_zero linear_math 22000 0
                     0.01 0.065 0.15 "CE") H)).
Defined.

Lemma estimate_iv_degenerate_witness :
  (0 <= 0 \/ 100 <= 0)
  /\ estimate_iv_from_price linear_math 100 22000 22100 0 "CE" 0.065 = 0.15
  /\ 0 < 0.01 /\ 0 < 100 /\ 0 == 0
  /\ estimate_iv_from_price linear_math 100 22000 0 0.01 "CE" 0.065 == 0.20
  /\ iv_iterations linear_math 100 22000 0 0.01 "CE" 0.065 = 1%nat.
Proof.
  assert (H1 : 0 <= 0 \/ 100 <= 0) by (left; discriminate).
  assert (H2 : 0 < 0.01) by reflexivity.
  assert (H3 : 0 < 100) by reflexivity.
  assert (H4 : 0 == 0) by reflexivity.
  pose proof (estimate_iv_degenerate linear_math 100 22000 22100 0 "CE"
                0.065) as [Ha _].
  pose proof (estimate_iv_degenerate linear_math 100 22000 0 0.01 "CE"
                0.065) as [_ Hb].
  destruct (Ha H1) as [Ha1 _]. destruct (Hb H2 H3 H4) as [Hb1 Hb2].
  exact (conj H1 (conj Ha1 (conj H2 (conj H3 (conj H4 (conj Hb1 Hb2)))))).
Defined.

Section VwapFacts.

Lemma vwap_from_length (df : list VolBar) (ctv cv : Q) :
  length (vwap_from ctv cv df) = length df.
Proof.
  revert ctv cv. induction df as [| b df IH]; intros ctv cv; simpl;
    [reflexivity | f_equal; apply IH].
Qed.

Lemma div_none (x y : Q) : Py.div x y = None <-> y == 0.
Proof.
  split.
  - intros H. destruct (Qeq_dec y 0) as [Hy | Hy]; [exact Hy |].
    rewrite (div_nonzero x y Hy) in H. discriminate H.
  - apply div_zero.
Qed.

(** A cell is missing exactly while no volume has been seen. *)
Lemma vwap_from_missing (df : list VolBar) (ctv cv : Q) :
  Forall (fun b => 0 <= vb_volume b) df -> 0 <= cv ->
  forall (i : nat) (cell : option Q),
    vwap_from ctv cv df !! i = Some cell ->
    (cell = None
     <-> cv == 0 /\ Forall (fun b => vb_volume b == 0) (take (S i) df)).
Proof.
  revert ctv cv.
  induction df as [| b df IH]; intros ctv cv Hall Hcv i cell Hi;
    [discriminate Hi |].
  inversion Hall as [| ? ? Hb Hrest]; subst.
  destruct i as [| i]; simpl in Hi.
  - injection Hi as <-. rewrite div_none. simpl. rewrite take_0.
    split.
    + intros H0. split; [lra |]. constructor; [lra | constructor].
    + intros [Hc Hz]. inversion Hz; subst. lra.
  - specialize (IH _ (cv + vb_volume b) Hrest ltac:(lra) i cell Hi).
    rewrite IH. simpl. split.
    + intros [H0 Hz]. split; [lra |]. constructor; [lra | exact Hz].
    + intros [Hc Hz]. inversion Hz; subst. split; [lra | assumption].
Qed.

(** Non-negative prices weighted by positive volumes give non-negative
    cells. *)
Lemma vwap_from_nonneg (df : list VolBar) (ctv cv : Q) :
  Forall (fun b => 0 < vb_volume b /\ 0 <= typical_price b) df ->
  0 <= cv -> 0 <= ctv ->
  Forall (fun cell => exists v, cell = Some v /\ 0 <= v)
    (vwap_from ctv cv df).
Proof.
  revert ctv cv.
  induction df as [| b df IH]; intros ctv cv Hall Hcv Hctv; simpl;
    [constructor |].
  inversion Hall as [| ? ? (Hv & Hp) Hrest]; subst.
  set (tp := typical_price b) in *. clearbody tp.
  set (w := vb_volume b) in *. clearbody w.
  assert (Hpos : 0 < cv + w) by lra.
  assert (Hnum : 0 <= ctv + tp * w) by nra.
  constructor.
  - rewrite div_nonzero by lra. eexists. split; [reflexivity |].
    apply Qle_shift_div_l; [exact Hpos | lra].
  - apply IH; [exact Hrest | lra | exact Hnum].
Qed.

(** X4: [compute_vwap] gives one cell per bar.  With volumes that are not
    negative, a cell is missing (NaN) exactly while every bar up to it has
    zero volume: once volume has traded the running VWAP is a number.  On
    bars of positive volume whose typical prices are not negative, no cell
    is negative. *)
Theorem vwap_cells (df : list VolBar) :
  length (compute_vwap df) = length df
  /\ (Forall (fun b => 0 <= vb_volume b) df ->
      forall (i : nat) (cell : option Q),
        compute_vwap df !! i = Some cell ->
        (cell = None
         <-> Forall (fun b => vb_volume b == 0) (take (S i) df)))
  /\ (Forall (fun b => 0 < vb_volume b /\ 0 <= typical_price b) df ->
      Forall (fun cell => exists v, cell = Some v /\ 0 <= v)
        (compute_vwap df)).
Proof.
  split; [apply vwap_from_length |]. split.
  - intros Hall i cell Hi.
    rewrite (vwap_from_missing df 0 0 Hall ltac:(lra) i cell Hi).
    split; [intros [_ H]; exact H | intros H; split; [reflexivity | exact H]].
  - intros Hall. apply vwap_from_nonneg; [exact Hall | lra | lra].
Qed.

End VwapFacts.

Lemma vwap_cells_witness :
  Forall (fun b => 0 <= vb_volume b) sample_quiet_bars
  /\ compute_vwap sample_quiet_bars !! 0%nat = Some None
  /\ Forall (fun b => vb_volume b == 0) (take 1 sample_quiet_bars)
  /\ Forall (fun b => 0 < vb_volume b /\ 0 <= typical_price b)
       sample_volume_bars
  /\ Forall (fun cell => exists v, cell = Some v /\ 0 <= v)
       (compute_vwap sample_volume_bars).
Proof.
  assert (H1 : Forall (fun b => 0 <= vb_volume b) sample_quiet_bars).
  { repeat constructor; vm_compute; discriminate. }
  assert (H2 : compute_vwap sample_quiet_bars !! 0%nat = Some None)
    by reflexivity.
  assert (H3 : Forall (fun b => 0 < vb_volume b /\ 0 <= typical_price b)
                 sample_volume_bars).
  { repeat constructor; vm_compute; discriminate. }
  destruct (vwap_cells sample_quiet_bars) as (_ & Hm & _).
  destruct (vwap_cells sample_volume_bars) as (_ & _ & Hn).
  exact (conj H1 (conj H2
           (conj (proj1 (Hm H1 0%nat None H2) eq_refl) (conj H3 (Hn H3))))).
Defined.

Section MoreScore.

Lemma fold_exposure (spot : Q) (legs : list GammaPos) (acc : Q) :
  fold_left (fun a p => a + gamma_term spot p) legs acc
  == acc + exposure_sum spot legs.
Proof.
  revert acc. unfold exposure_sum.
  induction legs as [| p legs IH]; intros acc; simpl.
  - ring.
  - rewrite IH. ring.
Qed.

Lemma total_is_sum (spot : Q) (legs : list GammaPos) :
  total_gamma_exposure legs spot == exposure_sum spot legs.
Proof. unfold total_gamma_exposure. rewrite fold_exposure. ring. Qed.

Lemma exposure_sum_app (spot : Q) (l l' : list GammaPos) :
  exposure_sum spot (l ++ l') == exposure_sum spot l + exposure_sum spot l'.
Proof.
  unfold exposure_sum. induction l as [| x l IH]; simpl.
  - ring.
  - rewrite IH. ring.
Qed.

Lemma score_eq (e1 e2 : Q) :
  e1 == e2 -> score_of_exposure e1 == score_of_exposure e2.
Proof. intros H. apply Qle_antisym; apply score_mono; lra. Qed.

Lemma flat_term (spot : Q) (p : GammaPos) :
  reads_as_flat p -> gamma_term spot p == 0.
Proof.
  unfold gamma_term. cbv zeta. intros [Hg | Hq].
  - rewrite Hg. ring.
  - rewrite Hq. change (inject_Z 0) with 0. ring.
Qed.

Lemma flat_sum (spot : Q) (legs : list GammaPos) :
  Forall reads_as_flat legs -> exposure_sum spot legs == 0.
Proof.
  unfold exposure_sum.
  induction 1 as [| p legs Hp _ IH]; simpl; [reflexivity |].
  rewrite IH, (flat_term spot p Hp). ring.
Qed.

Lemma no_spot_sum (spot : Q) (legs : list GammaPos) :
  spot == 0 -> exposure_sum spot legs == 0.
Proof.
  intros Hs. unfold exposure_sum.
  induction legs as [| p legs IH]; simpl; [reflexivity |].
  rewrite IH. unfold gamma_term. cbv zeta. rewrite Hs. ring.
Qed.

(** X5: a position that adds nothing (zero or missing gamma, or zero
    quantity) is passed over wherever it stands in the list: the score is
    the score of the list without it.  A list of such positions scores 50,
    and so does any list at a spot of zero. *)
Theorem gamma_score_skips_flat_legs
    (front back legs : list GammaPos) (p : GammaPos) (spot : Q) :
  (reads_as_flat p ->
   compute_gamma_risk_score (front ++ p :: back) spot
   == compute_gamma_risk_score (front ++ back) spot)
  /\ (Forall reads_as_flat legs -> compute_gamma_risk_score legs spot == 50)
  /\ (spot == 0 -> compute_gamma_risk_score legs spot == 50).
Proof.
  assert (H50 : score_of_exposure 0 == 50) by reflexivity.
  unfold compute_gamma_risk_score.
  split; [| split].
  - intros Hp. apply score_eq. rewrite !total_is_sum, !exposure_sum_app.
    change (exposure_sum spot (p :: back))
      with (gamma_term spot p + exposure_sum spot back).
    rewrite (flat_term spot p Hp). ring.
  - intros Hall. rewrite <- H50. apply score_eq.
    rewrite total_is_sum. apply flat_sum, Hall.
  - intros Hs. rewrite <- H50. apply score_eq.
    rewrite total_is_sum. apply no_spot_sum, Hs.
Qed.

Lemma short_sum_nonpos (spot : Q) (legs : list GammaPos) :
  0 <= spot -> Forall reads_as_short legs -> exposure_sum spot legs <= 0.
Proof.
  intros Hs Hall. unfold exposure_sum.
  induction Hall as [| p legs (Hside & Hg & Hq) _ IH]; simpl; [lra |].
  assert (Ht : gamma_term spot p <= 0).
  { unfold gamma_term. cbv zeta. rewrite Hside.
    change (side_sign "SELL") with (-1).
    assert (Hq' : 0 <= inject_Z (default 75%Z (gp_quantity p))).
    { replace 0 with (inject_Z 0) by reflexivity. rewrite <- Zle_Qle.
      exact Hq. }
    generalize dependent (default 0.0 (gp_gamma p)). intros g Hg.
    generalize dependent (inject_Z (default 75%Z (gp_quantity p))).
    intros q Hq'.
    assert (H1 : 0 <= g * q) by (apply Qmult_le_0_compat; assumption).
    assert (H2 : 0 <= g * q * spot) by (apply Qmult_le_0_compat; assumption).
    assert (E : -1 * g * q * spot == - (g * q * spot)) by ring.
    rewrite E. set (t := g * q * spot) in *. clearbody t. lra. }
  set (t := gamma_term spot p) in *. clearbody t.
  set (r := fold_right Qplus 0 (map (gamma_term spot) legs)) in *.
  clearbody r. lra.
Qed.

(** X6: the score saturates: an aggregate exposure of 50000 or more scores
    exactly 100, one of -50000 or less exactly 0; an empty book scores 50;
    and a book that holds only short legs (side SELL or missing, gamma and
    quantity not negative) at a non-negative spot never scores above 50. *)
Theorem gamma_score_saturation (legs : list GammaPos) (spot : Q) :
  (50000 <= total_gamma_exposure legs spot ->
   compute_gamma_risk_score legs spot == 100)
  /\ (total_gamma_exposure legs spot <= -50000 ->
      compute_gamma_risk_score legs spot == 0)
  /\ compute_gamma_risk_score [] spot == 50
  /\ (0 <= spot -> Forall reads_as_short legs ->
      compute_gamma_risk_score legs spot <= 50).
Proof.
  unfold compute_gamma_risk_score.
  assert (H100 : score_of_exposure 50000 == 100) by reflexivity.
  assert (H0 : score_of_exposure (-50000) == 0) by reflexivity.
  assert (H50 : score_of_exposure 0 == 50) by reflexivity.
  pose proof (score_range (total_gamma_exposure legs spot)) as [Hlo Hhi].
  split; [| split; [| split]].
  - intros H. apply Qle_antisym; [exact Hhi |].
    rewrite <- H100. apply score_mono, H.
  - intros H. apply Qle_antisym; [| exact Hlo].
    rewrite <- H0. apply score_mono, H.
  - reflexivity.
  - intros Hs Hall. rewrite <- H50. apply score_mono.
    rewrite total_is_sum. apply short_sum_nonpos; assumption.
Qed.

End MoreScore.

Lemma gamma_score_skips_flat_legs_witness :
  reads_as_flat blank_call
  /\ compute_gamma_risk_score [short_call; blank_call; long_call] 22000
     == compute_gamma_risk_score [short_call; long_call] 22000
  /\ Forall reads_as_flat [blank_call; blank_call]
  /\ compute_gamma_risk_score [blank_call; blank_call] 22000 == 50
  /\ 0 == 0
  /\ compute_gamma_risk_score [short_call; short_call] 0 == 50.
Proof.
  assert (Hp : reads_as_flat blank_call) by (left; reflexivity).
  assert (Ha : Forall reads_as_flat [blank_call; blank_call])
    by (repeat constructor; left; reflexivity).
  assert (H0 : 0 == 0) by reflexivity.
  destruct (gamma_score_skips_flat_legs [short_call] [long_call]
              [blank_call; blank_call] blank_call 22000) as (H1 & H2 & _).
  destruct (gamma_score_skips_flat_legs [short_call] [long_call]
              [short_call; short_call] blank_call 0) as (_ & _ & H3).
  exact (conj Hp (conj (H1 Hp) (conj Ha (conj (H2 Ha) (conj H0 (H3 H0)))))).
Defined.

Lemma gamma_score_saturation_witness :
  0 <= 22000
  /\ Forall reads_as_short [short_call; short_call]
  /\ compute_gamma_risk_score [short_call; short_call] 22000 <= 50.
Proof.
  assert (Hs : 0 <= 22000) by discriminate.
  assert (Ha : Forall reads_as_short [short_call; short_call]).
  { repeat constructor; vm_compute; discriminate. }
  destruct (gamma_score_saturation [short_call; short_call] 22000)
    as (_ & _ & _ & H).
  exact (conj Hs (conj Ha (H Hs Ha))).
Defined.

Section MoreSupertrend.

Lemma step_value
    (closes ub lb : list Q) (s : StSeries) (i : nat) :
  exists v : option Q,
    supertrend (supertrend_step closes ub lb s i)
    = <[i := v]> (supertrend s).
Proof.
  unfold supertrend_step.
  destruct (if (i =? 1)%nat then _ else _) as [final_ub final_lb].
  destruct (dir_is _ 1).
  - destruct (nan_lt _ _); simpl; eauto.
  - destruct (nan_gt _ _); simpl; eauto.
Qed.

Lemma loop_value_length
    (closes ub lb : list Q) (idx : list nat) (s : StSeries) :
  length (supertrend (fold_left (supertrend_step closes ub lb) idx s))
  = length (supertrend s).
Proof.
  revert s. induction idx as [| i idx IH]; intros s; simpl; [reflexivity |].
  rewrite IH. destruct (step_value closes ub lb s i) as (v & ->).
  apply length_insert.
Qed.

(** The loop starts at index 1: the first cell of both series is never
    written. *)
Lemma loop_first_cell
    (closes ub lb : list Q) (idx : list nat) (s : StSeries) :
  Forall (fun i => i <> 0%nat) idx ->
  supertrend (fold_left (supertrend_step closes ub lb) idx s) !! 0%nat
  = supertrend s !! 0%nat
  /\ direction (fold_left (supertrend_step closes ub lb) idx s) !! 0%nat
     = direction s !! 0%nat.
Proof.
  intros Hall. revert s.
  induction Hall as [| i idx Hi _ IH]; intros s; simpl; [split; reflexivity |].
  destruct (IH (supertrend_step closes ub lb s i)) as [-> ->].
  destruct (step_value closes ub lb s i) as (v & ->).
  destruct (step_direction closes ub lb s i) as (d & _ & ->).
  rewrite !list_lookup_insert_ne by exact Hi. split; reflexivity.
Qed.

Lemma true_range_length (pc : option Q) (bars : list Bar) :
  length (true_range pc bars) = length bars.
Proof.
  revert pc. induction bars as [| b bars IH]; intros pc; simpl;
    [reflexivity | rewrite IH; reflexivity].
Qed.

Lemma ewm_from_length (alpha prev : Q) (xs : list Q) :
  length (ewm_from alpha prev xs) = length xs.
Proof.
  revert prev. induction xs as [| x xs IH]; intros prev; simpl;
    [reflexivity | rewrite IH; reflexivity].
Qed.

Lemma ewm_mean_length (span : Z) (xs ys : list Q) :
  ewm_mean span xs = Some ys -> length ys = length xs.
Proof.
  unfold ewm_mean. destruct (span <? 1)%Z; [discriminate |].
  intros [= <-]. destruct xs as [| x xs]; simpl;
    [reflexivity | rewrite ewm_from_length; reflexivity].
Qed.

(** X7: [compute_supertrend] raises exactly when the smoothing span is
    below 1; otherwise both added columns have one cell per input bar, and
    on a non-empty frame the first cell of both is missing (NaN): the loop
    never writes row 0. *)
Theorem supertrend_frame_shape
    (df : list Bar) (period : Z) (multiplier : Q) :
  (compute_supertrend df period multiplier = None <-> (period < 1)%Z)
  /\ forall out : SupertrendFrame,
       compute_supertrend df period multiplier = Some out ->
       length (st_value out) = length df
       /\ length (st_direction out) = length df
       /\ (df <> [] ->
           st_value out !! 0%nat = Some None
           /\ st_direction out !! 0%nat = Some None).
Proof.
  unfold compute_supertrend, ewm_mean.
  destruct (period <? 1)%Z eqn:Hlt.
  - apply Z.ltb_lt in Hlt. simpl. split; [tauto | discriminate].
  - apply Z.ltb_ge in Hlt. simpl. split.
    { split; [discriminate | lia]. }
    intros out [= <-]. simpl.
    rewrite length_map, loop_length, loop_value_length. simpl.
    rewrite !length_replicate.
    split; [reflexivity |]. split; [reflexivity |].
    intros Hne. rewrite list_lookup_fmap.
    match goal with
    | |- context [fold_left (supertrend_step ?c ?u ?l) ?idx ?s] =>
        destruct (loop_first_cell c u l idx s) as [-> ->]
    end.
    + apply Forall_forall. intros i Hi. apply elem_of_seq in Hi. lia.
    + simpl. destruct df as [| b df]; [congruence |]. simpl.
      split; reflexivity.
Qed.

Ltac band_row :=
  unfold follows_band; simpl;
  rewrite !list_lookup_insert_eq by lia;
  first
    [ left; split; [reflexivity |];
      eexists _, _; split; [| split; [| reflexivity]; eassumption]; lia
    | right; split; [reflexivity |];
      eexists _, _; split; [| split; [| reflexivity]; eassumption]; lia ].

Lemma step_follows
    (closes ub lb : list Q) (s : StSeries) (i : nat) :
  (1 <= i)%nat ->
  (i < length ub)%nat -> (i < length lb)%nat ->
  (i < length (supertrend s))%nat -> (i < length (direction s))%nat ->
  (i <> 1%nat ->
   follows_band 1%Z (-1)%Z ub lb (supertrend s) (direction s) (i - 1)) ->
  follows_band 1%Z (-1)%Z ub lb
    (supertrend (supertrend_step closes ub lb s i))
    (direction (supertrend_step closes ub lb s i)) i.
Proof.
  intros H1 Hu Hl Hs Hd Hprev.
  destruct (lookup_lt_is_Some_2 ub i Hu) as [u Eu].
  destruct (lookup_lt_is_Some_2 lb i Hl) as [l El].
  unfold supertrend_step. rewrite Eu, El.
  destruct (i =? 1)%nat eqn:E1.
  - apply Nat.eqb_eq in E1. subst i. simpl.
    destruct (nan_lt _ _); band_row.
  - apply Nat.eqb_neq in E1.
    destruct (lookup_lt_is_Some_2 ub (i - 1)%nat ltac:(lia)) as [u' Eu'].
    destruct (lookup_lt_is_Some_2 lb (i - 1)%nat ltac:(lia)) as [l' El'].
    rewrite Eu', El'.
    assert (Hi : (1 <? i)%nat = true) by (apply Nat.ltb_lt; lia).
    rewrite Hi.
    destruct (Hprev E1) as [[Hdir (j & x & Hj & Hx & Hv)]
                           | [Hdir (j & x & Hj & Hx & Hv)]];
      rewrite Hdir, Hv; simpl;
      repeat match goal with
             | |- context [if ?c then _ else _] => destruct c
             end; band_row.
Qed.

Lemma step_other
    (closes ub lb : list Q) (s : StSeries) (i j : nat) :
  i <> j ->
  supertrend (supertrend_step closes ub lb s i) !! j = supertrend s !! j
  /\ direction (supertrend_step closes ub lb s i) !! j = direction s !! j.
Proof.
  intros Hne.
  destruct (step_value closes ub lb s i) as (v & ->).
  destruct (step_direction closes ub lb s i) as (d & _ & ->).
  rewrite !list_lookup_insert_ne by exact Hne. split; reflexivity.
Qed.

Lemma loop_follows
    (closes ub lb : list Q) (s : StSeries) (k : nat) :
  (k < length (supertrend s))%nat ->
  (k < length (direction s))%nat ->
  (k < length ub)%nat -> (k < length lb)%nat ->
  forall j : nat,
    (1 <= j <= k)%nat ->
    follows_band 1%Z (-1)%Z ub lb
      (supertrend (fold_left (supertrend_step closes ub lb) (seq 1 k) s))
      (direction (fold_left (supertrend_step closes ub lb) (seq 1 k) s)) j.
Proof.
  intros Hs Hd Hu Hl. induction k as [| k IH]; intros j Hj; [lia |].
  rewrite seq_S, fold_left_app. simpl.
  set (s' := fold_left (supertrend_step closes ub lb) (seq 1 k) s) in *.
  assert (Hlen : length (supertrend s') = length (supertrend s))
    by apply loop_value_length.
  assert (Hlen' : length (direction s') = length (direction s))
    by apply loop_length.
  destruct (Nat.eq_dec j (S k)) as [-> | Hne].
  - apply step_follows; try lia.
    intros H1. replace (S k - 1)%nat with k by lia.
    apply IH; lia.
  - destruct (step_other closes ub lb s' (S k) j ltac:(congruence))
      as [Hv Hdir].
    specialize (IH ltac:(lia) ltac:(lia) ltac:(lia) ltac:(lia) j ltac:(lia)).
    unfold follows_band in *. rewrite Hv, Hdir. exact IH.
Qed.

(** X8: every row after the first carries, as its supertrend value, a copy
    of a basic band: on a BULLISH row the lower band hl2 - multiplier * atr
    of that row or of an earlier one (from row 1 on), on a BEARISH row the
    upper band hl2 + multiplier * atr of such a row.  The loop computes no
    value of its own. *)
Theorem supertrend_value_is_a_band
    (df : list Bar) (period : Z) (multiplier : Q) (out : SupertrendFrame) :
  compute_supertrend df period multiplier = Some out ->
  exists ub lb : list Q,
    basic_bands df period multiplier = Some (ub, lb)
    /\ length ub = length df /\ length lb = length df
    /\ forall i : nat,
         (1 <= i < length df)%nat ->
         follows_band "BULLISH"%string "BEARISH"%string ub lb
           (st_value out) (st_direction out) i.
Proof.
  unfold compute_supertrend, basic_bands.
  destruct (ewm_mean period (true_range None df)) as [atr |] eqn:Hatr;
    [| discriminate].
  apply ewm_mean_length in Hatr. rewrite true_range_length in Hatr.
  simpl. intros [= <-]. simpl.
  eexists _, _. split; [reflexivity |].
  split; [rewrite length_zip_with, length_map; lia |].
  split; [rewrite length_zip_with, length_map; lia |].
  intros i Hi.
  match goal with
  | |- context [fold_left (supertrend_step ?c ?u ?l) _ ?s] =>
      pose proof (loop_follows c u l s (length df - 1)) as H
  end.
  simpl in H.
  rewrite !length_replicate, !length_zip_with, !length_map in H.
  specialize (H ltac:(lia) ltac:(lia) ltac:(lia) ltac:(lia) i ltac:(lia)).
  unfold follows_band in *. rewrite list_lookup_fmap.
  destruct H as [[Hdir Hrest] | [Hdir Hrest]]; [left | right];
    (split; [rewrite Hdir; reflexivity | exact Hrest]).
Qed.

End MoreSupertrend.

Lemma supertrend_value_is_a_band_witness :
  (1 <= 3 < length sample_bars)%nat
  /\ exists (out : SupertrendFrame) (ub lb : list Q),
       compute_supertrend sample_bars 3 (1 # 2) = Some out
       /\ basic_bands sample_bars 3 (1 # 2) = Some (ub, lb)
       /\ follows_band "BULLISH"%string "BEARISH"%string ub lb
            (st_value out) (st_direction out) 3.
Proof.
  assert (Hi : (1 <= 3 < length sample_bars)%nat) by (simpl; lia).
  split; [exact Hi |].
  destruct (compute_supertrend sample_bars 3 (1 # 2)) as [out |] eqn:H;
    [| vm_compute in H; discriminate].
  destruct (supertrend_value_is_a_band sample_bars 3 (1 # 2) out H)
    as (ub & lb & Hb & _ & _ & Hrow).
  exists out, ub, lb. split; [reflexivity |]. split; [exact Hb |].
  exact (Hrow 3%nat Hi).
Defined.

Lemma supertrend_frame_shape_witness :
  sample_bars <> []
  /\ exists out : SupertrendFrame,
       compute_supertrend sample_bars 3 (1 # 2) = Some out
       /\ length (st_value out) = length sample_bars
       /\ length (st_direction out) = length sample_bars
       /\ st_value out !! 0%nat = Some None
       /\ st_direction out !! 0%nat = Some None.
Proof.
  assert (Hne : sample_bars <> []) by discriminate.
  split; [exact Hne |].
  destruct (supertrend_frame_shape sample_bars 3 (1 # 2)) as [_ Hs].
  destruct (compute_supertrend sample_bars 3 (1 # 2)) as [out |] eqn:H;
    [| vm_compute in H; discriminate].
  destruct (Hs out eq_refl) as (H1 & H2 & H3).
  destruct (H3 Hne) as [H4 H5].
  exists out. repeat split; assumption.
Defined.

(** * Further properties of the strategy *)

(** ** Strikes *)

Section StrikeFacts.

Lemma round_to_strike_near (price : Q) :
  price - 25 <= inject_Z (round_to_strike price)
  /\ inject_Z (round_to_strike price) <= price + 25.
Proof.
  unfold round_to_strike, STRIKE_STEP.
  destruct (round_half_even_near (price / inject_Z 50)) as [Hlo Hhi].
  rewrite inject_Z_mult.
  set (r := inject_Z (Py.round_half_even (price / inject_Z 50))) in *.
  clearbody r. change (inject_Z 50) with 50 in *. qconst. split; lra.
Qed.

Lemma round_to_strike_mono (p p' : Q) :
  p <= p' -> (round_to_strike p <= round_to_strike p')%Z.
Proof.
  intros H. unfold round_to_strike, STRIKE_STEP.
  apply Z.mul_le_mono_nonneg_r; [lia |].
  apply round_half_even_mono. change (inject_Z 50) with 50. qconst. lra.
Qed.

Lemma round_to_strike_grid (k : Z) :
  round_to_strike (inject_Z (k * 50)) = (k * 50)%Z.
Proof.
  unfold round_to_strike, STRIKE_STEP. f_equal.
  rewrite <- (round_half_even_Z k) at 2.
  apply Z.le_antisymm; apply round_half_even_mono;
    rewrite inject_Z_mult; change (inject_Z 50) with 50;
    generalize (inject_Z k); intros q; qconst; lra.
Qed.

(** X9: [round_to_strike] returns a multiple of the strike step 50 that
    lies within 25 points of the price; it leaves a price that already is
    a strike unchanged, and it is monotone in the price. *)
Theorem round_to_strike_nearest (price price' : Q) (k : Z) :
  (50 | round_to_strike price)%Z
  /\ price - 25 <= inject_Z (round_to_strike price) <= price + 25
  /\ round_to_strike (inject_Z (k * 50)) = (k * 50)%Z
  /\ (price <= price' ->
      (round_to_strike price <= round_to_strike price')%Z).
Proof.
  split; [| split; [| split]].
  - unfold round_to_strike, STRIKE_STEP. apply Z.divide_factor_r.
  - apply round_to_strike_near.
  - apply round_to_strike_grid.
  - apply round_to_strike_mono.
Qed.

End StrikeFacts.

Lemma round_to_strike_nearest_witness :
  22010 <= 22030
  /\ (50 | round_to_strike 22010)%Z
  /\ (round_to_strike 22010 <= round_to_strike 22030)%Z.
Proof.
  assert (H : 22010 <= 22030) by discriminate.
  destruct (round_to_strike_nearest 22010 22030 440) as (H1 & _ & _ & H4).
  exact (conj H (conj H1 (H4 H))).
Defined.

Section StrikeSearch.
Context (M : MathLib).

(** The loop of [_find_strike_by_delta] over any list of strikes, for any
    distance [gap]: it ends on the first strike of the least distance. *)
Lemma first_least_fold (gap : Z -> Q) (k0 : Z) (l : list Z) :
  let r :=
    fold_left
      (fun (best : Z * option Q) (k : Z) =>
         if match best.2 with
            | None => true
            | Some bd => Py.ltb (gap k) bd
            end
         then (k, Some (gap k)) else best)
      l (k0, None) in
  (l = [] /\ r = (k0, None))
  \/ exists (i : nat) (k : Z),
       r = (k, Some (gap k))
       /\ l !! i = Some k
       /\ (forall j k', l !! j = Some k' -> gap k <= gap k')
       /\ (forall j k', (j < i)%nat -> l !! j = Some k' -> gap k < gap k').
Proof.
  induction l as [| x l IH] using rev_ind; [left; split; reflexivity |].
  right. cbv zeta in *. rewrite fold_left_app. simpl.
  destruct IH as [[-> ->] | (i & k & -> & Hi & Hle & Hlt)]; simpl.
  - exists 0%nat, x. split; [reflexivity |]. split; [reflexivity |]. split.
    + intros [| j] k' Hj; simpl in Hj; [| discriminate].
      injection Hj as <-. lra.
    + intros j k' Hj. lia.
  - destruct (Py.ltb (gap x) (gap k)) eqn:Hb.
    + apply ltb_true in Hb.
      exists (length l), x. split; [reflexivity |].
      split; [apply list_lookup_middle; reflexivity |]. split.
      * intros j k' Hj. apply lookup_snoc_Some in Hj.
        destruct Hj as [[_ Hj] | [_ <-]]; [| lra].
        specialize (Hle j k' Hj). lra.
      * intros j k' Hjl Hj. apply lookup_snoc_Some in Hj.
        destruct Hj as [[_ Hj] | [-> _]]; [| lia].
        specialize (Hle j k' Hj). lra.
    + assert (Hge : gap k <= gap x).
      { unfold Py.ltb in Hb. destruct (Qlt_le_dec _ _); [discriminate |].
        assumption. }
      exists i, k. split; [reflexivity |].
      split; [apply lookup_app_l_Some; exact Hi |]. split.
      * intros j k' Hj. apply lookup_snoc_Some in Hj.
        destruct Hj as [[_ Hj] | [_ <-]]; [eapply Hle; eassumption | exact Hge].
      * intros j k' Hji Hj. apply lookup_snoc_Some in Hj.
        destruct Hj as [[_ Hj] | [-> _]]; [eapply Hlt; eassumption |].
        apply lookup_lt_Some in Hi. lia.
Qed.

Lemma strike_ladder_lookup (spot_ : Q) (i : nat) (k : Z) :
  strike_ladder spot_ !! i = Some k
  <-> (k = round_to_strike spot_ - 1500 + 50 * Z.of_nat i)%Z /\ (i < 61)%nat.
Proof.
  unfold strike_ladder, STRIKE_STEP. rewrite list_lookup_fmap.
  split.
  - destruct (seq 0 61 !! i) as [j |] eqn:Hj; simpl; [| discriminate].
    apply lookup_seq in Hj. destruct Hj as [-> Hlt]. intros [= <-].
    split; [reflexivity | exact Hlt].
  - intros [-> Hlt]. rewrite lookup_seq_lt by exact Hlt. reflexivity.
Qed.

(** X10: [_find_strike_by_delta] returns a strike of its search ladder
    (ATM - 1500 to ATM + 1500 in steps of 50) whose absolute delta is
    nearest the target among all strikes of the ladder; of several
    equally near strikes it returns the lowest. *)
Theorem find_strike_by_delta_nearest
    (spot_ T target : Q) (ot : string) (k : Z) :
  let best := _find_strike_by_delta M spot_ T target ot in
  let gap := fun k' : Z =>
    Qabs (Qabs (delta (bs M spot_ k' T ot)) - target) in
  In best (strike_ladder spot_)
  /\ (round_to_strike spot_ - 1500 <= best <= round_to_strike spot_ + 1500)%Z
  /\ (In k (strike_ladder spot_) -> gap best <= gap k)
  /\ (In k (strike_ladder spot_) -> (k < best)%Z -> gap best < gap k).
Proof.
  cbv zeta. unfold _find_strike_by_delta.
  pose proof (first_least_fold
                (fun k' => Qabs (Qabs (delta (bs M spot_ k' T ot)) - target))
                (round_to_strike spot_) (strike_ladder spot_)) as H.
  cbv zeta in H. unfold bs in *.
  destruct H as [[H _] | (i & b & -> & Hi & Hle & Hlt)]; [discriminate H |].
  simpl fst.
  pose proof Hi as Hb. apply strike_ladder_lookup in Hb.
  destruct Hb as [Hb Hi61].
  split; [| split; [lia |]; split].
  - apply list_elem_of_In, list_elem_of_lookup. eauto.
  - intros Hk. apply list_elem_of_In, list_elem_of_lookup in Hk.
    destruct Hk as [j Hj]. eapply Hle; eassumption.
  - intros Hk Hkb. apply list_elem_of_In, list_elem_of_lookup in Hk.
    destruct Hk as [j Hj]. apply (Hlt j); [| exact Hj].
    apply strike_ladder_lookup in Hj. destruct Hj as [Hj _]. lia.
Qed.

End StrikeSearch.

Lemma find_strike_by_delta_nearest_witness :
  In 22000%Z (strike_ladder 22010)
  /\ Qabs (Qabs (delta (bs linear_math 22010
                          (_find_strike_by_delta linear_math 22010 (1 # 100)
                             (1 # 5) "CE")
                          (1 # 100) "CE")) - (1 # 5))
     <= Qabs (Qabs (delta (bs linear_math 22010 22000 (1 # 100) "CE"))
              - (1 # 5)).
Proof.
  assert (H : In 22000%Z (strike_ladder 22010)).
  { apply list_elem_of_In, list_elem_of_lookup. exists 30%nat.
    vm_compute. reflexivity. }
  destruct (find_strike_by_delta_nearest linear_math 22010 (1 # 100) (1 # 5)
              "CE" 22000) as (_ & _ & Hle & _).
  exact (conj H (Hle H)).
Defined.

(** ** Quotes *)

Section QuoteFacts.
Context (M : MathLib) (E : Env).

Lemma gtb_true (a b : Q) : Py.gtb a b = true <-> b < a.
Proof. unfold Py.gtb. apply ltb_true. Qed.

Lemma truthy_pos (q : Q) : 0 < q -> Py.truthy q = true.
Proof.
  intros H. unfold Py.truthy.
  destruct (Qeq_bool q 0) eqn:Hq; [| reflexivity].
  apply Qeq_bool_iff in Hq. lra.
Qed.

(** X11: [_get_simulated_ltp] hands back a positive live quote unchanged,
    whatever the pricing library does; and every price it returns is
    positive: it is either that live quote or a fallback price of at least
    0.05. *)
Theorem simulated_ltp_positive
    (sym : string) (spot_ : Q) (k : Z) (T : Q) (ot : string) :
  (forall q : Q,
     get_option_ltp E sym = Some q -> 0 < q ->
     _get_simulated_ltp M E sym spot_ k T ot = Some q)
  /\ (forall px : Q,
        _get_simulated_ltp M E sym spot_ k T ot = Some px ->
        0 < px /\ (get_option_ltp E sym = Some px \/ 0.05 <= px)).
Proof.
  unfold _get_simulated_ltp. cbv zeta. split.
  - intros q Hq Hpos. rewrite Hq. simpl.
    assert (Hg : Py.gtb q 0 = true) by (apply gtb_true; exact Hpos).
    unfold Py.otruthy. rewrite (truthy_pos q Hpos), Hg. reflexivity.
  - intros px.
    destruct (Py.otruthy (get_option_ltp E sym)
              && Py.gtb (default 0 (get_option_ltp E sym)) 0) eqn:Hc.
    + apply andb_true_iff in Hc. destruct Hc as [_ Hg].
      apply gtb_true in Hg. intros Hpx. rewrite Hpx in Hg. simpl in Hg.
      split; [exact Hg | left; exact Hpx].
    + intros Hpx.
      assert (Hmin : 0.05 <= px).
      { destruct (if Py.gtb T 0 then _ else _) as [d1 |];
          simpl in Hpx; [| discriminate].
        destruct (exp M _) as [e |]; simpl in Hpx; [| discriminate].
        destruct (sqrt M T) as [sT |]; simpl in Hpx; [| discriminate].
        injection Hpx as <-. apply max_lower. }
      split; [| right; exact Hmin].
      apply Qlt_le_trans with 0.05; [reflexivity | exact Hmin].
Qed.

End QuoteFacts.

Lemma simulated_ltp_positive_witness :
  get_option_ltp env_open "NSE:NIFTY24JUN0622100CE" = Some 120
  /\ 0 < 120
  /\ _get_simulated_ltp linear_math env_open "NSE:NIFTY24JUN0622100CE"
       22000 22100 (1 # 100) "CE" = Some 120.
Proof.
  assert (H1 : get_option_ltp env_open "NSE:NIFTY24JUN0622100CE" = Some 120)
    by reflexivity.
  assert (H2 : 0 < 120) by reflexivity.
  exact (conj H1 (conj H2
           (proj1 (simulated_ltp_positive linear_math env_open
                     "NSE:NIFTY24JUN0622100CE" 22000 22100 (1 # 100) "CE")
              120 H1 H2))).
Defined.

(** ** The entry gate *)

Section GateFacts.
Context (E : Env).

Lemma leb_reflect (a b : Q) : reflect (a <= b) (Py.leb a b).
Proof.
  destruct (Py.leb a b) eqn:H; constructor.
  - apply leb_true, H.
  - apply leb_false in H. lra.
Qed.

(** X12: [check_entry] never raises and never waits; it answers True
    exactly when the engine is running, the time is within 09:20-14:45,
    the daily counter (reloaded from the store on a new day) is below the
    limit of 2, the daily P&L is above minus the risk budget, a supertrend
    direction is known, and the store holds no OPEN trade. *)
Theorem check_entry_decides (s : State) :
  (exists ok : bool, (check_entry E s).1 = Returned ok)
  /\ ((check_entry E s).1 = Returned true
      <-> is_running s = true
          /\ 560 <= time_of_day E /\ time_of_day E <= 885
          /\ (counter_at_gate E s < MAX_TRADES_PER_DAY)%Z
          /\ - (capital s * (risk_pct s / 100)) < daily_pnl s
          /\ supertrend_dir s <> "UNKNOWN"%string
          /\ get_open_trades (db s) = []).
Proof.
  unfold check_entry, counter_at_gate. rewrite bind_eq. simpl.
  destruct (is_running s); simpl;
    [| split; [eauto | split; [discriminate | intros [? _]; discriminate]]].
  destruct (leb_reflect 560 (time_of_day E)) as [H1 | H1]; simpl;
    [| split; [eauto | split; [discriminate | tauto]]].
  destruct (leb_reflect (time_of_day E) 885) as [H2 | H2]; simpl;
    [| split; [eauto | split; [discriminate | tauto]]].
  rewrite bind_eq.
  assert (Hgate : forall (n : Z) (g' : State),
      (g' = s \/ g' = set_day (today E) n s) -> trades_today g' = n ->
      (exists ok : bool,
         (if (MAX_TRADES_PER_DAY <=? trades_today g')%Z
          then mret false
          else
            if Py.leb (daily_pnl g') (- (capital g' * (risk_pct g' / 100)))
            then mret false
            else if String.eqb (supertrend_dir g') "UNKNOWN"
                 then mret false
                 else if (1 <=? length (get_open_trades (db g')))%nat
                      then mret false
                      else (mret true : Run bool)) g'
         = (Returned ok, g'))
      /\ (((if (MAX_TRADES_PER_DAY <=? trades_today g')%Z
            then mret false
            else
              if Py.leb (daily_pnl g') (- (capital g' * (risk_pct g' / 100)))
              then mret false
              else if String.eqb (supertrend_dir g') "UNKNOWN"
                   then mret false
                   else if (1 <=? length (get_open_trades (db g')))%nat
                        then mret false
                        else (mret true : Run bool)) g').1 = Returned true
          <-> (n < MAX_TRADES_PER_DAY)%Z
              /\ - (capital s * (risk_pct s / 100)) < daily_pnl s
              /\ supertrend_dir s <> "UNKNOWN"%string
              /\ get_open_trades (db s) = [])).
  { intros n g' Hg' Hn.
    assert (Hc : capital g' = capital s)
      by (destruct Hg' as [K | K]; rewrite K; reflexivity).
    assert (Hr : risk_pct g' = risk_pct s)
      by (destruct Hg' as [K | K]; rewrite K; reflexivity).
    assert (Hp : daily_pnl g' = daily_pnl s)
      by (destruct Hg' as [K | K]; rewrite K; reflexivity).
    assert (Hd : supertrend_dir g' = supertrend_dir s)
      by (destruct Hg' as [K | K]; rewrite K; reflexivity).
    assert (Hb : db g' = db s)
      by (destruct Hg' as [K | K]; rewrite K; reflexivity).
    rewrite Hn, Hc, Hr, Hp, Hd, Hb. clear Hg' Hn Hc Hr Hp Hd Hb.
    destruct (Z.leb_spec MAX_TRADES_PER_DAY n) as [Hm | Hm]; simpl;
      [split; [eauto | split; [discriminate | intros [? _]; lia]] |].
    destruct (leb_reflect (daily_pnl s)
                (- (capital s * (risk_pct s / 100)))) as [Hl | Hl]; simpl;
      [split; [eauto | split; [discriminate | intros (_ & ? & _); lra]] |].
    destruct (String.eqb_spec (supertrend_dir s) "UNKNOWN") as [Hu | Hu];
      simpl;
      [split; [eauto | split; [discriminate | intros (_ & _ & ? & _);
                                              contradiction]] |].
    destruct (get_open_trades (db s)) as [| o os]; simpl.
    - split; [eauto |]. split; [intros _ | reflexivity].
      repeat split; try assumption. lra.
    - split; [eauto |]. split; [discriminate |].
      intros (_ & _ & _ & ?). discriminate. }
  destruct (bool_decide (trade_date s <> today E)).
  - destruct (Hgate (get_trade_count_today (today E) (db s))
                (set_day (today E)
                   (get_trade_count_today (today E) (db s)) s))
      as [[ok Hok] Hiff]; [right; reflexivity | reflexivity |].
    split; [exists ok; exact (f_equal fst Hok) |].
    eapply iff_trans; [exact Hiff |]. tauto.
  - destruct (Hgate (trades_today s) s) as [[ok Hok] Hiff];
      [left; reflexivity | reflexivity |].
    split; [exists ok; exact (f_equal fst Hok) |].
    eapply iff_trans; [exact Hiff |]. tauto.
Qed.

End GateFacts.

Lemma check_entry_decides_witness :
  (check_entry env_open ready).1 = Returned true
  /\ (counter_at_gate env_open ready < MAX_TRADES_PER_DAY)%Z
  /\ get_open_trades (db ready) = [].
Proof.
  assert (H : (check_entry env_open ready).1 = Returned true)
    by (vm_compute; reflexivity).
  destruct (proj1 (proj2 (check_entry_decides env_open ready)) H)
    as (_ & _ & _ & Hn & _ & _ & Ho).
  exact (conj H (conj Hn Ho)).
Defined.

(** ** The ledger lock *)

Section LockRules.

Lemma safe_ret {A : Type} (a : A) : lock_safe (mret a : Run A).
Proof. intros s Hk. split; [reflexivity | exact Hk]. Qed.

Lemma safe_get : lock_safe get.
Proof. intros s Hk. split; [reflexivity | exact Hk]. Qed.

Lemma safe_lift_num {A : Type} (o : option A) : lock_safe (lift_num o).
Proof. intros s Hk. destruct o; (split; [reflexivity | exact Hk]). Qed.

Lemma safe_lift_key {A : Type} (o : option A) : lock_safe (lift_key o).
Proof. intros s Hk. destruct o; (split; [reflexivity | exact Hk]). Qed.

Lemma safe_modify (f : State -> State) :
  (forall s, lock_held (f s) = lock_held s) -> lock_safe (modify f).
Proof. intros Hf s Hk. split; [reflexivity |]. simpl. rewrite Hf. exact Hk. Qed.

Lemma safe_bind {A B : Type} (m : Run A) (k : A -> Run B) :
  lock_safe m -> (forall a, lock_safe (k a)) -> lock_safe (m ≫= k).
Proof.
  intros Hm Hk s Hs. rewrite bind_eq. destruct (Hm s Hs) as [Hb Hl].
  destruct (m s) as [[a | e |] s1]; simpl in *.
  - apply Hk, Hl.
  - split; [reflexivity | exact Hl].
  - discriminate.
Qed.

(** The two blocks the code runs under the lock only assign attributes:
    the lock is taken, the block runs, the lock is released. *)
Lemma safe_with_lock_modify (f : State -> State) :
  (forall s, lock_held (f s) = lock_held s) ->
  lock_safe (with_lock (modify f)).
Proof.
  intros Hf s Hk. unfold with_lock. rewrite Hk. simpl.
  split; reflexivity.
Qed.

Lemma safe_for_each {A : Type} (xs : list A) (f : A -> Run unit) :
  (forall x, lock_safe (f x)) -> lock_safe (for_each xs f).
Proof.
  intros Hf. induction xs as [| x xs IH]; simpl.
  - apply safe_ret.
  - apply safe_bind; [apply Hf | intros _; exact IH].
Qed.

End LockRules.

Ltac safe_step :=
  match goal with
  | |- lock_safe (@mret Run _ _ _) => apply safe_ret
  | |- lock_safe get => apply safe_get
  | |- lock_safe (lift_num _) => apply safe_lift_num
  | |- lock_safe (lift_key _) => apply safe_lift_key
  | |- lock_safe (with_lock (modify _)) =>
      apply safe_with_lock_modify; intros ?; reflexivity
  | |- lock_safe (modify _) => apply safe_modify; intros ?; reflexivity
  | |- lock_safe (for_each _ _) => apply safe_for_each; intros ?
  | |- lock_safe (@mbind Run _ _ _ _ _) =>
      apply safe_bind; [| intros ?; cbv beta]
  | |- lock_safe (if ?c then _ else _) => destruct c
  | |- lock_safe (match ?x with _ => _ end) => destruct x
  end.

Section LockFacts.
Context (M : MathLib) (C : Config) (E : Env).

Lemma close_position_safe (tid : Z) (reason : string) :
  lock_safe (close_position E tid reason).
Proof. unfold close_position. cbv zeta. repeat safe_step. Qed.

Lemma close_each_safe (ids : list Z) (reason : string) (total : Q) :
  lock_safe (close_each E ids reason total).
Proof.
  revert total. induction ids as [| tid ids IH]; intros total; simpl.
  - apply safe_ret.
  - apply safe_bind; [apply close_position_safe | intros p; apply IH].
Qed.

Lemma close_all_positions_safe (reason : string) :
  lock_safe (close_all_positions E reason).
Proof.
  unfold close_all_positions.
  apply safe_bind; [apply safe_get | intros s; apply close_each_safe].
Qed.

Lemma check_entry_safe : lock_safe (check_entry E).
Proof. unfold check_entry. cbv zeta. repeat safe_step. Qed.

Lemma open_position_safe (strategy_type : string) :
  lock_safe (open_position M C E strategy_type).
Proof.
  unfold open_position. cbv zeta.
  apply safe_bind; [apply check_entry_safe | intros ok].
  repeat safe_step.
Qed.

Lemma record_adjustment_safe
    (tid level : Z) (action : AdjAction) (why : AdjReason) (sp pnl_ : Q) :
  lock_safe (_record_adjustment E tid level action why sp pnl_).
Proof. unfold _record_adjustment. repeat safe_step. Qed.

Lemma roll_leg_safe (tid : Z) (idx : nat) (old_pos : Position) (sp : Q) :
  lock_safe (_roll_leg M E tid idx old_pos sp).
Proof. unfold _roll_leg. cbv zeta. repeat safe_step. Qed.

Lemma roll_untested_leg_safe (tid : Z) (sp : Q) :
  lock_safe (_roll_untested_leg M E tid sp).
Proof.
  unfold _roll_untested_leg. cbv zeta.
  apply safe_bind; [apply safe_get | intros s].
  apply safe_bind; [apply safe_lift_key | intros positions].
  destruct (first_max _ _) as [[idx untested] |];
    [apply roll_leg_safe | apply safe_ret].
Qed.

Lemma update_position_prices_safe (tid : Z) (sp : Q) :
  lock_safe (_update_position_prices M E tid sp).
Proof. unfold _update_position_prices. cbv zeta. repeat safe_step. Qed.

Lemma check_expiry_targets_safe (tid : Z) :
  lock_safe (_check_expiry_targets C E tid).
Proof.
  unfold _check_expiry_targets. cbv zeta.
  apply safe_bind; [apply safe_get | intros s].
  destruct (Py.leb _ 0); [apply safe_ret |].
  destruct (Py.geb _ _).
  - apply safe_bind; [apply close_position_safe | intros; apply safe_ret].
  - destruct (Py.leb _ _); [| apply safe_ret].
    apply safe_bind; [apply close_position_safe | intros; apply safe_ret].
Qed.

Ltac safe_call :=
  first
    [ apply close_position_safe
    | apply record_adjustment_safe
    | apply roll_leg_safe
    | apply roll_untested_leg_safe
    | apply update_position_prices_safe
    | apply check_expiry_targets_safe
    | safe_step ].

Lemma adjust_positions_safe (tid : Z) (ospot : option Q) :
  lock_safe (adjust_positions M C E tid ospot).
Proof. unfold adjust_positions. cbv zeta. repeat safe_call. Qed.

Lemma monitor_positions_safe : lock_safe (monitor_positions M C E).
Proof.
  unfold monitor_positions. cbv zeta.
  repeat first [apply adjust_positions_safe | safe_call].
Qed.

(** X13: started with the ledger lock free, every public operation other
    than [reset_day] comes back (it returns or raises, it never waits for
    the lock) and leaves the lock free. *)
Theorem only_reset_day_waits (op : Op) (s : State) :
  lock_held s = false ->
  op <> OpResetDay ->
  blocked_on M C E op s = false
  /\ lock_held (after M C E op s) = false.
Proof.
  intros Hk Hop. destruct op; simpl; try contradiction.
  - split; [reflexivity | exact Hk].
  - split; [reflexivity | exact Hk].
  - apply check_entry_safe, Hk.
  - apply open_position_safe, Hk.
  - apply monitor_positions_safe, Hk.
  - apply adjust_positions_safe, Hk.
  - apply close_position_safe, Hk.
  - apply close_all_positions_safe, Hk.
Qed.

End LockFacts.

Lemma only_reset_day_waits_witness :
  lock_held one_open = false
  /\ OpMonitor <> OpResetDay
  /\ blocked_on linear_math example_config env_tick OpMonitor one_open
     = false
  /\ lock_held (after linear_math example_config env_tick OpMonitor one_open)
     = false.
Proof.
  assert (Hk : lock_held one_open = false) by reflexivity.
  assert (Hop : OpMonitor <> OpResetDay) by discriminate.
  exact (conj Hk (conj Hop
           (only_reset_day_waits linear_math example_config env_tick
              OpMonitor one_open Hk Hop))).
Defined.

(** ** Closing, in full *)

Section CloseAccounting.
Context (E : Env).

(** X14: with the lock free and a capital that is not zero,
    [close_position] on a structure of the ledger returns its
    mark-to-market; the id is popped from all five per-trade maps and
    every other entry stays; the daily P&L grows by the returned amount;
    the trade row is marked CLOSED with the exit time, the realized P&L and
    the reason, other rows untouched; and one exit alert is sent. *)
Theorem close_position_accounting
    (tid : Z) (reason : string) (s : State) (legs : list Position) :
  active_positions s !! tid = Some legs ->
  lock_held s = false ->
  ~ capital s == 0 ->
  let pnl_ := calculate_mtm (Some tid) s in
  let s' := (close_position E tid reason s).2 in
  (close_position E tid reason s).1 = Returned pnl_
  /\ pnl_ = Py.sum (map pnl legs)
  /\ ledger s' = ledger (pop_trade tid s)
  /\ (forall t : Z, t <> tid ->
        active_positions s' !! t = active_positions s !! t)
  /\ daily_pnl s' = daily_pnl s + pnl_
  /\ trades (db s') !! tid
     = with_closed (now E) pnl_ reason <$> trades (db s) !! tid
  /\ (forall t : Z, t <> tid -> trades (db s') !! t = trades (db s) !! t)
  /\ adjustments (db s') = adjustments (db s)
  /\ alerts s'
     = alerts s ++ [ExitAlert tid pnl_ (pnl_ / capital s * 100) reason].
Proof.
  intros Hl Hk Hc. cbv zeta.
  rewrite (close_position_open E tid reason s legs Hl Hk).
  rewrite (div_nonzero _ _ Hc). unfold calculate_mtm. rewrite Hl. simpl.
  split; [reflexivity |]. split; [reflexivity |].
  split; [reflexivity |].
  split; [intros t Ht; apply lookup_delete_ne; congruence |].
  split; [reflexivity |].
  split; [apply lookup_alter_eq |].
  split; [intros t Ht; apply lookup_alter_ne; congruence |].
  split; reflexivity.
Qed.

(** X15: whatever the capital, zero included, [close_position] on a
    structure of the ledger, called with the lock free, does not wait for
    the lock and has done its bookkeeping before the return percentage of
    the exit alert is computed: the structure is off all five per-trade
    maps, the daily P&L has grown by its mark-to-market and the trade row is
    marked CLOSED with that figure and the reason.  The capital only decides
    about the alert: none or one is appended, and it is the exit alert of
    this trade with this P&L and reason. *)
Theorem close_position_books_first
    (tid : Z) (reason : string) (s : State) (legs : list Position) :
  active_positions s !! tid = Some legs ->
  lock_held s = false ->
  let pnl_ := calculate_mtm (Some tid) s in
  let s' := (close_position E tid reason s).2 in
  is_blocked (close_position E tid reason s).1 = false
  /\ lock_held s' = false
  /\ ledger s' = ledger (pop_trade tid s)
  /\ active_positions s' !! tid = None
  /\ daily_pnl s' = daily_pnl s + pnl_
  /\ trades (db s') !! tid
     = with_closed (now E) pnl_ reason <$> trades (db s) !! tid
  /\ (alerts s' = alerts s
      \/ exists pct : Q,
           alerts s' = alerts s ++ [ExitAlert tid pnl_ pct reason]).
Proof.
  intros Hl Hk. cbv zeta.
  rewrite (close_position_open E tid reason s legs Hl Hk).
  unfold calculate_mtm. rewrite Hl. simpl.
  destruct (Py.div (legs_pnl legs) (capital s)) as [share |]; simpl;
    (split; [reflexivity |]); (split; [exact Hk |]);
    (split; [reflexivity |]); (split; [apply lookup_delete_eq |]);
    (split; [reflexivity |]); (split; [apply lookup_alter_eq |]).
  - right. eexists. reflexivity.
  - left. reflexivity.
Qed.

End CloseAccounting.

Lemma close_position_accounting_witness :
  active_positions one_open !! 1%Z = Some legs_1
  /\ lock_held one_open = false
  /\ ~ capital one_open == 0
  /\ (close_position env_tick 1 "MANUAL" one_open).1
     = Returned (calculate_mtm (Some 1%Z) one_open)
  /\ daily_pnl (close_position env_tick 1 "MANUAL" one_open).2
     = daily_pnl one_open + calculate_mtm (Some 1%Z) one_open.
Proof.
  assert (Hl : active_positions one_open !! 1%Z = Some legs_1)
    by reflexivity.
  assert (Hk : lock_held one_open = false) by reflexivity.
  assert (Hc : ~ capital one_open == 0) by discriminate.
  destruct (close_position_accounting env_tick 1 "MANUAL" one_open legs_1
              Hl Hk Hc) as (H1 & _ & _ & _ & H5 & _).
  exact (conj Hl (conj Hk (conj Hc (conj H1 H5)))).
Defined.

Lemma close_position_books_first_witness :
  active_positions one_open_no_capital !! 1%Z = Some legs_1
  /\ lock_held one_open_no_capital = false
  /\ is_blocked (close_position env_tick 1 "MANUAL" one_open_no_capital).1
     = false
  /\ active_positions
       (close_position env_tick 1 "MANUAL" one_open_no_capital).2 !! 1%Z
     = None
  /\ daily_pnl (close_position env_tick 1 "MANUAL" one_open_no_capital).2
     = daily_pnl one_open_no_capital
       + calculate_mtm (Some 1%Z) one_open_no_capital.
Proof.
  assert (Hl : active_positions one_open_no_capital !! 1%Z = Some legs_1)
    by reflexivity.
  assert (Hk : lock_held one_open_no_capital = false) by reflexivity.
  destruct (close_position_books_first env_tick 1 "MANUAL"
              one_open_no_capital legs_1 Hl Hk)
    as (H1 & _ & _ & H4 & H5 & _).
  exact (conj Hl (conj Hk (conj H1 (conj H4 H5)))).
Defined.

Section CloseAll.
Context (E : Env).

Lemma sum_acc (xs : list Q) (a : Q) :
  fold_left Qplus xs a == a + Py.sum xs.
Proof.
  unfold Py.sum. revert a. induction xs as [| x xs IH]; intros a; simpl.
  - ring.
  - rewrite (IH (a + x)), (IH (0 + x)). ring.
Qed.

Lemma sum_cons (x : Q) (xs : list Q) : Py.sum (x :: xs) == x + Py.sum xs.
Proof.
  unfold Py.sum at 1. simpl. rewrite sum_acc. ring.
Qed.

Lemma popped_cons {A : Type} (m m' : gmap Z A) (k : Z) (ids : list Z) :
  (forall t, m' !! t
             = if bool_decide (t ∈ ids) then None else delete k m !! t) ->
  forall t, m' !! t = if bool_decide (t ∈ k :: ids) then None else m !! t.
Proof.
  intros H t. rewrite H.
  destruct (decide (t = k)) as [-> | Hne].
  - rewrite lookup_delete_eq.
    rewrite (bool_decide_eq_true_2 (k ∈ k :: ids)) by left.
    destruct (bool_decide (k ∈ ids)); reflexivity.
  - rewrite lookup_delete_ne by congruence.
    destruct (bool_decide_reflect (t ∈ ids)) as [Hin | Hin].
    + rewrite bool_decide_eq_true_2 by (right; exact Hin). reflexivity.
    + rewrite bool_decide_eq_false_2; [reflexivity |].
      intros Hc. apply elem_of_cons in Hc. tauto.
Qed.

(** The loop of [close_all_positions] over structures of the ledger. *)
Lemma close_each_run (reason : string) (l : list (Z * list Position)) :
  forall (s : State) (total : Q),
    NoDup l.*1 ->
    (forall k v, (k, v) ∈ l -> active_positions s !! k = Some v) ->
    lock_held s = false ->
    ~ capital s == 0 ->
    exists (total' : Q) (s' : State),
      close_each E l.*1 reason total s = (Returned total', s')
      /\ total' == total + Py.sum (map (fun kv => legs_pnl kv.2) l)
      /\ daily_pnl s'
         == daily_pnl s + Py.sum (map (fun kv => legs_pnl kv.2) l)
      /\ (forall t, active_positions s' !! t
                    = if bool_decide (t ∈ l.*1) then None
                      else active_positions s !! t)
      /\ (forall t, entry_spot s' !! t
                    = if bool_decide (t ∈ l.*1) then None
                      else entry_spot s !! t)
      /\ (forall t, entry_time s' !! t
                    = if bool_decide (t ∈ l.*1) then None
                      else entry_time s !! t)
      /\ (forall t, adjustment_counts s' !! t
                    = if bool_decide (t ∈ l.*1) then None
                      else adjustment_counts s !! t)
      /\ (forall t, trade_premium s' !! t
                    = if bool_decide (t ∈ l.*1) then None
                      else trade_premium s !! t)
      /\ (forall k v, (k, v) ∈ l ->
            trades (db s') !! k
            = with_closed (now E) (legs_pnl v) reason <$> trades (db s) !! k)
      /\ (forall t, t ∉ l.*1 -> trades (db s') !! t = trades (db s) !! t)
      /\ length (alerts s') = (length (alerts s) + length l)%nat.
Proof.
  induction l as [| [k v] l IH]; intros s total Hnd Hin Hk Hc.
  - exists total, s. simpl.
    split; [reflexivity |]. split; [unfold Py.sum; simpl; ring |].
    split; [unfold Py.sum; simpl; ring |].
    do 5 (split; [intros t; reflexivity |]).
    split; [intros k v Hkv; inversion Hkv |].
    split; [reflexivity | lia].
  - rewrite fmap_cons in *. simpl fst in *.
    apply NoDup_cons in Hnd. destruct Hnd as [Hk_l Hnd].
    assert (Hl : active_positions s !! k = Some v) by (apply Hin; left).
    simpl close_each. rewrite bind_eq.
    rewrite (close_position_open E k reason s v Hl Hk).
    rewrite (div_nonzero _ _ Hc).
    set (s1 := push_alert _ (closed_state E k reason (legs_pnl v) s)).
    destruct (IH s1 (total + legs_pnl v) Hnd) as
      (total' & s' & Hrun & Htot & Hpnl & Hap & Hes & Het & Hac & Htp
       & Hrow & Hrest & Hal).
    + intros k' v' Hkv. unfold s1. simpl.
      rewrite lookup_delete_ne; [apply Hin; right; exact Hkv |].
      intros ->. apply Hk_l.
      apply (list_elem_of_fmap_2 fst) in Hkv. exact Hkv.
    + exact Hk.
    + exact Hc.
    + exists total', s'. split; [exact Hrun |].
      assert (Hsum : Py.sum (map (fun kv => legs_pnl kv.2) ((k, v) :: l))
                     == legs_pnl v
                        + Py.sum (map (fun kv => legs_pnl kv.2) l)).
      { simpl map. apply sum_cons. }
      split; [rewrite Htot, Hsum; ring |].
      split.
      { rewrite Hpnl, Hsum. unfold s1. simpl. ring. }
      split; [apply popped_cons; exact Hap |].
      split; [apply popped_cons; exact Hes |].
      split; [apply popped_cons; exact Het |].
      split; [apply popped_cons; exact Hac |].
      split; [apply popped_cons; exact Htp |].
      split.
      { intros k' v' Hkv. apply elem_of_cons in Hkv.
        destruct Hkv as [[= -> ->] | Hkv].
        - rewrite (Hrest k Hk_l). unfold s1. simpl.
          apply lookup_alter_eq.
        - rewrite (Hrow k' v' Hkv). unfold s1. simpl.
          rewrite lookup_alter_ne; [reflexivity |].
          intros ->. apply Hk_l.
          apply (list_elem_of_fmap_2 fst) in Hkv. exact Hkv. }
      split.
      { intros t Ht. apply not_elem_of_cons in Ht. destruct Ht as [Hne Ht].
        rewrite (Hrest t Ht). unfold s1. simpl.
        apply lookup_alter_ne. congruence. }
      rewrite Hal. unfold s1. simpl. rewrite length_app. simpl. lia.
Qed.

Lemma all_popped {A B : Type} (m : gmap Z A) (ap : gmap Z B)
    (m' : gmap Z A) :
  dom m = dom ap ->
  (forall t, m' !! t
             = if bool_decide (t ∈ (map_to_list ap).*1) then None
               else m !! t) ->
  m' = ∅.
Proof.
  intros Hd H. apply map_empty. intros t. rewrite H.
  destruct (bool_decide_reflect (t ∈ (map_to_list ap).*1)) as [Hin | Hin];
    [reflexivity |].
  apply not_elem_of_dom. rewrite Hd. intros Ht. apply Hin.
  apply elem_of_dom in Ht. destruct Ht as [v Hv].
  apply (list_elem_of_fmap_2' fst _ (t, v)); [| reflexivity].
  apply elem_of_map_to_list. exact Hv.
Qed.

(** X16: with the lock free and a capital that is not zero,
    [close_all_positions] returns the mark-to-market of the whole book and
    leaves the ledger empty (all five maps, when their key sets agreed);
    the daily P&L has grown by the returned total, every structure's row is
    marked CLOSED with its own mark-to-market and the given reason, other
    rows are untouched, and one exit alert per structure was sent. *)
Theorem close_all_positions_flattens (reason : string) (s : State) :
  lock_held s = false ->
  ~ capital s == 0 ->
  exists total : Q,
    let s' := (close_all_positions E reason s).2 in
    (close_all_positions E reason s).1 = Returned total
    /\ total == calculate_mtm None s
    /\ active_positions s' = ∅
    /\ (keys_agree s -> ledger s' = (∅, ∅, ∅, ∅, ∅))
    /\ daily_pnl s' == daily_pnl s + total
    /\ (forall tid legs,
          active_positions s !! tid = Some legs ->
          trades (db s') !! tid
          = with_closed (now E) (calculate_mtm (Some tid) s) reason
            <$> trades (db s) !! tid)
    /\ (forall tid,
          active_positions s !! tid = None ->
          trades (db s') !! tid = trades (db s) !! tid)
    /\ length (alerts s')
       = (length (alerts s) + size (active_positions s))%nat.
Proof.
  intros Hk Hc.
  destruct (close_each_run reason (map_to_list (active_positions s)) s 0.0)
    as (total & s' & Hrun & Htot & Hpnl & Hap & Hes & Het & Hac & Htp
        & Hrow & Hrest & Hal).
  { apply NoDup_fst_map_to_list. }
  { intros k v Hkv. apply elem_of_map_to_list. exact Hkv. }
  { exact Hk. }
  { exact Hc. }
  exists total. cbv zeta.
  unfold close_all_positions. rewrite bind_eq. simpl.
  unfold trade_ids. rewrite Hrun. simpl.
  assert (Hmtm : total == calculate_mtm None s).
  { rewrite Htot. unfold calculate_mtm. ring. }
  assert (Hempty : active_positions s' = ∅).
  { apply (all_popped (active_positions s) (active_positions s));
      [reflexivity | exact Hap]. }
  split; [reflexivity |]. split; [exact Hmtm |]. split; [exact Hempty |].
  split.
  { intros (A1 & A2 & A3 & A4). unfold ledger. rewrite Hempty.
    rewrite (all_popped (entry_spot s) (active_positions s) (entry_spot s') A1 Hes).
    rewrite (all_popped (entry_time s) (active_positions s) (entry_time s') A2 Het).
    rewrite (all_popped (adjustment_counts s) (active_positions s) (adjustment_counts s') A3 Hac).
    rewrite (all_popped (trade_premium s) (active_positions s) (trade_premium s') A4 Htp).
    reflexivity. }
  split; [rewrite Hpnl, Hmtm; unfold calculate_mtm; ring |].
  split.
  { intros tid legs Hl. unfold calculate_mtm. rewrite Hl. simpl.
    apply Hrow. apply elem_of_map_to_list. exact Hl. }
  split.
  { intros tid Hl. apply Hrest. intros Hin.
    apply list_elem_of_fmap in Hin. destruct Hin as ([k v] & -> & Hkv).
    apply elem_of_map_to_list in Hkv. simpl in Hl. congruence. }
  rewrite Hal, length_map_to_list. reflexivity.
Qed.

End CloseAll.

Lemma close_all_positions_flattens_witness :
  lock_held two_open = false
  /\ ~ capital two_open == 0
  /\ exists total : Q,
       (close_all_positions env_tick "FORCE_CLOSE" two_open).1
       = Returned total
       /\ total == calculate_mtm None two_open
       /\ active_positions
            (close_all_positions env_tick "FORCE_CLOSE" two_open).2 = ∅.
Proof.
  assert (Hk : lock_held two_open = false) by reflexivity.
  assert (Hc : ~ capital two_open == 0) by discriminate.
  destruct (close_all_positions_flattens env_tick "FORCE_CLOSE" two_open
              Hk Hc) as (total & H1 & H2 & H3 & _).
  exact (conj Hk (conj Hc (ex_intro _ total (conj H1 (conj H2 H3))))).
Defined.

(** ** Repricing *)

Section RepriceFacts.
Context (M : MathLib) (E : Env).

Lemma reprice_legs_cons
    (spot_ T : Q) (p : Position) (rest : list Position) (total : Q) :
  reprice_legs M E spot_ T (p :: rest) total
  = match _get_simulated_ltp M E (symbol p) spot_ (strike p) T
            (option_type p) with
    | None => (None, p :: rest)
    | Some new_px =>
        let p' := reprice p new_px (bs M spot_ (strike p) T (option_type p)) in
        ((reprice_legs M E spot_ T rest (total + pnl p')).1,
         p' :: (reprice_legs M E spot_ T rest (total + pnl p')).2)
    end.
Proof. reflexivity. Qed.

Lemma legs_pnl_cons (p : Position) (rest : list Position) :
  legs_pnl (p :: rest) == pnl p + legs_pnl rest.
Proof. unfold legs_pnl. simpl map. apply sum_cons. Qed.

(** With every leg quoted, the loop reprices each leg in its place and
    adds up the new P&L. *)
Lemma reprice_legs_quoted (spot_ T : Q) (legs : list Position) :
  Forall (fun p => is_Some (_get_simulated_ltp M E (symbol p) spot_
                              (strike p) T (option_type p))) legs ->
  forall total : Q,
    exists (total' : Q) (legs' : list Position),
      reprice_legs M E spot_ T legs total = (Some total', legs')
      /\ total' == total + legs_pnl legs'
      /\ length legs' = length legs
      /\ forall (i : nat) (p : Position),
           legs !! i = Some p ->
           exists px : Q,
             _get_simulated_ltp M E (symbol p) spot_ (strike p) T
               (option_type p) = Some px
             /\ legs' !! i
                = Some (reprice p px
                          (bs M spot_ (strike p) T (option_type p))).
Proof.
  induction 1 as [| p rest [px Hpx] _ IH]; intros total.
  - exists total, []. split; [reflexivity |].
    split; [unfold legs_pnl, Py.sum; simpl; ring |].
    split; [reflexivity |]. intros i p Hi. inversion Hi.
  - rewrite reprice_legs_cons, Hpx. cbv zeta.
    set (p' := reprice p px (bs M spot_ (strike p) T (option_type p))).
    destruct (IH (total + pnl p')) as (total' & legs' & -> & Ht & Hlen & Hi).
    exists total', (p' :: legs'). simpl fst. simpl snd.
    split; [reflexivity |].
    split; [rewrite Ht, legs_pnl_cons; ring |].
    split; [simpl; rewrite Hlen; reflexivity |].
    intros [| i] q Hq; simpl in Hq.
    + injection Hq as <-. exists px. split; [exact Hpx | reflexivity].
    + apply Hi, Hq.
Qed.

(** With a leg that cannot be priced, the loop stops there. *)
Lemma reprice_legs_fault (spot_ T : Q) (legs : list Position) :
  Exists (fun p => _get_simulated_ltp M E (symbol p) spot_ (strike p) T
                     (option_type p) = None) legs ->
  forall total : Q, (reprice_legs M E spot_ T legs total).1 = None.
Proof.
  intros Hex. induction legs as [| p rest IH]; intros total.
  - inversion Hex.
  - rewrite reprice_legs_cons.
    destruct (_get_simulated_ltp M E (symbol p) spot_ (strike p) T
                (option_type p)) as [px |] eqn:Hpx; [| reflexivity].
    cbv zeta. simpl fst. apply IH.
    inversion Hex as [? ? Hnone | ? ? Hrest]; subst; [congruence | exact Hrest].
Qed.

(** X17: [_update_position_prices] on a structure of the ledger whose legs
    can all be priced returns; it keeps the number and the order of the
    legs, changes of each leg only the current price (to its quote) and
    the Greeks, and the unrealized P&L it writes to the trade row is the
    mark-to-market of the repriced structure; the daily P&L and the alerts
    are untouched.  If some leg cannot be priced the call raises and the
    store is left as it was. *)
Theorem update_position_prices_consistent
    (tid : Z) (spot_ : Q) (s : State) (legs : list Position) :
  active_positions s !! tid = Some legs ->
  let quote := fun p : Position =>
    _get_simulated_ltp M E (symbol p) spot_ (strike p) (time_to_expiry E)
      (option_type p) in
  let r := _update_position_prices M E tid spot_ s in
  (Forall (fun p => is_Some (quote p)) legs ->
   exists (legs' : list Position) (u : Q),
     r.1 = Returned tt
     /\ active_positions r.2 !! tid = Some legs'
     /\ length legs' = length legs
     /\ (forall (i : nat) (p : Position),
           legs !! i = Some p ->
           exists px : Q,
             quote p = Some px
             /\ legs' !! i
                = Some (reprice p px
                          (bs M spot_ (strike p) (time_to_expiry E)
                             (option_type p))))
     /\ u == calculate_mtm (Some tid) r.2
     /\ trades (db r.2) !! tid
        = with_unrealized_pnl u <$> trades (db s) !! tid
     /\ daily_pnl r.2 = daily_pnl s
     /\ alerts r.2 = alerts s)
  /\ (Exists (fun p => quote p = None) legs ->
      r.1 = Raised Py.NumericFault /\ db r.2 = db s).
Proof.
  intros Hl. cbv zeta. unfold _update_position_prices.
  rewrite bind_eq. simpl. rewrite Hl. rewrite bind_eq. simpl. split.
  - intros Hall.
    destruct (reprice_legs_quoted spot_ (time_to_expiry E) legs Hall 0.0)
      as (u & legs' & Hr & Hu & Hlen & Hi).
    rewrite Hr. simpl. exists legs', u.
    split; [reflexivity |].
    split; [apply lookup_insert_eq |].
    split; [exact Hlen |]. split; [exact Hi |].
    split.
    { unfold calculate_mtm. simpl. rewrite lookup_insert_eq. simpl.
      rewrite Hu. ring. }
    split; [apply lookup_alter_eq |]. split; reflexivity.
  - intros Hex.
    rewrite (reprice_legs_fault spot_ (time_to_expiry E) legs Hex 0.0).
    simpl. split; reflexivity.
Qed.

End RepriceFacts.

Lemma update_position_prices_consistent_witness :
  active_positions one_open !! 1%Z = Some legs_1
  /\ Forall (fun p => is_Some (_get_simulated_ltp linear_math env_tick
                                 (symbol p) 22300 (strike p)
                                 (time_to_expiry env_tick) (option_type p)))
       legs_1
  /\ exists (legs' : list Position) (u : Q),
       (_update_position_prices linear_math env_tick 1 22300 one_open).1
       = Returned tt
       /\ active_positions
            (_update_position_prices linear_math env_tick 1 22300
               one_open).2 !! 1%Z = Some legs'
       /\ length legs' = length legs_1
       /\ u == calculate_mtm (Some 1%Z)
                 (_update_position_prices linear_math env_tick 1 22300
                    one_open).2.
Proof.
  assert (Hl : active_positions one_open !! 1%Z = Some legs_1)
    by reflexivity.
  assert (Hq : Forall (fun p => is_Some (_get_simulated_ltp linear_math
                                 env_tick (symbol p) 22300 (strike p)
                                 (time_to_expiry env_tick) (option_type p)))
                 legs_1).
  { repeat constructor; vm_compute; eauto. }
  destruct (proj1 (update_position_prices_consistent linear_math env_tick 1
                     22300 one_open legs_1 Hl) Hq)
    as (legs' & u & H1 & H2 & H3 & _ & H5 & _).
  exact (conj Hl (conj Hq
           (ex_intro _ legs' (ex_intro _ u
              (conj H1 (conj H2 (conj H3 H5))))))).
Defined.

(** ** Profit target and stop loss *)

Section TargetFacts.
Context (C : Config) (E : Env).

Lemma close_position_runs
    (tid : Z) (reason : string) (s : State) (legs : list Position) :
  active_positions s !! tid = Some legs ->
  lock_held s = false ->
  ~ capital s == 0 ->
  close_position E tid reason s
  = (Returned (legs_pnl legs),
     push_alert
       (ExitAlert tid (legs_pnl legs) (legs_pnl legs / capital s * 100)
          reason)
       (closed_state E tid reason (legs_pnl legs) s)).
Proof.
  intros Hl Hk Hc. rewrite (close_position_open E tid reason s legs Hl Hk).
  rewrite (div_nonzero _ _ Hc). reflexivity.
Qed.

(** X18: [_check_expiry_targets] leaves everything as it is when the
    structure has no positive premium on record, or when its
    mark-to-market lies strictly between the stop (-premium x stop
    multiple) and the target (premium x target share).  With a positive
    premium, the lock free and a capital that is not zero, a structure at
    or above the target is closed with reason TARGET_HIT, and one below the
    target and at or below the stop with reason STOP_LOSS, the
    mark-to-market being booked as realized P&L. *)
Theorem check_expiry_targets_rule
    (tid : Z) (s : State) (legs : list Position) :
  let premium := default 0 (trade_premium s !! tid) in
  let pnl_ := calculate_mtm (Some tid) s in
  let r := _check_expiry_targets C E tid s in
  let closed_as := fun reason : string =>
    r.1 = Returned tt
    /\ active_positions r.2 !! tid = None
    /\ daily_pnl r.2 = daily_pnl s + pnl_
    /\ trades (db r.2) !! tid
       = with_closed (now E) pnl_ reason <$> trades (db s) !! tid in
  (premium <= 0
   \/ (- premium * EXPIRY_STOP_MULT C < pnl_
       /\ pnl_ < premium * EXPIRY_TARGET_PCT C) ->
   r = (Returned tt, s))
  /\ (active_positions s !! tid = Some legs ->
      lock_held s = false -> ~ capital s == 0 -> 0 < premium ->
      (premium * EXPIRY_TARGET_PCT C <= pnl_ -> closed_as "TARGET_HIT"%string)
      /\ (pnl_ < premium * EXPIRY_TARGET_PCT C ->
          pnl_ <= - premium * EXPIRY_STOP_MULT C ->
          closed_as "STOP_LOSS"%string)).
Proof.
  cbv zeta.
  set (premium := default 0 (trade_premium s !! tid)).
  set (pnl_ := calculate_mtm (Some tid) s).
  assert (Hr : _check_expiry_targets C E tid s
               = (if Py.leb premium 0 then mret tt
                  else if Py.leb (premium * EXPIRY_TARGET_PCT C) pnl_
                  then close_position E tid "TARGET_HIT";; mret tt
                  else if Py.leb pnl_ (- premium * EXPIRY_STOP_MULT C)
                  then close_position E tid "STOP_LOSS";; mret tt
                  else (mret tt : Run unit)) s) by reflexivity.
  rewrite Hr. clear Hr.
  destruct (leb_reflect premium 0) as [Hp | Hp]; cbv beta iota.
  { split; [reflexivity |]. intros _ _ _ Hpos. exfalso. clearbody premium pnl_. lra. }
  destruct (leb_reflect (premium * EXPIRY_TARGET_PCT C) pnl_) as [Ht | Ht];
    cbv beta iota.
  { split; [intros [H | [_ H]]; exfalso; clearbody premium pnl_; lra |].
    intros Hl Hk Hc _. split; [| intros H; exfalso; clearbody premium pnl_; lra].
    intros _. rewrite bind_eq.
    rewrite (close_position_runs tid _ s legs Hl Hk Hc).
    unfold pnl_, calculate_mtm. rewrite Hl. simpl.
    split; [reflexivity |]. split; [apply lookup_delete_eq |].
    split; [reflexivity | apply lookup_alter_eq]. }
  destruct (leb_reflect pnl_ (- premium * EXPIRY_STOP_MULT C)) as [Hs | Hs];
    cbv beta iota.
  { split; [intros [H | [H _]]; exfalso; clearbody premium pnl_; lra |].
    intros Hl Hk Hc _. split; [intros H; exfalso; clearbody premium pnl_; lra |].
    intros _ _. rewrite bind_eq.
    rewrite (close_position_runs tid _ s legs Hl Hk Hc).
    unfold pnl_, calculate_mtm. rewrite Hl. simpl.
    split; [reflexivity |]. split; [apply lookup_delete_eq |].
    split; [reflexivity | apply lookup_alter_eq]. }
  split; [reflexivity |].
  intros _ _ _ _. split; intros; exfalso; clearbody premium pnl_; lra.
Qed.

End TargetFacts.

Lemma check_expiry_targets_rule_witness :
  (- default 0 (trade_premium one_open !! 1%Z)
     * EXPIRY_STOP_MULT example_config
   < calculate_mtm (Some 1%Z) one_open
   /\ calculate_mtm (Some 1%Z) one_open
      < default 0 (trade_premium one_open !! 1%Z)
        * EXPIRY_TARGET_PCT example_config)
  /\ _check_expiry_targets example_config env_tick 1 one_open
     = (Returned tt, one_open).
Proof.
  assert (H : - default 0 (trade_premium one_open !! 1%Z)
                * EXPIRY_STOP_MULT example_config
              < calculate_mtm (Some 1%Z) one_open
              /\ calculate_mtm (Some 1%Z) one_open
                 < default 0 (trade_premium one_open !! 1%Z)
                   * EXPIRY_TARGET_PCT example_config)
    by (split; vm_compute; reflexivity).
  exact (conj H
           (proj1 (check_expiry_targets_rule example_config env_tick 1
                     one_open legs_1) (or_intror H))).
Defined.

(** ** Level 2 *)

Section RollFacts.
Context (M : MathLib) (C : Config) (E : Env).

(** [for pos in positions: if ...: ... return] picks the first leg that
    passes the test. *)
Lemma find_indexed
    (f : Position -> bool) (g : nat -> nat) (legs : list Position) :
  forall (idx : nat) (pos : Position),
    legs !! idx = Some pos ->
    f pos = true ->
    (forall j p, (j < idx)%nat -> legs !! j = Some p -> f p = false) ->
    List.find (fun ip => f ip.2) (imap (fun i p => (g i, p)) legs)
    = Some (g idx, pos).
Proof.
  revert g. induction legs as [| x legs IH]; intros g idx pos Hi Hf Hb.
  - inversion Hi.
  - destruct idx as [| idx]; simpl in Hi.
    + injection Hi as ->. simpl. rewrite Hf. reflexivity.
    + simpl. rewrite (Hb 0%nat x); [| lia | reflexivity].
      apply (IH (g ∘ S) idx pos Hi Hf).
      intros j p Hj Hp. apply (Hb (S j) p); [lia | exact Hp].
Qed.

(** X19: when [adjust_positions] evaluates a structure for which Level 3
    does not apply and whose first short core leg with |delta| x 100 above
    the Level-2 limit is [pos], and the replacement strike can be priced,
    it returns having replaced that one leg by a new SELL leg of the same
    option type and quantity at the strike [_find_strike_by_delta] picks
    for a 0.20 delta (the other legs and the number of legs unchanged);
    the adjustment count goes up by one, one level-2 adjustment record is
    appended, the trade row's adjustment level is set to 2, one level-2
    alert is sent, and neither the daily P&L nor the ledger lock is
    touched. *)
Theorem level2_rolls_first_breach
    (tid : Z) (ospot : option Q) (s : State)
    (legs : list Position) (sp es et prem new_px : Q)
    (idx : nat) (pos : Position) :
  active_positions s !! tid = Some legs ->
  entry_spot s !! tid = Some es ->
  entry_time s !! tid = Some et ->
  trade_premium s !! tid = Some prem ->
  effective_spot E ospot s = Some sp ->
  ~ sp == 0 ->
  ~ es == 0 ->
  (Qabs (sp - es) / es < GAMMA_L3_SPOT_MOVE C
   \/ GAMMA_L3_TIME_WINDOW C < now E - et) ->
  legs !! idx = Some pos ->
  l2_breach C pos = true ->
  (forall j p, (j < idx)%nat -> legs !! j = Some p -> l2_breach C p = false) ->
  let ot := option_type pos in
  let T := time_to_expiry E in
  let new_strike := _find_strike_by_delta M sp T 0.20 ot in
  let new_sym := build_option_symbol new_strike ot (nearest_weekly_expiry E) in
  _get_simulated_ltp M E new_sym sp new_strike T ot = Some new_px ->
  let r := adjust_positions M C E tid ospot s in
  let action := RollLeg ot (strike pos) in
  let why :=
    DeltaOver (Qabs (delta (greeks pos)) * 100) (GAMMA_L2_DELTA_LIMIT C) in
  let legs' :=
    delete idx legs
    ++ [new_position new_sym new_strike ot "SELL" new_px (quantity pos)
          (bs M sp new_strike T ot) false (now E)] in
  r.1 = Returned tt
  /\ active_positions r.2 = <[tid := legs']> (active_positions s)
  /\ length legs' = length legs
  /\ adjustment_counts r.2
     = <[tid := (default 0 (adjustment_counts s !! tid) + 1)%Z]>
         (adjustment_counts s)
  /\ adjustments (db r.2)
     = adjustments (db s)
       ++ [ {| adj_trade_id := tid; adj_level := 2; adj_action := action;
               adj_reason := why; adj_spot := sp;
               adj_pnl := legs_pnl legs; adj_time := now E |} ]
  /\ trades (db r.2) = alter (with_adjustment_level 2) tid (trades (db s))
  /\ alerts r.2 = alerts s ++ [AdjustmentAlert 2 action why sp]
  /\ daily_pnl r.2 = daily_pnl s
  /\ lock_held r.2 = lock_held s
  /\ (entry_spot r.2, entry_time r.2, trade_premium r.2)
     = (entry_spot s, entry_time s, trade_premium s).
Proof.
  intros Hl Hes Het Hpr Hsp Hnz Hez Hno3 Hidx Hbreach Hfirst.
  cbv zeta. intros Hquote.
  assert (Hlen : length (delete idx legs
                         ++ [new_position
                               (build_option_symbol
                                  (_find_strike_by_delta M sp
                                     (time_to_expiry E) 0.20
                                     (option_type pos))
                                  (option_type pos) (nearest_weekly_expiry E))
                               (_find_strike_by_delta M sp (time_to_expiry E)
                                  0.20 (option_type pos))
                               (option_type pos) "SELL" new_px (quantity pos)
                               (bs M sp
                                  (_find_strike_by_delta M sp
                                     (time_to_expiry E) 0.20
                                     (option_type pos))
                                  (time_to_expiry E) (option_type pos))
                               false (now E)])
                 = length legs).
  { rewrite length_app, length_delete by (rewrite Hidx; eauto).
    apply lookup_lt_Some in Hidx. simpl. lia. }
  unfold adjust_positions.
  rewrite bind_eq. simpl. rewrite Hl, Hsp.
  rewrite (otruthy_nonzero sp Hnz). simpl.
  rewrite Hes, Het, Hpr. simpl.
  repeat (rewrite bind_eq; simpl).
  rewrite (div_nonzero _ es Hez). simpl.
  assert (H3 : l3_triggered C (Qabs (sp - es) / es) (now E - et) = false).
  { unfold l3_triggered. apply andb_false_iff.
    destruct Hno3 as [H | H]; [left | right].
    - unfold Py.geb. apply leb_false, H.
    - apply leb_false, H. }
  rewrite H3.
  assert (Hfind : List.find (fun ip => l2_breach C ip.2) (indexed legs)
                  = Some (idx, pos))
    by exact (find_indexed (l2_breach C) (fun i => i) legs idx pos Hidx
                Hbreach Hfirst).
  rewrite Hfind.
  rewrite bind_eq. unfold _record_adjustment.
  repeat (rewrite bind_eq; simpl).
  unfold _roll_leg. cbv zeta.
  rewrite bind_eq. rewrite Hquote. simpl.
  repeat (rewrite bind_eq; simpl).
  rewrite Hl. simpl.
  repeat (rewrite bind_eq; simpl).
  repeat split; try reflexivity. exact Hlen.
Qed.

End RollFacts.

Lemma level2_rolls_first_breach_witness :
  legs_1 !! 0%nat
  = Some (new_position "NSE:NIFTY24JUN0622100CE" 22100 "CE" "SELL" 120 65
            (bs linear_math 22000 22100 0.01 "CE") false 600)
  /\ l2_breach example_config
       (new_position "NSE:NIFTY24JUN0622100CE" 22100 "CE" "SELL" 120 65
          (bs linear_math 22000 22100 0.01 "CE") false 600) = true
  /\ GAMMA_L3_TIME_WINDOW example_config < now env_late - 600
  /\ (adjust_positions linear_math example_config env_late 1 (Some 22300)
        one_open).1 = Returned tt
  /\ adjustment_counts
       (adjust_positions linear_math example_config env_late 1 (Some 22300)
          one_open).2
     = <[1%Z := (default 0 (adjustment_counts one_open !! 1%Z) + 1)%Z]>
         (adjustment_counts one_open).
Proof.
  set (p0 := new_position "NSE:NIFTY24JUN0622100CE" 22100 "CE" "SELL" 120 65
               (bs linear_math 22000 22100 0.01 "CE") false 600).
  assert (Hl : active_positions one_open !! 1%Z = Some legs_1)
    by reflexivity.
  assert (Hes : entry_spot one_open !! 1%Z = Some 22000) by reflexivity.
  assert (Het : entry_time one_open !! 1%Z = Some 600) by reflexivity.
  assert (Hpr : trade_premium one_open !! 1%Z
                = Some ((120 + 110 - 40 - 35) * inject_Z 65))
    by reflexivity.
  assert (Hsp : effective_spot env_late (Some 22300) one_open = Some 22300)
    by (vm_compute; reflexivity).
  assert (Hnz : ~ 22300 == 0) by discriminate.
  assert (Hez : ~ 22000 == 0) by discriminate.
  assert (Hwin : GAMMA_L3_TIME_WINDOW example_config < now env_late - 600)
    by (vm_compute; reflexivity).
  assert (Hidx : legs_1 !! 0%nat = Some p0) by reflexivity.
  assert (Hb : l2_breach example_config p0 = true)
    by (vm_compute; reflexivity).
  assert (Hfirst : forall j p, (j < 0)%nat -> legs_1 !! j = Some p ->
                               l2_breach example_config p = false)
    by (intros j p Hj; lia).
  assert (Hq : _get_simulated_ltp linear_math env_late
                 (build_option_symbol
                    (_find_strike_by_delta linear_math 22300
                       (time_to_expiry env_late) 0.20 (option_type p0))
                    (option_type p0) (nearest_weekly_expiry env_late))
                 22300
                 (_find_strike_by_delta linear_math 22300
                    (time_to_expiry env_late) 0.20 (option_type p0))
                 (time_to_expiry env_late) (option_type p0)
               = Some (1321 # 100))
    by (vm_compute; reflexivity).
  destruct (level2_rolls_first_breach linear_math example_config env_late 1
              (Some 22300) one_open legs_1 22300 22000 600
              ((120 + 110 - 40 - 35) * inject_Z 65) (1321 # 100) 0 p0
              Hl Hes Het Hpr Hsp Hnz Hez (or_intror Hwin) Hidx Hb Hfirst Hq)
    as (H1 & _ & _ & H4 & _).
  exact (conj Hidx (conj Hb (conj Hwin (conj H1 H4)))).
Defined.

(** ** After an entry *)

Section AfterEntry.
Context (M : MathLib) (C : Config).

(** With an OPEN trade in the store [check_entry] answers False. *)
Lemma check_entry_open_store (E : Env) (s : State) :
  get_open_trades (db s) <> [] ->
  (check_entry E s).1 = Returned false.
Proof.
  intros Hopen. unfold check_entry. rewrite bind_eq. simpl.
  destruct (is_running s); simpl; [| reflexivity].
  destruct (Py.leb 560 (time_of_day E) && Py.leb (time_of_day E) 885);
    simpl; [| reflexivity].
  rewrite bind_eq.
  destruct (bool_decide (trade_date s <> today E)); simpl;
    rewrite bind_eq; simpl.
  - destruct (_ <=? _)%Z; simpl; [reflexivity |].
    destruct (Py.leb _ _); simpl; [reflexivity |].
    destruct (String.eqb _ _); simpl; [reflexivity |].
    destruct (get_open_trades (db s)); [contradiction | reflexivity].
  - destruct (_ <=? _)%Z; simpl; [reflexivity |].
    destruct (Py.leb _ _); simpl; [reflexivity |].
    destruct (String.eqb _ _); simpl; [reflexivity |].
    destruct (get_open_trades (db s)); [contradiction | reflexivity].
Qed.

(** The state a successful [open_position] leaves. *)
Lemma open_position_success
    (E : Env) (strategy_type : string) (s s' : State) (tid : Z) :
  open_position M C E strategy_type s = (Returned (Some tid), s') ->
  tid = next_trade_id (db s)
  /\ (exists row : TradeRow,
        trades (db s') = <[tid := row]> (trades (db s))
        /\ row_status row = "OPEN"%string)
  /\ (exists positions : list Position,
        active_positions s' = <[tid := positions]> (active_positions s)
        /\ Forall (fun p => current_price p = entry_price p) positions)
  /\ (exists spot_ : Q,
        get_spot_price E = Some spot_
        /\ entry_spot s' = <[tid := spot_]> (entry_spot s))
  /\ entry_time s' = <[tid := now E]> (entry_time s)
  /\ adjustment_counts s' = <[tid := 0%Z]> (adjustment_counts s)
  /\ (exists a : Alert, alerts s' = alerts s ++ [a])
  /\ (check_entry E s).1 = Returned true.
Proof.
  intros H. unfold open_position in H. rewrite bind_eq in H.
  destruct (check_entry_returns E s) as (ok & Hce & Hst).
  rewrite Hce in H.
  assert (Hok : (check_entry E s).1 = Returned ok)
    by (rewrite Hce; reflexivity).
  assert (Hdb : db (check_entry E s).2 = db s)
    by (destruct Hst as [-> | [_ ->]]; reflexivity).
  assert (Hal : alerts (check_entry E s).2 = alerts s)
    by (destruct Hst as [-> | [_ ->]]; reflexivity).
  destruct (check_entry_frame E s) as (Hfl & _ & _).
  unfold ledger in Hfl. inversion Hfl as [[Hap Hes Het Hac Hpr]].
  clear Hfl Hpr.
  remember ((check_entry E s).2) as g eqn:Hg. clear Hce Hst Hg.
  destruct ok; simpl in H; [| discriminate H].
  destruct (get_spot_price E) as [sp |] eqn:Hsp;
    [| simpl in H; discriminate H].
  destruct (Py.otruthy (Some sp)); simpl in H; [| discriminate H].
  rewrite bind_eq in H; simpl in H.
  match type of H with
  | context [if ?c then ?a else ?b] =>
      destruct (if c then a else b) as [[[ce_k pe_k] ceh_k] peh_k]
  end.
  do 4 (rewrite bind_eq in H;
        match type of H with
        | context [lift_num ?q] =>
            destruct q as [? |]; simpl in H; [| discriminate H]
        end).
  rewrite bind_eq in H; simpl in H.
  destruct (Py.gtb _ _); simpl in H; [discriminate H |].
  rewrite bind_eq in H; simpl in H.
  rewrite bind_eq in H. unfold with_lock in H; simpl in H.
  destruct (lock_held g) eqn:Hk; simpl in H; [discriminate H |].
  injection H as Htid Hs'. rewrite Hdb in Htid. subst s'. simpl.
  rewrite Hdb, Hap, Hes, Het, Hac, Hal, Htid.
  split; [reflexivity |].
  split; [eexists; split; [reflexivity | reflexivity] |].
  split; [eexists; split; [reflexivity | repeat constructor] |].
  split; [exists sp; split; reflexivity |].
  split; [reflexivity |].
  split; [reflexivity |].
  split; [eexists; reflexivity | exact Hok].
Qed.

Lemma legs_pnl_fresh (legs : list Position) :
  Forall (fun p => current_price p = entry_price p) legs ->
  legs_pnl legs == 0.
Proof.
  induction 1 as [| p legs Hp _ IH].
  - reflexivity.
  - rewrite legs_pnl_cons, IH. unfold pnl. rewrite Hp. ring.
Qed.

Lemma open_row_listed (d : Database) (tid : Z) (row : TradeRow) :
  trades d !! tid = Some row ->
  row_status row = "OPEN"%string ->
  get_open_trades d <> [].
Proof.
  intros Hrow Hst Hnil.
  assert (Hin : In (tid, row) (get_open_trades d)).
  { unfold get_open_trades. apply filter_In. split.
    - apply list_elem_of_In, elem_of_map_to_list. exact Hrow.
    - simpl. rewrite Hst. reflexivity. }
  rewrite Hnil in Hin. destruct Hin.
Qed.

(** X20: when [open_position] returns a trade id, that id is the next id
    of the store and its row is stored OPEN; the new structure is on the
    ledger with a mark-to-market of zero, the quoted spot as entry spot,
    the current time as entry time and an adjustment count of 0, and one
    entry alert was sent.  From that state on [check_entry] answers False
    and a further [open_position] returns None, whatever the time, day and
    strategy type: the OPEN row in the store bars a second entry. *)
Theorem entry_bars_next_entry
    (E : Env) (strategy_type : string) (s s' : State) (tid : Z) :
  open_position M C E strategy_type s = (Returned (Some tid), s') ->
  tid = next_trade_id (db s)
  /\ row_status <$> trades (db s') !! tid = Some "OPEN"%string
  /\ is_Some (active_positions s' !! tid)
  /\ calculate_mtm (Some tid) s' == 0
  /\ entry_spot s' !! tid = get_spot_price E
  /\ entry_time s' !! tid = Some (now E)
  /\ adjustment_counts s' !! tid = Some 0%Z
  /\ length (alerts s') = S (length (alerts s))
  /\ forall (E' : Env) (strategy_type' : string),
       (check_entry E' s').1 = Returned false
       /\ (open_position M C E' strategy_type' s').1 = Returned None
       /\ ledger (open_position M C E' strategy_type' s').2 = ledger s'.
Proof.
  intros H. apply open_position_success in H.
  destruct H as (Htid & (row & Htr & Hst) & (positions & Hpos & Hfresh)
                 & (spot_ & Hsp & Hes) & Het & Hac & (a & Hal) & _).
  assert (Hrow : trades (db s') !! tid = Some row)
    by (rewrite Htr; apply lookup_insert_eq).
  assert (Hlegs : active_positions s' !! tid = Some positions)
    by (rewrite Hpos; apply lookup_insert_eq).
  split; [exact Htid |].
  split; [rewrite Hrow; simpl; rewrite Hst; reflexivity |].
  split; [rewrite Hlegs; eauto |].
  split.
  { unfold calculate_mtm. rewrite Hlegs. simpl.
    apply legs_pnl_fresh, Hfresh. }
  split; [rewrite Hes, Hsp; apply lookup_insert_eq |].
  split; [rewrite Het; apply lookup_insert_eq |].
  split; [rewrite Hac; apply lookup_insert_eq |].
  split; [rewrite Hal, length_app; simpl; lia |].
  intros E' st'.
  assert (Hno : (check_entry E' s').1 = Returned false).
  { apply check_entry_open_store.
    apply (open_row_listed _ tid row Hrow Hst). }
  split; [exact Hno |].
  destruct (check_entry_returns E' s') as (ok & Hce & _).
  destruct (check_entry_frame E' s') as (Hfl & _ & _).
  rewrite Hce in Hno. simpl in Hno. injection Hno as ->.
  unfold open_position. rewrite bind_eq, Hce. simpl.
  split; [reflexivity | exact Hfl].
Qed.

End AfterEntry.

Lemma entry_bars_next_entry_witness :
  open_position linear_math example_config env_open "EXPIRY" ready
  = (Returned (Some 1%Z), one_open)
  /\ row_status <$> trades (db one_open) !! 1%Z = Some "OPEN"%string
  /\ calculate_mtm (Some 1%Z) one_open == 0
  /\ (check_entry env_tick one_open).1 = Returned false
  /\ (open_position linear_math example_config env_tick "EXPIRY" one_open).1
     = Returned None.
Proof.
  assert (H : open_position linear_math example_config env_open "EXPIRY"
                ready
              = (Returned (Some 1%Z), one_open))
    by (vm_compute; reflexivity).
  destruct (entry_bars_next_entry linear_math example_config env_open
              "EXPIRY" ready one_open 1 H)
    as (_ & H2 & _ & H4 & _ & _ & _ & _ & H9).
  destruct (H9 env_tick "EXPIRY"%string) as (H10 & H11 & _).
  exact (conj H (conj H2 (conj H4 (conj H10 H11)))).
Defined.

(** ** Aggregated Greeks *)

Section BookFacts.

Lemma gamma_pos_short (p : Position) :
  side p = "SELL"%string ->
  0 <= gamma (greeks p) ->
  (0 <= quantity p)%Z ->
  reads_as_short (gamma_pos (quantity p) p).
Proof.
  intros Hs Hg Hq. unfold reads_as_short, gamma_pos. simpl.
  rewrite Hs. repeat split; assumption.
Qed.

(** X21: [get_gamma_risk_score] always lies in [0, 100]; with nothing on
    the ledger it is 50.0 and [get_net_delta] is 0; and a ledger that holds
    short legs only (side SELL, gamma and quantity not negative), at a
    stored spot that is not negative, never scores above 50. *)
Theorem book_gamma_score_range (s : State) :
  0 <= get_gamma_risk_score s <= 100
  /\ (active_positions s = ∅ ->
      get_gamma_risk_score s = 50.0 /\ get_net_delta s == 0)
  /\ (0 <= spot s ->
      (forall tid legs, active_positions s !! tid = Some legs ->
         Forall (fun p => side p = "SELL"%string
                          /\ 0 <= gamma (greeks p)
                          /\ (0 <= quantity p)%Z) legs) ->
      get_gamma_risk_score s <= 50).
Proof.
  split; [| split].
  - unfold get_gamma_risk_score. cbv zeta.
    destruct (concat _) as [| g gs]; [split; discriminate |].
    apply score_range.
  - intros He. unfold get_gamma_risk_score, get_net_delta.
    rewrite He, map_to_list_empty. simpl. split; reflexivity.
  - intros Hsp Hshort. unfold get_gamma_risk_score. cbv zeta.
    destruct (concat _) as [| g gs] eqn:Hc; [discriminate |].
    rewrite <- Hc. clear g gs Hc.
    assert (H50 : score_of_exposure 0 == 50) by reflexivity.
    unfold compute_gamma_risk_score. rewrite <- H50.
    apply score_mono. rewrite total_is_sum.
    apply short_sum_nonpos.
    + destruct (Py.truthy (spot s)); [exact Hsp | discriminate].
    + apply Forall_concat, Forall_forall. intros gl Hgl.
      apply list_elem_of_fmap in Hgl. destruct Hgl as ([tid legs] & -> & Hin).
      apply elem_of_map_to_list in Hin. simpl.
      specialize (Hshort tid legs Hin).
      apply Forall_forall. intros gp Hgp.
      apply list_elem_of_fmap in Hgp. destruct Hgp as (p & -> & Hp).
      rewrite Forall_forall in Hshort.
      destruct (Hshort p Hp) as (H1 & H2 & H3).
      apply gamma_pos_short; assumption.
Qed.

End BookFacts.

Lemma book_gamma_score_range_witness :
  active_positions ready = ∅
  /\ get_gamma_risk_score ready = 50.0
  /\ get_net_delta ready == 0.
Proof.
  assert (H : active_positions ready = ∅) by reflexivity.
  exact (conj H (proj1 (proj2 (book_gamma_score_range ready)) H)).
Defined.

(** ** End-of-day report *)

Section ReportFacts.
Context (E : Env).

Lemma filter_shorter {A : Type} (f : A -> bool) (l : list A) :
  (length (List.filter f l) <= length l)%nat.
Proof.
  induction l as [| x l IH]; simpl; [lia |].
  destruct (f x); simpl; lia.
Qed.

Lemma or_zero_eq (x : Q) : or_zero x == x.
Proof.
  unfold or_zero, Py.truthy.
  destruct (Qeq_bool x 0) eqn:H; simpl; [| reflexivity].
  apply Qeq_bool_iff in H. rewrite H. reflexivity.
Qed.

Lemma min_of_least (xs : list Q) :
  forall x : Q,
    min_of x xs <= x
    /\ (forall y, In y xs -> min_of x xs <= y)
    /\ In (min_of x xs) (x :: xs).
Proof.
  unfold min_of. induction xs as [| a xs IH]; intros x; simpl.
  - split; [lra |]. split; [intros y [] | left; reflexivity].
  - destruct (IH (Py.min x a)) as (H1 & H2 & H3).
    destruct (min_upper x a) as [Hx Ha].
    split; [lra |]. split.
    + intros y [<- | Hy]; [lra | apply H2, Hy].
    + destruct H3 as [H3 | H3]; [| right; right; exact H3].
      destruct (min_cases x a) as [Hm | Hm].
      * left. congruence.
      * right. left. congruence.
Qed.

Lemma share_range (w c : nat) :
  (w <= c)%nat -> (0 < c)%nat ->
  0 <= inject_Z (Z.of_nat w) / inject_Z (Z.of_nat c) * 100 <= 100.
Proof.
  intros Hwc Hc.
  assert (Hw0 : 0 <= inject_Z (Z.of_nat w)).
  { replace 0 with (inject_Z 0) by reflexivity. rewrite <- Zle_Qle. lia. }
  assert (Hc0 : 0 < inject_Z (Z.of_nat c)).
  { replace 0 with (inject_Z 0) by reflexivity. rewrite <- Zlt_Qlt. lia. }
  assert (Hle : inject_Z (Z.of_nat w) <= inject_Z (Z.of_nat c)).
  { rewrite <- Zle_Qle. lia. }
  set (a := inject_Z (Z.of_nat w)) in *.
  set (b := inject_Z (Z.of_nat c)) in *. clearbody a b.
  assert (H0 : 0 <= a / b).
  { apply Qle_shift_div_l; [exact Hc0 | lra]. }
  assert (H1 : a / b <= 1).
  { apply Qle_shift_div_r; [exact Hc0 | lra]. }
  split; lra.
Qed.

(** X22: the end-of-day report counts no more winners than closed trades
    and gives a win rate between 0 and 100; with no closed trade dated
    today every figure is 0; the figure reported as maximum drawdown is the
    least realized P&L among today's closed trades: it is at most the
    realized P&L of each of them, whatever its sign, and when there is one
    it is the realized P&L of one of them.  The report is
    stored under today's date, replacing any earlier one and leaving the
    other dates alone, so that generating it twice stores it once. *)
Theorem eod_summary_figures (s : State) (table : gmap Z DailySummary) :
  let sm := (generate_eod_summary E s table).1 in
  let table' := (generate_eod_summary E s table).2 in
  (sum_winning_trades sm <= sum_total_trades sm)%nat
  /\ 0 <= sum_win_rate sm <= 100
  /\ (sum_total_trades sm = 0%nat ->
      sum_winning_trades sm = 0%nat /\ sum_net_pnl sm = 0
      /\ sum_max_drawdown sm = 0 /\ sum_win_rate sm = 0)
  /\ (forall (id : Z) (row : TradeRow),
        trades (db s) !! id = Some row ->
        row_trade_date row = today E ->
        row_status row = "CLOSED"%string ->
        sum_max_drawdown sm <= row_realized_pnl row)
  /\ (sum_total_trades sm <> 0%nat ->
      exists (id : Z) (row : TradeRow),
        trades (db s) !! id = Some row
        /\ row_trade_date row = today E
        /\ row_status row = "CLOSED"%string
        /\ sum_max_drawdown sm == row_realized_pnl row)
  /\ table' !! today E = Some sm
  /\ (forall d : Z, d <> today E -> table' !! d = table !! d)
  /\ generate_eod_summary E s table' = (sm, table').
Proof.
  cbv zeta. unfold generate_eod_summary. cbv zeta. simpl.
  set (closed := List.filter
                   (fun kr => String.eqb (row_status kr.2) "CLOSED")
                   (get_trades_for_date (today E) (db s))).
  set (wins := List.filter
                 (fun kr => Py.gtb (or_zero (row_realized_pnl kr.2)) 0)
                 closed).
  assert (Hwc : (length wins <= length closed)%nat)
    by apply filter_shorter.
  split; [exact Hwc |]. split.
  { destruct closed as [| c0 cs] eqn:Hc; [split; discriminate |].
    rewrite <- Hc in *. apply share_range; [exact Hwc |].
    rewrite Hc. simpl. lia. }
  split.
  { intros H0. destruct closed as [| c0 cs] eqn:Hc; [| discriminate H0].
    repeat split; reflexivity. }
  split.
  { intros id row Hrow Hdate Hst.
    assert (Hin : In (id, row) closed).
    { unfold closed, get_trades_for_date.
      apply filter_In. split; [apply filter_In; split |].
      - apply list_elem_of_In, elem_of_map_to_list. exact Hrow.
      - simpl. apply Z.eqb_eq, Hdate.
      - simpl. rewrite Hst. reflexivity. }
    apply (in_map (fun kr => or_zero (row_realized_pnl kr.2))) in Hin.
    simpl in Hin. rewrite <- (or_zero_eq (row_realized_pnl row)).
    destruct (map _ closed) as [| x xs]; [destruct Hin |].
    destruct (min_of_least xs x) as (H1 & H2 & _).
    destruct Hin as [<- | Hin]; [exact H1 | apply H2, Hin]. }
  split.
  { intros Hne.
    assert (Hall : forall kr : Z * TradeRow,
               In kr closed ->
               trades (db s) !! kr.1 = Some kr.2
               /\ row_trade_date kr.2 = today E
               /\ row_status kr.2 = "CLOSED"%string).
    { intros [id row] Hin. unfold closed, get_trades_for_date in Hin.
      apply filter_In in Hin. destruct Hin as [Hin Hst].
      apply filter_In in Hin. destruct Hin as [Hin Hdate].
      simpl in *. split; [| split].
      - apply elem_of_map_to_list, list_elem_of_In. exact Hin.
      - apply Z.eqb_eq, Hdate.
      - apply String.eqb_eq, Hst. }
    destruct closed as [| c0 cs]; [contradiction Hne; reflexivity |].
    simpl map.
    destruct (min_of_least
                (map (fun kr => or_zero (row_realized_pnl kr.2)) cs)
                (or_zero (row_realized_pnl c0.2))) as (_ & _ & Hmem).
    change (In (min_of (or_zero (row_realized_pnl c0.2))
                  (map (fun kr => or_zero (row_realized_pnl kr.2)) cs))
              (map (fun kr => or_zero (row_realized_pnl kr.2)) (c0 :: cs)))
      in Hmem.
    apply in_map_iff in Hmem. destruct Hmem as ([id row] & Heq & Hin).
    destruct (Hall (id, row) Hin) as (Hrow & Hdate & Hst).
    exists id, row. repeat (split; [assumption |]).
    simpl in Heq. rewrite <- Heq. apply or_zero_eq. }
  unfold upsert_daily_summary. simpl.
  split; [apply lookup_insert_eq |].
  split; [intros d Hd; apply lookup_insert_ne; congruence |].
  rewrite insert_insert_eq. reflexivity.
Qed.

End ReportFacts.

Lemma eod_summary_figures_witness :
  trades (db next_morning) !! 1%Z = Some row_yesterday
  /\ row_trade_date row_yesterday = today env_eod
  /\ row_status row_yesterday = "CLOSED"%string
  /\ sum_max_drawdown (generate_eod_summary env_eod next_morning ∅).1
     <= row_realized_pnl row_yesterday
  /\ sum_total_trades (generate_eod_summary env_eod next_morning ∅).1
     = 2%nat
  /\ exists (id : Z) (row : TradeRow),
       trades (db next_morning) !! id = Some row
       /\ row_trade_date row = today env_eod
       /\ row_status row = "CLOSED"%string
       /\ sum_max_drawdown (generate_eod_summary env_eod next_morning ∅).1
          == row_realized_pnl row.
Proof.
  assert (H1 : trades (db next_morning) !! 1%Z = Some row_yesterday)
    by reflexivity.
  assert (H2 : row_trade_date row_yesterday = today env_eod) by reflexivity.
  assert (H3 : row_status row_yesterday = "CLOSED"%string) by reflexivity.
  assert (H4 : sum_total_trades
                 (generate_eod_summary env_eod next_morning ∅).1 <> 0%nat)
    by (vm_compute; discriminate).
  destruct (eod_summary_figures env_eod next_morning ∅)
    as (_ & _ & _ & H & Hmin & _).
  exact (conj H1 (conj H2 (conj H3
           (conj (H 1%Z row_yesterday H1 H2 H3) (conj eq_refl (Hmin H4)))))).
Defined.

(** ** Expiry date and symbols *)

Section ExpiryFacts.

(** X23: the date [get_nearest_weekly_expiry] picks is always a Thursday,
    today or at most seven days ahead; it is today exactly on a Thursday
    before 15:00, and a full week ahead exactly on a Thursday from 15:00
    on. *)
Theorem nearest_weekly_expiry_is_thursday (today_ hour : Z) :
  weekday (nearest_weekly_expiry_date today_ hour) = 3%Z
  /\ (today_ <= nearest_weekly_expiry_date today_ hour <= today_ + 7)%Z
  /\ (nearest_weekly_expiry_date today_ hour = today_
      <-> weekday today_ = 3%Z /\ (hour < 15)%Z)
  /\ (nearest_weekly_expiry_date today_ hour = (today_ + 7)%Z
      <-> weekday today_ = 3%Z /\ (15 <= hour)%Z).
Proof.
  unfold nearest_weekly_expiry_date, weekday. cbv zeta.
  destruct (Z.eqb_spec ((3 - (today_ + 6) `mod` 7) `mod` 7) 0) as [H0 | H0];
    destruct (Z.leb_spec 15 hour) as [Hh | Hh]; simpl;
    repeat split; intros;
    repeat match goal with
           | H : _ /\ _ |- _ => destruct H
           end;
    Z.to_euclidean_division_equations; lia.
Qed.

Lemma length_append (s t : string) :
  String.length (s +:+ t) = (String.length s + String.length t)%nat.
Proof.
  induction s as [| a s IH]; simpl; [reflexivity | rewrite IH; reflexivity].
Qed.

Lemma append_inv_tail (s s' t t' : string) :
  String.length t = String.length t' ->
  (s +:+ t = s' +:+ t')%string ->
  s = s' /\ t = t'.
Proof.
  intros Hlen. revert s'.
  induction s as [| a s IH]; intros [| b s'] H; simpl in H.
  - split; [reflexivity | exact H].
  - exfalso. apply (f_equal String.length) in H.
    rewrite !length_append in H. simpl in H.
    rewrite ?length_append in H. lia.
  - exfalso. apply (f_equal String.length) in H.
    rewrite !length_append in H. simpl in H.
    rewrite ?length_append in H. lia.
  - injection H as -> H. destruct (IH s' H) as [-> ->].
    split; reflexivity.
Qed.

(** X24: for one expiry, [build_option_symbol] gives different symbols to
    different legs: two option types of the same length (as CE and PE are)
    and two strikes yield the same symbol only if both the strike and the
    type are the same. *)
Theorem build_option_symbol_inj
    (k k' : Z) (ot ot' expiry : string) :
  String.length ot = String.length ot' ->
  build_option_symbol k ot expiry = build_option_symbol k' ot' expiry ->
  k = k' /\ ot = ot'.
Proof.
  intros Hlen H. unfold build_option_symbol in H.
  apply (inj (String.app "NSE:NIFTY")) in H.
  apply (inj (String.app expiry)) in H.
  apply append_inv_tail in H; [| exact Hlen].
  destruct H as [Hk Ho]. split; [| exact Ho].
  apply (inj pretty). exact Hk.
Qed.

End ExpiryFacts.

Lemma build_option_symbol_inj_witness :
  String.length "CE" = String.length "CE"
  /\ build_option_symbol 22100 "CE" "24JUN06"
     = build_option_symbol (22000 + 100) "CE" "24JUN06"
  /\ 22100%Z = (22000 + 100)%Z.
Proof.
  assert (H1 : String.length "CE" = String.length "CE") by reflexivity.
  assert (H2 : build_option_symbol 22100 "CE" "24JUN06"
               = build_option_symbol (22000 + 100) "CE" "24JUN06")
    by reflexivity.
  exact (conj H1 (conj H2
           (proj1 (build_option_symbol_inj 22100 (22000 + 100) "CE" "CE"
                     "24JUN06" H1 H2)))).
Defined.

Lemma nearest_weekly_expiry_is_thursday_witness :
  weekday 739043 = 3%Z
  /\ (10 < 15)%Z
  /\ nearest_weekly_expiry_date 739043 10 = 739043%Z.
Proof.
  assert (H1 : weekday 739043 = 3%Z) by reflexivity.
  assert (H2 : (10 < 15)%Z) by lia.
  destruct (nearest_weekly_expiry_is_thursday 739043 10)
    as (_ & _ & [_ H] & _).
  exact (conj H1 (conj H2 (H (conj H1 H2)))).
Defined.

(** ** One structure at a time *)

Ltac run_at R :=
  match goal with
  | |- _ ?s (snd (?m ?s)) => apply (steps_at R m s)
  end.

Ltac run_steps :=
  repeat match goal with
         | |- steps _ (@mret Run _ _ _) =>
             apply steps_ret; typeclasses eauto
         | |- steps _ get => apply steps_get; typeclasses eauto
         | |- steps _ (lift_num _) => apply steps_lift_num; typeclasses eauto
         | |- steps _ (lift_key _) => apply steps_lift_key; typeclasses eauto
         | |- steps _ (@mbind Run _ _ _ _ _) =>
             apply steps_bind; [typeclasses eauto | | intros ?; cbv beta]
         | |- steps _ (modify _) => apply steps_modify; intros ?
         end.

Section SyncFacts.

#[local] Instance sync_keeps_preorder : PreOrder sync_keeps.
Proof.
  split.
  - intros s Hs. split; [exact Hs | reflexivity].
  - intros a b c Hab Hbc Ha.
    destruct (Hab Ha) as [Hb H1]. destruct (Hbc Hb) as [Hc H2].
    split; [exact Hc | congruence].
Qed.

#[local] Instance sync_keeps_of_preorder (tid : Z) :
  PreOrder (sync_keeps_of tid).
Proof.
  split.
  - intros s _ Hs. split; [exact Hs | reflexivity].
  - intros a b c Hab Hbc Hin Ha.
    destruct (Hab Hin Ha) as [Hb H1].
    assert (Hin' : tid ∈ dom (active_positions b)) by (rewrite H1; exact Hin).
    destruct (Hbc Hin' Hb) as [Hc H2].
    split; [exact Hc | congruence].
Qed.

#[local] Instance sync_shrinks_preorder : PreOrder sync_shrinks.
Proof.
  split.
  - intros s Hs. split; [exact Hs | reflexivity].
  - intros a b c Hab Hbc Ha.
    destruct (Hab Ha) as [Hb H1]. destruct (Hbc Hb) as [Hc H2].
    split; [exact Hc | etransitivity; eassumption].
Qed.

Lemma sync_keeps_any (tid : Z) (s s' : State) :
  sync_keeps s s' -> sync_keeps_of tid s s'.
Proof. intros H _. exact H. Qed.

Lemma sync_keeps_shrinks (s s' : State) :
  sync_keeps s s' -> sync_shrinks s s'.
Proof.
  intros H Hs. destruct (H Hs) as [Hs' Hd].
  split; [exact Hs' | rewrite Hd; reflexivity].
Qed.

Lemma sync_of_shrinks (tid : Z) (s s' : State) :
  tid ∈ dom (active_positions s) -> sync_keeps_of tid s s' ->
  sync_shrinks s s'.
Proof. intros Hin H. apply sync_keeps_shrinks, H, Hin. Qed.

(** A step that touches neither the ledger nor the trade rows. *)
Lemma sync_same (s s' : State) :
  active_positions s' = active_positions s ->
  trades (db s') = trades (db s) ->
  sync_keeps s s'.
Proof.
  intros Ha Hd Hs. split; [| rewrite Ha; reflexivity].
  intros tid Hin. rewrite Ha in Hin. rewrite Hd. apply Hs, Hin.
Qed.

(** An update of a row that leaves its status alone. *)
Lemma sync_update (tid : Z) (f : TradeRow -> TradeRow) (s : State) :
  (forall r, row_status (f r) = row_status r) ->
  sync_keeps s (set_db (update_trade tid f) s).
Proof.
  intros Hf Hs. split; [| reflexivity].
  intros t Hin. simpl in *. specialize (Hs t Hin).
  destruct (decide (t = tid)) as [-> | Hne].
  - rewrite lookup_alter_eq.
    destruct (trades (db s) !! tid) as [r |]; simpl in *; [| exact Hs].
    rewrite Hf. exact Hs.
  - rewrite lookup_alter_ne by congruence. exact Hs.
Qed.

(** Writing the legs of a structure that is on the ledger. *)
Lemma sync_set_legs (tid : Z) (legs : list Position) (s : State) :
  sync_keeps_of tid s (set_active_positions (<[tid := legs]>) s).
Proof.
  intros Hin Hs.
  assert (Hd : dom (<[tid := legs]> (active_positions s))
               = dom (active_positions s)).
  { rewrite dom_insert_L.
    apply subseteq_union_1_L, singleton_subseteq_l, Hin. }
  split; [| exact Hd].
  intros t Ht. simpl in *. rewrite Hd in Ht. apply Hs, Ht.
Qed.

Lemma close_position_sync (E : Env) (tid : Z) (reason : string) :
  steps sync_shrinks (close_position E tid reason).
Proof.
  intros s.
  destruct (active_positions s !! tid) as [legs |] eqn:Hl.
  - destruct (lock_held s) eqn:Hk.
    + rewrite (close_position_held E tid reason s legs Hl Hk). reflexivity.
    + rewrite (close_position_open E tid reason s legs Hl Hk).
      assert (H : sync_shrinks s
                    (closed_state E tid reason (legs_pnl legs) s)).
      { intros Hs. simpl. split.
        - intros t Ht. simpl in *. rewrite dom_delete_L in Ht.
          apply elem_of_difference in Ht. destruct Ht as [Ht Hne].
          rewrite lookup_alter_ne; [apply Hs, Ht |].
          intros ->. apply Hne, elem_of_singleton. reflexivity.
        - rewrite dom_delete_L. apply subseteq_difference_l. reflexivity. }
      destruct (Py.div _ _); simpl; exact H.
  - rewrite (close_position_unknown E tid reason s Hl). reflexivity.
Qed.

Lemma record_adjustment_sync
    (E : Env) (tid level : Z) (action : AdjAction) (why : AdjReason)
    (sp pnl_ : Q) :
  steps sync_keeps (_record_adjustment E tid level action why sp pnl_).
Proof.
  unfold _record_adjustment. run_steps.
  - apply sync_same; reflexivity.
  - apply sync_update. intros r. reflexivity.
Qed.

Lemma roll_leg_sync
    (M : MathLib) (E : Env) (tid : Z) (idx : nat) (old_pos : Position)
    (sp : Q) :
  steps (sync_keeps_of tid) (_roll_leg M E tid idx old_pos sp).
Proof.
  unfold _roll_leg. cbv zeta. run_steps. apply sync_set_legs.
Qed.

Lemma roll_untested_leg_sync (M : MathLib) (E : Env) (tid : Z) (sp : Q) :
  steps (sync_keeps_of tid) (_roll_untested_leg M E tid sp).
Proof.
  unfold _roll_untested_leg. run_steps.
  destruct (first_max _ _) as [[idx untested] |].
  - apply roll_leg_sync.
  - run_steps.
Qed.

Lemma update_position_prices_sync
    (M : MathLib) (E : Env) (tid : Z) (sp : Q) :
  steps sync_shrinks (_update_position_prices M E tid sp).
Proof.
  unfold _update_position_prices. apply steps_get_bind. intros s.
  destruct (active_positions s !! tid) as [legs |] eqn:Hl.
  - apply (sync_of_shrinks tid).
    + apply elem_of_dom. rewrite Hl. eauto.
    + run_at (sync_keeps_of tid).
      run_steps.
      * apply sync_set_legs.
      * apply sync_keeps_any, sync_update. intros r. reflexivity.
  - apply sync_keeps_shrinks, sync_update. intros r. reflexivity.
Qed.

Lemma check_expiry_targets_sync (C : Config) (E : Env) (tid : Z) :
  steps sync_shrinks (_check_expiry_targets C E tid).
Proof.
  unfold _check_expiry_targets. apply steps_get_bind. intros s.
  cbv zeta.
  destruct (Py.leb _ 0); [reflexivity |].
  destruct (Py.geb _ _).
  - run_at sync_shrinks. run_steps. apply close_position_sync.
  - destruct (Py.leb _ _); [| reflexivity].
    run_at sync_shrinks. run_steps. apply close_position_sync.
Qed.

Ltac sync_leaf :=
  first
    [ apply roll_leg_sync
    | apply roll_untested_leg_sync
    | apply sync_set_legs
    | apply close_position_sync
    | apply (steps_weaken sync_keeps);
        [apply sync_keeps_any | apply record_adjustment_sync]
    | apply (steps_weaken sync_keeps);
        [apply sync_keeps_shrinks | apply record_adjustment_sync]
    | apply sync_keeps_any, sync_same; reflexivity
    | apply sync_keeps_shrinks, sync_same; reflexivity ].

Lemma adjust_positions_sync
    (M : MathLib) (C : Config) (E : Env) (tid : Z) (ospot : option Q) :
  steps sync_shrinks (adjust_positions M C E tid ospot).
Proof.
  unfold adjust_positions. apply steps_get_bind. intros s.
  destruct (active_positions s !! tid) as [positions |] eqn:Hl;
    [| reflexivity].
  assert (Hin : tid ∈ dom (active_positions s))
    by (apply elem_of_dom; rewrite Hl; eauto).
  destruct (negb _); [reflexivity |]. cbv zeta.
  rewrite bind_eq.
  destruct (entry_spot s !! tid) as [entry_s |]; simpl; [| reflexivity].
  rewrite bind_eq.
  destruct (entry_time s !! tid) as [entry_t |]; simpl; [| reflexivity].
  rewrite bind_eq.
  destruct (trade_premium s !! tid) as [premium |]; simpl; [| reflexivity].
  rewrite bind_eq.
  destruct (Py.div _ entry_s) as [spot_move |]; simpl; [| reflexivity].
  destruct (l3_triggered _ _ _).
  - run_at sync_shrinks. run_steps; sync_leaf.
  - destruct (List.find _ _) as [[idx pos] |].
    + apply (sync_of_shrinks tid); [exact Hin |].
      run_at (sync_keeps_of tid). run_steps; sync_leaf.
    + apply (sync_of_shrinks tid); [exact Hin |].
      run_at (sync_keeps_of tid). run_steps.
      * destruct (Py.truthy premium); run_steps.
      * destruct (_ || _); run_steps; sync_leaf.
Qed.

Lemma monitor_positions_sync (M : MathLib) (C : Config) (E : Env) :
  steps sync_shrinks (monitor_positions M C E).
Proof.
  unfold monitor_positions. apply steps_get_bind. intros s.
  destruct (bool_decide _); [reflexivity |].
  destruct (negb _); [reflexivity |]. cbv zeta.
  run_at sync_shrinks. run_steps; [sync_leaf |].
  apply steps_for_each; [typeclasses eauto |]. intros tid. run_steps.
  - apply update_position_prices_sync.
  - apply adjust_positions_sync.
  - apply check_expiry_targets_sync.
Qed.

Lemma close_each_sync
    (E : Env) (ids : list Z) (reason : string) (total : Q) :
  steps sync_shrinks (close_each E ids reason total).
Proof.
  revert total. induction ids as [| tid ids IH]; intros total; simpl.
  - run_steps.
  - run_steps; [sync_leaf | apply IH].
Qed.

Lemma close_all_positions_sync (E : Env) (reason : string) :
  steps sync_shrinks (close_all_positions E reason).
Proof.
  unfold close_all_positions. apply steps_get_bind. intros s.
  apply close_each_sync.
Qed.

Lemma reset_day_sync (E : Env) : steps sync_shrinks (reset_day E).
Proof.
  unfold reset_day. apply steps_with_lock; [typeclasses eauto | |].
  - intros b s. apply sync_keeps_shrinks, sync_same; reflexivity.
  - run_steps.
    + apply steps_for_each; [typeclasses eauto |]. intros tid.
      unfold _force_close_trade. run_steps. sync_leaf.
    + intros _. split.
      * intros t Ht. simpl in Ht. rewrite dom_empty_L in Ht.
        apply elem_of_empty in Ht. destruct Ht.
      * simpl. rewrite dom_empty_L. apply empty_subseteq.
Qed.

Lemma check_entry_sync (E : Env) (s : State) :
  sync_shrinks s (check_entry E s).2.
Proof.
  apply sync_keeps_shrinks.
  destruct (check_entry_returns E s) as (ok & _ & [-> | [_ ->]]);
    apply sync_same; reflexivity.
Qed.

End SyncFacts.

Section OneStructure.
Context (M : MathLib) (C : Config).

(** When [open_position] does not return a trade id the ledger is as it
    was, and the store is as it was or (the lock being held) has one more
    OPEN row. *)
Lemma open_position_store (E : Env) (strategy_type : string) (s : State) :
  (exists tid : Z,
     (open_position M C E strategy_type s).1 = Returned (Some tid))
  \/ (active_positions (open_position M C E strategy_type s).2
      = active_positions s
      /\ (trades (db (open_position M C E strategy_type s).2)
          = trades (db s)
          \/ exists row : TradeRow,
               row_status row = "OPEN"%string
               /\ trades (db (open_position M C E strategy_type s).2)
                  = <[next_trade_id (db s) := row]> (trades (db s)))).
Proof.
  destruct (open_position M C E strategy_type s) as [o s'] eqn:H.
  unfold open_position in H. rewrite bind_eq in H.
  destruct (check_entry_returns E s) as (ok & Hce & Hst).
  rewrite Hce in H.
  assert (Hdb : db (check_entry E s).2 = db s)
    by (destruct Hst as [-> | [_ ->]]; reflexivity).
  destruct (check_entry_frame E s) as (Hfl & _ & _).
  unfold ledger in Hfl. inversion Hfl as [[Hap Hes Het Hac Hpr]].
  clear Hfl Hes Het Hac Hpr.
  remember ((check_entry E s).2) as g eqn:Hg. clear Hce Hst Hg.
  simpl.
  destruct ok; simpl in H;
    [| injection H as <- <-; right; rewrite Hap, Hdb; auto].
  destruct (Py.otruthy (get_spot_price E)); simpl in H;
    [| injection H as <- <-; right; rewrite Hap, Hdb; auto].
  rewrite bind_eq in H; simpl in H.
  match type of H with
  | context [if ?c then ?a else ?b] =>
      destruct (if c then a else b) as [[[ce_k pe_k] ceh_k] peh_k]
  end.
  do 4 (rewrite bind_eq in H;
        match type of H with
        | context [lift_num ?q] =>
            destruct q as [? |]; simpl in H;
            [| injection H as <- <-; right; simpl; rewrite Hap, Hdb; auto]
        end).
  rewrite bind_eq in H; simpl in H.
  destruct (Py.gtb _ _); simpl in H;
    [injection H as <- <-; right; simpl; rewrite Hap, Hdb; auto |].
  rewrite bind_eq in H; simpl in H.
  rewrite bind_eq in H. unfold with_lock in H; simpl in H.
  destruct (lock_held g) eqn:Hk; simpl in H.
  - injection H as <- <-. right. simpl. rewrite Hap, Hdb.
    split; [reflexivity |]. right.
    eexists. split; [| reflexivity]. reflexivity.
  - injection H as <- <-. left. eexists. reflexivity.
Qed.

Lemma open_position_sync (E : Env) (strategy_type : string) (s : State) :
  in_sync s ->
  (size (active_positions s) <= 1)%nat ->
  in_sync (open_position M C E strategy_type s).2
  /\ (size (active_positions (open_position M C E strategy_type s).2)
      <= 1)%nat.
Proof.
  intros Hs Hsize.
  destruct (open_position_store E strategy_type s)
    as [[tid Hret] | [Hap Hdb]].
  - destruct (open_position M C E strategy_type s) as [o s'] eqn:Ho.
    simpl in *. subst o.
    apply open_position_success in Ho.
    destruct Ho as (Htid & (row & Htr & Hst) & (positions & Hpos & _)
                    & _ & _ & _ & _ & Hok).
    assert (Hempty : active_positions s = ∅).
    { apply map_empty. intros t.
      destruct (active_positions s !! t) as [legs |] eqn:Hl; [| reflexivity].
      exfalso.
      assert (Hin : t ∈ dom (active_positions s))
        by (apply elem_of_dom; rewrite Hl; eauto).
      specialize (Hs t Hin).
      destruct (trades (db s) !! t) as [r |] eqn:Hr; [| discriminate Hs].
      simpl in Hs. injection Hs as Hs.
      pose proof (check_entry_open_store E s
                    (open_row_listed (db s) t r Hr Hs)) as Hno.
      rewrite Hok in Hno. discriminate Hno. }
    split.
    + intros t Ht. rewrite Hpos, Hempty, dom_insert_L, dom_empty_L in Ht.
      assert (t = tid).
      { apply elem_of_union in Ht. destruct Ht as [Ht | Ht].
        - apply elem_of_singleton in Ht. exact Ht.
        - apply elem_of_empty in Ht. destruct Ht. }
      subst t.
      rewrite Htr, lookup_insert_eq. simpl. rewrite Hst. reflexivity.
    + rewrite Hpos, Hempty.
      change (size ({[tid := positions]} : gmap Z (list Position)) <= 1)%nat.
      rewrite map_size_singleton. lia.
  - rewrite Hap. split; [| exact Hsize].
    intros t Ht. rewrite Hap in Ht. specialize (Hs t Ht).
    destruct Hdb as [-> | (row & Hst & ->)]; [exact Hs |].
    destruct (decide (t = next_trade_id (db s))) as [-> | Hne].
    + rewrite lookup_insert_eq. simpl. rewrite Hst. reflexivity.
    + rewrite lookup_insert_ne by congruence. exact Hs.
Qed.

Lemma after_sync (E : Env) (op : Op) (s : State) :
  in_sync s ->
  (size (active_positions s) <= 1)%nat ->
  in_sync (after M C E op s)
  /\ (size (active_positions (after M C E op s)) <= 1)%nat.
Proof.
  intros Hs Hsize.
  assert (Hsh : forall s' : State,
            sync_shrinks s s' ->
            in_sync s' /\ (size (active_positions s') <= 1)%nat).
  { intros s' H. destruct (H Hs) as [Hs' Hsub]. split; [exact Hs' |].
    apply subseteq_size in Hsub. rewrite !size_dom in Hsub. lia. }
  destruct op; unfold after.
  - apply Hsh, sync_keeps_shrinks, sync_same; reflexivity.
  - apply Hsh, sync_keeps_shrinks, sync_same; reflexivity.
  - apply Hsh, reset_day_sync.
  - apply Hsh, check_entry_sync.
  - apply open_position_sync; assumption.
  - apply Hsh, monitor_positions_sync.
  - apply Hsh, adjust_positions_sync.
  - apply Hsh, close_position_sync.
  - apply Hsh, close_all_positions_sync.
Qed.

(** X25: in any run of operations, one after the other and each at its
    own moment, an engine that starts from [__init__] never has more than
    one structure on its ledger, and every structure on the ledger has its
    row in the store marked OPEN.  Both facts are kept by every single
    operation, however it ends. *)
Theorem one_structure_at_a_time
    (ops : list (Env * Op)) (cap risk : Q) (lots day : Z) (d : Database) :
  (forall (E : Env) (op : Op) (s : State),
     in_sync s ->
     (size (active_positions s) <= 1)%nat ->
     in_sync (after M C E op s)
     /\ (size (active_positions (after M C E op s)) <= 1)%nat)
  /\ in_sync (run_ops M C ops (init cap risk lots day d))
  /\ (size (active_positions (run_ops M C ops (init cap risk lots day d)))
      <= 1)%nat.
Proof.
  split; [intros E op s; apply after_sync |].
  assert (H0 : in_sync (init cap risk lots day d)
               /\ (size (active_positions (init cap risk lots day d))
                   <= 1)%nat).
  { split.
    - intros t Ht. simpl in Ht. rewrite dom_empty_L in Ht.
      apply elem_of_empty in Ht. destruct Ht.
    - simpl. rewrite map_size_empty. lia. }
  revert H0. generalize (init cap risk lots day d).
  induction ops as [| [E op] ops IH]; intros s [Hs Hsize]; simpl.
  - split; assumption.
  - apply IH. apply after_sync; assumption.
Qed.

End OneStructure.

Lemma one_structure_at_a_time_witness :
  in_sync one_open
  /\ (size (active_positions one_open) <= 1)%nat
  /\ in_sync (after linear_math example_config env_tick OpMonitor one_open)
  /\ (size (active_positions
              (after linear_math example_config env_tick OpMonitor one_open))
      <= 1)%nat.
Proof.
  assert (Hs : in_sync one_open).
  { intros t Ht. simpl in Ht. rewrite dom_singleton_L in Ht.
    apply elem_of_singleton in Ht. subst t. reflexivity. }
  assert (Hn : (size (active_positions one_open) <= 1)%nat).
  { simpl. rewrite map_size_singleton. lia. }
  exact (conj Hs (conj Hn
           (proj1 (one_structure_at_a_time linear_math example_config []
                     0 0 1 100 empty_db)
              env_tick OpMonitor one_open Hs Hn))).
Defined.

(** ** Below every threshold *)

Section QuietFacts.
Context (M : MathLib) (C : Config) (E : Env).

Lemma find_indexed_none
    (f : Position -> bool) (g : nat -> nat) (legs : list Position) :
  (forall p, In p legs -> f p = false) ->
  List.find (fun ip => f ip.2) (imap (fun i p => (g i, p)) legs) = None.
Proof.
  revert g. induction legs as [| x legs IH]; intros g Hf; simpl.
  - reflexivity.
  - rewrite (Hf x) by (left; reflexivity).
    apply (IH (g ∘ S)). intros p Hp. apply Hf. right. exact Hp.
Qed.

(** X26: [adjust_positions] returns without changing anything (no record,
    no roll, no alert, no close) when the trade id is not on the ledger;
    when neither the argument, nor the broker, nor the stored spot gives a
    spot other than 0; and when the structure is below every threshold:
    Level 3 does not apply, no leg breaches the Level-2 delta limit, the
    spot move is below the Level-1 move and the P&L relative to the premium
    below the Level-1 share. *)
Theorem adjust_positions_quiet (tid : Z) (ospot : option Q) (s : State) :
  (active_positions s !! tid = None ->
   adjust_positions M C E tid ospot s = (Returned tt, s))
  /\ (Py.otruthy ospot = false ->
      Py.otruthy (get_spot_price E) = false ->
      spot s == 0 ->
      adjust_positions M C E tid ospot s = (Returned tt, s))
  /\ (forall (legs : list Position) (sp es et prem : Q),
        active_positions s !! tid = Some legs ->
        entry_spot s !! tid = Some es ->
        entry_time s !! tid = Some et ->
        trade_premium s !! tid = Some prem ->
        effective_spot E ospot s = Some sp ->
        ~ sp == 0 ->
        ~ es == 0 ->
        (Qabs (sp - es) / es < GAMMA_L3_SPOT_MOVE C
         \/ GAMMA_L3_TIME_WINDOW C < now E - et) ->
        (forall p, In p legs -> l2_breach C p = false) ->
        Qabs (sp - es) / es < GAMMA_L1_SPOT_MOVE C ->
        (if Py.truthy prem then Qabs (legs_pnl legs / prem) else 0)
        < GAMMA_L1_PREMIUM_PCT C ->
        adjust_positions M C E tid ospot s = (Returned tt, s)).
Proof.
  split; [| split].
  - intros Hl. unfold adjust_positions. rewrite bind_eq. simpl.
    rewrite Hl. reflexivity.
  - intros H1 H2 H3. unfold adjust_positions. rewrite bind_eq. simpl.
    destruct (active_positions s !! tid); [| reflexivity].
    assert (He : Py.otruthy (effective_spot E ospot s) = false).
    { unfold effective_spot, Py.or_else. rewrite H1, H2.
      unfold Py.otruthy, Py.truthy.
      apply Qeq_bool_iff in H3. rewrite H3. reflexivity. }
    rewrite He. reflexivity.
  - intros legs sp es et prem Hl Hes Het Hpr Hsp Hnz Hez Hno3 Hno2 Hmove
      Hshare.
    unfold adjust_positions.
    rewrite bind_eq. simpl. rewrite Hl, Hsp.
    rewrite (otruthy_nonzero sp Hnz). simpl.
    rewrite Hes, Het, Hpr. simpl.
    repeat (rewrite bind_eq; simpl).
    rewrite (div_nonzero _ es Hez). simpl.
    assert (H3 : l3_triggered C (Qabs (sp - es) / es) (now E - et) = false).
    { unfold l3_triggered. apply andb_false_iff.
      destruct Hno3 as [H | H]; [left | right].
      - unfold Py.geb. apply leb_false, H.
      - apply leb_false, H. }
    rewrite H3.
    assert (Hfind : List.find (fun ip => l2_breach C ip.2) (indexed legs)
                    = None)
      by exact (find_indexed_none (l2_breach C) (fun i => i) legs Hno2).
    rewrite Hfind.
    assert (Hm : Py.geb (Qabs (sp - es) / es) (GAMMA_L1_SPOT_MOVE C)
                 = false)
      by (unfold Py.geb; apply leb_false, Hmove).
    destruct (Py.truthy prem) eqn:Ht.
    + rewrite bind_eq. rewrite bind_eq.
      assert (Hpz : ~ prem == 0).
      { intros Hz. unfold Py.truthy in Ht. apply Qeq_bool_iff in Hz.
        rewrite Hz in Ht. discriminate Ht. }
      rewrite (div_nonzero _ prem Hpz). simpl.
      assert (Hp : Py.geb (Qabs (legs_pnl legs / prem))
                     (GAMMA_L1_PREMIUM_PCT C) = false)
        by (unfold Py.geb; apply leb_false, Hshare).
      rewrite Hm, Hp. reflexivity.
    + rewrite bind_eq. simpl.
      assert (Hp : Py.geb 0 (GAMMA_L1_PREMIUM_PCT C) = false)
        by (unfold Py.geb; apply leb_false, Hshare).
      rewrite Hm, Hp. reflexivity.
Qed.

End QuietFacts.

Lemma adjust_positions_quiet_witness :
  active_positions one_open !! 7%Z = None
  /\ adjust_positions linear_math example_config env_tick 7 (Some 22300)
       one_open = (Returned tt, one_open).
Proof.
  assert (H : active_positions one_open !! 7%Z = None) by reflexivity.
  exact (conj H
           (proj1 (adjust_positions_quiet linear_math example_config
                     env_tick 7 (Some 22300) one_open) H)).
Defined.

(** ** Level 1 *)

Section UntestedFacts.
Context (M : MathLib) (C : Config) (E : Env).

(** [max(xs, key=...)] returns an element of the greatest key. *)
Lemma first_max_from
    (key : Position -> Q) (l : list (nat * Position)) :
  forall b : nat * Position,
    exists x : nat * Position,
      fold_left
        (fun best y =>
           match best with
           | None => Some y
           | Some c => if Py.ltb (key c.2) (key y.2) then Some y else best
           end)
        l (Some b) = Some x
      /\ In x (b :: l)
      /\ forall y, In y (b :: l) -> key y.2 <= key x.2.
Proof.
  induction l as [| a l IH]; intros b; simpl.
  - exists b. split; [reflexivity |]. split; [left; reflexivity |].
    intros y [<- | []]. lra.
  - destruct (Py.ltb (key b.2) (key a.2)) eqn:Hlt.
    + apply ltb_true in Hlt.
      destruct (IH a) as (x & Hx & Hin & Hmax).
      exists x. split; [exact Hx |]. split; [right; exact Hin |].
      intros y [<- | Hy]; [| apply Hmax, Hy].
      specialize (Hmax a (or_introl eq_refl)). lra.
    + assert (Hge : key a.2 <= key b.2).
      { unfold Py.ltb in Hlt. destruct (Qlt_le_dec _ _); [discriminate |].
        assumption. }
      destruct (IH b) as (x & Hx & Hin & Hmax).
      exists x. split; [exact Hx |]. split.
      * destruct Hin as [<- | Hin]; [left; reflexivity | right; right; exact Hin].
      * intros y [<- | [<- | Hy]].
        -- apply Hmax. left. reflexivity.
        -- specialize (Hmax b (or_introl eq_refl)). lra.
        -- apply Hmax. right. exact Hy.
Qed.

Lemma first_max_greatest
    (key : Position -> Q) (l : list (nat * Position)) :
  l <> [] ->
  exists x : nat * Position,
    first_max key l = Some x
    /\ In x l
    /\ forall y, In y l -> key y.2 <= key x.2.
Proof.
  intros Hne. destruct l as [| b l]; [contradiction |].
  unfold first_max. simpl. apply first_max_from.
Qed.

Lemma in_short_legs (legs : list Position) (i : nat) (p : Position) :
  In (i, p) (List.filter (fun ip => is_short_core ip.2) (indexed legs))
  <-> legs !! i = Some p /\ is_short_core p = true.
Proof.
  rewrite filter_In. unfold indexed. simpl.
  rewrite <- list_elem_of_In, elem_of_lookup_imap. split.
  - intros [(j & q & [= -> ->] & Hq) Hs]. split; assumption.
  - intros [Hp Hs]. split; [exists i, p; split; [reflexivity | exact Hp] |].
    exact Hs.
Qed.

(** The short core leg [_roll_untested_leg] picks. *)
Lemma untested_leg (legs : list Position) (sp : Q) :
  (exists p, In p legs /\ is_short_core p = true) ->
  exists (idx : nat) (pos : Position),
    first_max (fun p => Qabs (inject_Z (strike p) - sp))
      (List.filter (fun ip => is_short_core ip.2) (indexed legs))
    = Some (idx, pos)
    /\ legs !! idx = Some pos
    /\ is_short_core pos = true
    /\ forall p, In p legs -> is_short_core p = true ->
                 Qabs (inject_Z (strike p) - sp)
                 <= Qabs (inject_Z (strike pos) - sp).
Proof.
  intros (p0 & Hp0 & Hs0).
  apply list_elem_of_In, list_elem_of_lookup in Hp0. destruct Hp0 as [i0 Hi0].
  destruct (first_max_greatest (fun p => Qabs (inject_Z (strike p) - sp))
              (List.filter (fun ip => is_short_core ip.2) (indexed legs)))
    as ([idx pos] & Hfm & Hin & Hmax).
  { intros Hnil.
    assert (H : In (i0, p0)
                  (List.filter (fun ip => is_short_core ip.2)
                     (indexed legs)))
      by (apply in_short_legs; split; assumption).
    rewrite Hnil in H. destruct H. }
  apply in_short_legs in Hin. destruct Hin as [Hidx Hs].
  exists idx, pos. split; [exact Hfm |]. split; [exact Hidx |].
  split; [exact Hs |].
  intros p Hp Hps.
  apply list_elem_of_In, list_elem_of_lookup in Hp. destruct Hp as [i Hi].
  apply (Hmax (i, p)). apply in_short_legs. split; assumption.
Qed.

End UntestedFacts.

Arguments is_short_core : simpl never.

Section Level1Facts.
Context (M : MathLib) (C : Config) (E : Env).

(** X27: when neither Level 3 nor Level 2 applies and the Level-1 trigger
    holds (spot move at or above the Level-1 move, or P&L relative to the
    premium at or above the Level-1 share), [adjust_positions] appends one
    level-1 adjustment record, sets the row's adjustment level to 1, raises
    the adjustment count by one and sends one level-1 alert.  If the
    structure has a short core leg, the one rolled is a short core leg
    whose strike is farthest from the spot: it is replaced by a new SELL
    leg of the same option type and quantity, the other legs staying.  If
    it has none, nothing is rolled, the bookkeeping being done all the
    same. *)
Theorem level1_rolls_farthest_short
    (tid : Z) (ospot : option Q) (s : State)
    (legs : list Position) (sp es et prem : Q) :
  active_positions s !! tid = Some legs ->
  entry_spot s !! tid = Some es ->
  entry_time s !! tid = Some et ->
  trade_premium s !! tid = Some prem ->
  effective_spot E ospot s = Some sp ->
  ~ sp == 0 ->
  ~ es == 0 ->
  let move := Qabs (sp - es) / es in
  let share := if Py.truthy prem then Qabs (legs_pnl legs / prem) else 0 in
  (move < GAMMA_L3_SPOT_MOVE C \/ GAMMA_L3_TIME_WINDOW C < now E - et) ->
  (forall p, In p legs -> l2_breach C p = false) ->
  (GAMMA_L1_SPOT_MOVE C <= move \/ GAMMA_L1_PREMIUM_PCT C <= share) ->
  (forall p : Position,
     In p legs ->
     is_Some (_get_simulated_ltp M E
                (build_option_symbol
                   (_find_strike_by_delta M sp (time_to_expiry E) 0.20
                      (option_type p))
                   (option_type p) (nearest_weekly_expiry E))
                sp
                (_find_strike_by_delta M sp (time_to_expiry E) 0.20
                   (option_type p))
                (time_to_expiry E) (option_type p))) ->
  let r := adjust_positions M C E tid ospot s in
  let why :=
    Trigger (if Py.geb move (GAMMA_L1_SPOT_MOVE C)
             then "spot_move" else "premium_+40%")
      (move * 100) (share * 100) in
  r.1 = Returned tt
  /\ adjustments (db r.2)
     = adjustments (db s)
       ++ [ {| adj_trade_id := tid; adj_level := 1;
               adj_action := RollUntested; adj_reason := why;
               adj_spot := sp; adj_pnl := legs_pnl legs;
               adj_time := now E |} ]
  /\ trades (db r.2) = alter (with_adjustment_level 1) tid (trades (db s))
  /\ adjustment_counts r.2
     = <[tid := (default 0 (adjustment_counts s !! tid) + 1)%Z]>
         (adjustment_counts s)
  /\ alerts r.2 = alerts s ++ [AdjustmentAlert 1 RollUntested why sp]
  /\ ((forall p, In p legs -> is_short_core p = false) ->
      active_positions r.2 = active_positions s)
  /\ ((exists p, In p legs /\ is_short_core p = true) ->
      exists (idx : nat) (pos : Position) (new_px : Q),
        legs !! idx = Some pos
        /\ is_short_core pos = true
        /\ (forall p, In p legs -> is_short_core p = true ->
              Qabs (inject_Z (strike p) - sp)
              <= Qabs (inject_Z (strike pos) - sp))
        /\ active_positions r.2
           = <[tid :=
                 delete idx legs
                 ++ [new_position
                       (build_option_symbol
                          (_find_strike_by_delta M sp (time_to_expiry E)
                             0.20 (option_type pos))
                          (option_type pos) (nearest_weekly_expiry E))
                       (_find_strike_by_delta M sp (time_to_expiry E) 0.20
                          (option_type pos))
                       (option_type pos) "SELL" new_px (quantity pos)
                       (bs M sp
                          (_find_strike_by_delta M sp (time_to_expiry E)
                             0.20 (option_type pos))
                          (time_to_expiry E) (option_type pos))
                       false (now E)]]>
               (active_positions s)).
Proof.
  intros Hl Hes Het Hpr Hsp Hnz Hez. cbv zeta.
  intros Hno3 Hno2 Hl1 Hquote.
  assert (Hgo : Py.geb (Qabs (sp - es) / es) (GAMMA_L1_SPOT_MOVE C)
                || Py.geb (if Py.truthy prem
                           then Qabs (legs_pnl legs / prem) else 0)
                     (GAMMA_L1_PREMIUM_PCT C) = true).
  { apply orb_true_iff.
    destruct Hl1 as [H | H]; [left | right]; apply geb_true, H. }
  assert (Hshort :
    (forall p, In p legs -> is_short_core p = false)
    \/ exists p, In p legs /\ is_short_core p = true).
  { clear. induction legs as [| x l IH].
    - left. intros p [].
    - destruct (is_short_core x) eqn:Hx.
      + right. exists x. split; [left; reflexivity | exact Hx].
      + destruct IH as [IH | (p & Hp & Hs)].
        * left. intros p [<- | Hp]; [exact Hx | apply IH, Hp].
        * right. exists p. split; [right; exact Hp | exact Hs]. }
  unfold adjust_positions.
  rewrite bind_eq. simpl. rewrite Hl, Hsp.
  rewrite (otruthy_nonzero sp Hnz). simpl.
  rewrite Hes, Het, Hpr. simpl.
  repeat (rewrite bind_eq; simpl).
  rewrite (div_nonzero _ es Hez). simpl.
  assert (H3 : l3_triggered C (Qabs (sp - es) / es) (now E - et) = false).
  { unfold l3_triggered. apply andb_false_iff.
    destruct Hno3 as [H | H]; [left | right].
    - unfold Py.geb. apply leb_false, H.
    - apply leb_false, H. }
  rewrite H3.
  assert (Hfind : List.find (fun ip => l2_breach C ip.2) (indexed legs)
                  = None)
    by exact (find_indexed_none (l2_breach C) (fun i => i) legs Hno2).
  rewrite Hfind.
  assert (Hshare :
    ((if Py.truthy prem
      then r ← lift_num (Py.div (legs_pnl legs) prem); mret (Qabs r)
      else mret 0) : Run Q) s
    = (Returned (if Py.truthy prem
                 then Qabs (legs_pnl legs / prem) else 0), s)).
  { destruct (Py.truthy prem) eqn:Ht; [| reflexivity].
    assert (Hpz : ~ prem == 0).
    { intros Hz. unfold Py.truthy in Ht. apply Qeq_bool_iff in Hz.
      rewrite Hz in Ht. discriminate Ht. }
    rewrite bind_eq, (div_nonzero _ prem Hpz). reflexivity. }
  rewrite bind_eq, Hshare. clear Hshare.
  set (share := if Py.truthy prem then Qabs (legs_pnl legs / prem) else 0)
    in *.
  rewrite Hgo.
  rewrite bind_eq. unfold _record_adjustment.
  repeat (rewrite bind_eq; simpl).
  unfold _roll_untested_leg.
  rewrite bind_eq. simpl. rewrite Hl. simpl.
  rewrite bind_eq. simpl.
  destruct Hshort as [Hnone | Hsome].
  - assert (Hf : List.filter (fun ip => is_short_core ip.2) (indexed legs)
                 = []).
    { destruct (List.filter _ _) as [| [i p] rest] eqn:Hfl; [reflexivity |].
      assert (Hin : In (i, p)
                      (List.filter (fun ip => is_short_core ip.2)
                         (indexed legs)))
        by (rewrite Hfl; left; reflexivity).
      apply in_short_legs in Hin. destruct Hin as [Hi Hs].
      rewrite (Hnone p) in Hs; [discriminate Hs |].
      apply list_elem_of_In, list_elem_of_lookup. eauto. }
    rewrite Hf. simpl.
    repeat (rewrite bind_eq; simpl).
    do 5 (split; [reflexivity |]).
    split; [intros _; reflexivity |].
    intros (p & Hp & Hs). rewrite (Hnone p Hp) in Hs. discriminate Hs.
  - destruct (untested_leg legs sp Hsome)
      as (idx & pos & Hfm & Hidx & Hcore & Hmax).
    rewrite Hfm.
    assert (Hpos : In pos legs)
      by (apply list_elem_of_In, list_elem_of_lookup; eauto).
    destruct (Hquote pos Hpos) as [new_px Hpx].
    unfold _roll_leg. cbv zeta.
    rewrite bind_eq. rewrite Hpx. simpl.
    repeat (rewrite bind_eq; simpl).
    rewrite Hl. simpl.
    repeat (rewrite bind_eq; simpl).
    do 5 (split; [reflexivity |]).
    split.
    { intros Hnone. rewrite (Hnone pos) in Hcore; [discriminate Hcore |].
      apply list_elem_of_In, list_elem_of_lookup. eauto. }
    intros _. exists idx, pos, new_px.
    split; [exact Hidx |]. split; [exact Hcore |]. split; [exact Hmax |].
    reflexivity.
Qed.

End Level1Facts.

Lemma level1_rolls_farthest_short_witness :
  GAMMA_L1_SPOT_MOVE example_config <= Qabs (22300 - 22000) / 22000
  /\ GAMMA_L3_TIME_WINDOW example_config < now env_late - 600
  /\ (adjust_positions linear_math example_config env_late 1 (Some 22300)
        one_calm).1 = Returned tt
  /\ adjustment_counts
       (adjust_positions linear_math example_config env_late 1 (Some 22300)
          one_calm).2
     = <[1%Z := (default 0 (adjustment_counts one_calm !! 1%Z) + 1)%Z]>
         (adjustment_counts one_calm).
Proof.
  set (legs := map (fun p => reprice p (current_price p) (zero_greeks 0.15)) legs_1).
  assert (Hl : active_positions one_calm !! 1%Z = Some legs) by reflexivity.
  assert (Hes : entry_spot one_calm !! 1%Z = Some 22000) by reflexivity.
  assert (Het : entry_time one_calm !! 1%Z = Some 600) by reflexivity.
  assert (Hpr : trade_premium one_calm !! 1%Z
                = Some ((120 + 110 - 40 - 35) * inject_Z 65))
    by reflexivity.
  assert (Hsp : effective_spot env_late (Some 22300) one_calm = Some 22300)
    by (vm_compute; reflexivity).
  assert (Hnz : ~ 22300 == 0) by discriminate.
  assert (Hez : ~ 22000 == 0) by discriminate.
  assert (Hwin : GAMMA_L3_TIME_WINDOW example_config < now env_late - 600)
    by (vm_compute; reflexivity).
  assert (Hno2 : forall p, In p legs -> l2_breach example_config p = false).
  { intros p Hp. unfold legs in Hp. simpl in Hp.
    destruct Hp as [<- | [<- | [<- | [<- | []]]]]; vm_compute; reflexivity. }
  assert (Hmove : GAMMA_L1_SPOT_MOVE example_config
                  <= Qabs (22300 - 22000) / 22000)
    by (vm_compute; discriminate).
  assert (Hq : forall p, In p legs ->
            is_Some (_get_simulated_ltp linear_math env_late
                       (build_option_symbol
                          (_find_strike_by_delta linear_math 22300
                             (time_to_expiry env_late) 0.20 (option_type p))
                          (option_type p) (nearest_weekly_expiry env_late))
                       22300
                       (_find_strike_by_delta linear_math 22300
                          (time_to_expiry env_late) 0.20 (option_type p))
                       (time_to_expiry env_late) (option_type p))).
  { intros p Hp. unfold legs in Hp. simpl in Hp.
    destruct Hp as [<- | [<- | [<- | [<- | []]]]]; vm_compute; eauto. }
  destruct (level1_rolls_farthest_short linear_math example_config env_late
              1 (Some 22300) one_calm legs 22300 22000 600
              ((120 + 110 - 40 - 35) * inject_Z 65)
              Hl Hes Het Hpr Hsp Hnz Hez (or_intror Hwin) Hno2
              (or_introl Hmove) Hq)
    as (H1 & _ & _ & H4 & _).
  exact (conj Hmove (conj Hwin (conj H1 H4))).
Defined.

(** ** Resetting the day *)

Section ResetFacts.
Context (E : Env).

(** X28: with the lock free and nothing on the ledger, [reset_day]
    returns: all five per-trade maps are empty (stale keys of the other
    four included), the daily counter is 0, the daily P&L 0.0 and the trade
    date today; the lock is free again and the store and the alerts are
    untouched.  For the rest of that day the entry gate counts from 0
    without reloading the counter from the store, however many trades the
    store holds for the day. *)
Theorem reset_day_clears_counters (s : State) :
  lock_held s = false ->
  active_positions s = ∅ ->
  let s' := (reset_day E s).2 in
  (reset_day E s).1 = Returned tt
  /\ ledger s' = (∅, ∅, ∅, ∅, ∅)
  /\ trades_today s' = 0%Z
  /\ daily_pnl s' = 0.0
  /\ trade_date s' = today E
  /\ lock_held s' = false
  /\ db s' = db s
  /\ alerts s' = alerts s
  /\ forall E' : Env, today E' = today E -> counter_at_gate E' s' = 0%Z.
Proof.
  intros Hk He. cbv zeta. rewrite (reset_day_idle E s Hk He). simpl.
  repeat (split; [reflexivity |]).
  split; [exact Hk |]. split; [reflexivity |]. split; [reflexivity |].
  intros E' HE'. unfold counter_at_gate. simpl.
  rewrite bool_decide_eq_false_2; [reflexivity |].
  intros Hne. apply Hne. symmetry. exact HE'.
Qed.

End ResetFacts.

Lemma reset_day_clears_counters_witness :
  lock_held next_morning = false
  /\ active_positions next_morning = ∅
  /\ (reset_day env_eod next_morning).1 = Returned tt
  /\ trades_today (reset_day env_eod next_morning).2 = 0%Z
  /\ get_trade_count_today (today env_eod)
       (db (reset_day env_eod next_morning).2) = 2%Z
  /\ counter_at_gate env_eod (reset_day env_eod next_morning).2 = 0%Z.
Proof.
  assert (Hk : lock_held next_morning = false) by reflexivity.
  assert (He : active_positions next_morning = ∅) by reflexivity.
  destruct (reset_day_clears_counters env_eod next_morning Hk He)
    as (H1 & _ & H3 & _ & _ & _ & _ & _ & H9).
  assert (Hn : get_trade_count_today (today env_eod)
                 (db (reset_day env_eod next_morning).2) = 2%Z)
    by (vm_compute; reflexivity).
  exact (conj Hk (conj He (conj H1 (conj H3
           (conj Hn (H9 env_eod eq_refl)))))).
Defined.

(** ** The store *)

Section StoreRules.

#[export] Instance store_grows_preorder : PreOrder store_grows.
Proof.
  split.
  - intros s Hf. split; [exact Hf |]. split; [reflexivity |].
    split; [lia |]. split; [reflexivity |]. intros tid H. exact H.
  - intros a b c Hab Hbc Hf.
    destruct (Hab Hf) as (Hfb & D1 & N1 & P1 & C1).
    destruct (Hbc Hfb) as (Hfc & D2 & N2 & P2 & C2).
    split; [exact Hfc |]. split; [etransitivity; eassumption |].
    split; [lia |]. split; [etransitivity; eassumption |].
    intros tid H. apply C2, C1, H.
Qed.

#[export] Instance store_steady_preorder : PreOrder store_steady.
Proof.
  split.
  - intros s. split; [reflexivity | split; reflexivity].
  - intros a b c (G1 & D1 & N1) (G2 & D2 & N2).
    split; [etransitivity; eassumption |]. split; congruence.
Qed.

Lemma steady_grows (s s' : State) : store_steady s s' -> store_grows s s'.
Proof. intros [H _]. exact H. Qed.

Lemma steady_same (s s' : State) : db s' = db s -> store_steady s s'.
Proof.
  intros H. split; [| rewrite H; split; reflexivity].
  intros Hf. rewrite H. split; [exact Hf |]. split; [reflexivity |].
  split; [lia |]. split; [reflexivity |]. intros tid Hc. exact Hc.
Qed.

(** An update that leaves a CLOSED row closed. *)
Lemma steady_update (tid : Z) (f : TradeRow -> TradeRow) (s : State) :
  (forall r, row_status r = "CLOSED"%string ->
             row_status (f r) = "CLOSED"%string) ->
  store_steady s (set_db (update_trade tid f) s).
Proof.
  intros Hf. split; [| simpl; split; [apply dom_alter_L | reflexivity]].
  intros Hfr. simpl. split.
  { intros k Hk. simpl in Hk. rewrite dom_alter_L in Hk. apply Hfr, Hk. }
  split; [rewrite dom_alter_L; reflexivity |]. split; [lia |].
  split; [reflexivity |].
  intros t Hc. destruct (decide (t = tid)) as [-> | Hne].
  - rewrite lookup_alter_eq.
    destruct (trades (db s) !! tid) as [r |]; simpl in *; [| exact Hc].
    injection Hc as Hc. rewrite (Hf r Hc). reflexivity.
  - rewrite lookup_alter_ne by congruence. exact Hc.
Qed.

Lemma steady_adjustment (a : AdjustmentRecord) (s : State) :
  store_steady s (set_db (insert_adjustment a) s).
Proof.
  split; [| split; reflexivity].
  intros Hf. simpl. split; [exact Hf |]. split; [reflexivity |].
  split; [lia |]. split; [apply prefix_app_r; reflexivity |].
  intros tid Hc. exact Hc.
Qed.

(** A new row goes under the next id: no row is replaced. *)
Lemma grows_insert (row : TradeRow) (s : State) :
  store_grows s (set_db (fun d => (insert_trade row d).2) s).
Proof.
  intros Hf. simpl. split.
  { intros k Hk. simpl in *. rewrite dom_insert_L in Hk.
    apply elem_of_union in Hk. destruct Hk as [Hk | Hk].
    - apply elem_of_singleton in Hk. lia.
    - specialize (Hf k Hk). lia. }
  split; [rewrite dom_insert_L; apply union_subseteq_r |].
  split; [lia |]. split; [reflexivity |].
  intros tid Hc.
  rewrite lookup_insert_ne; [exact Hc |].
  intros <-.
  assert (Hin : next_trade_id (db s) ∈ dom (trades (db s))).
  { apply elem_of_dom.
    destruct (trades (db s) !! next_trade_id (db s)); [eauto |].
    discriminate Hc. }
  specialize (Hf _ Hin). lia.
Qed.

End StoreRules.

Ltac steady_leaf :=
  first
    [ apply steady_same; reflexivity
    | apply steady_adjustment
    | apply steady_update; intros ? ?; first [reflexivity | assumption] ].

Ltac grows_leaf :=
  first
    [ apply grows_insert
    | apply steady_grows; steady_leaf ].

Ltac store_step leaf :=
  match goal with
  | |- steps _ (@mret Run _ _ _) => apply steps_ret; typeclasses eauto
  | |- steps _ get => apply steps_get; typeclasses eauto
  | |- steps _ (lift_num _) => apply steps_lift_num; typeclasses eauto
  | |- steps _ (lift_key _) => apply steps_lift_key; typeclasses eauto
  | |- steps _ (with_lock _) =>
      apply steps_with_lock; [typeclasses eauto | intros ? ?; leaf |]
  | |- steps _ (for_each _ _) =>
      apply steps_for_each; [typeclasses eauto | intros ?]
  | |- steps _ (@mbind Run _ _ _ _ _) =>
      apply steps_bind; [typeclasses eauto | | intros ?; cbv beta]
  | |- steps _ (modify _) => apply steps_modify; intros ?; leaf
  | |- steps _ (if ?c then _ else _) => destruct c
  | |- steps _ (match ?x with _ => _ end) => destruct x
  end.

Section StoreFacts.
Context (M : MathLib) (C : Config) (E : Env).

Lemma close_position_store (tid : Z) (reason : string) :
  steps store_steady (close_position E tid reason).
Proof.
  unfold close_position. cbv zeta. repeat store_step steady_leaf.
Qed.

Lemma close_each_store (ids : list Z) (reason : string) (total : Q) :
  steps store_steady (close_each E ids reason total).
Proof.
  revert total. induction ids as [| tid ids IH]; intros total; simpl.
  - apply steps_ret. typeclasses eauto.
  - apply steps_bind; [typeclasses eauto | apply close_position_store |].
    intros p. apply IH.
Qed.

Lemma close_all_positions_store (reason : string) :
  steps store_steady (close_all_positions E reason).
Proof.
  unfold close_all_positions.
  apply steps_bind; [typeclasses eauto | apply steps_get; typeclasses eauto |].
  intros s. apply close_each_store.
Qed.

Lemma reset_day_store : steps store_steady (reset_day E).
Proof.
  unfold reset_day, _force_close_trade.
  repeat first [apply close_position_store | store_step steady_leaf].
Qed.

Lemma check_entry_store : steps store_steady (check_entry E).
Proof. unfold check_entry. cbv zeta. repeat store_step steady_leaf. Qed.

Lemma record_adjustment_store
    (tid level : Z) (action : AdjAction) (why : AdjReason) (sp pnl_ : Q) :
  steps store_steady (_record_adjustment E tid level action why sp pnl_).
Proof. unfold _record_adjustment. repeat store_step steady_leaf. Qed.

Lemma roll_leg_store (tid : Z) (idx : nat) (old_pos : Position) (sp : Q) :
  steps store_steady (_roll_leg M E tid idx old_pos sp).
Proof. unfold _roll_leg. cbv zeta. repeat store_step steady_leaf. Qed.

Lemma roll_untested_leg_store (tid : Z) (sp : Q) :
  steps store_steady (_roll_untested_leg M E tid sp).
Proof.
  unfold _roll_untested_leg. cbv zeta.
  apply steps_bind; [typeclasses eauto | apply steps_get; typeclasses eauto |].
  intros s.
  apply steps_bind;
    [typeclasses eauto | apply steps_lift_key; typeclasses eauto |].
  intros positions.
  destruct (first_max _ _) as [[idx untested] |];
    [apply roll_leg_store | apply steps_ret; typeclasses eauto].
Qed.

Lemma update_position_prices_store (tid : Z) (sp : Q) :
  steps store_steady (_update_position_prices M E tid sp).
Proof.
  unfold _update_position_prices. cbv zeta. repeat store_step steady_leaf.
Qed.

Lemma check_expiry_targets_store (tid : Z) :
  steps store_steady (_check_expiry_targets C E tid).
Proof.
  unfold _check_expiry_targets. cbv zeta.
  repeat first [apply close_position_store | store_step steady_leaf].
Qed.

Lemma adjust_positions_store (tid : Z) (ospot : option Q) :
  steps store_steady (adjust_positions M C E tid ospot).
Proof.
  unfold adjust_positions. cbv zeta.
  repeat first
    [ apply close_position_store
    | apply record_adjustment_store
    | apply roll_leg_store
    | apply roll_untested_leg_store
    | store_step steady_leaf ].
Qed.

Lemma monitor_positions_store : steps store_steady (monitor_positions M C E).
Proof.
  unfold monitor_positions. cbv zeta.
  repeat first
    [ apply update_position_prices_store
    | apply adjust_positions_store
    | apply check_expiry_targets_store
    | store_step steady_leaf ].
Qed.

Lemma open_position_grows (strategy_type : string) :
  steps store_grows (open_position M C E strategy_type).
Proof.
  unfold open_position. cbv zeta.
  apply steps_bind; [typeclasses eauto | |].
  - apply (steps_weaken store_steady); [apply steady_grows |].
    apply check_entry_store.
  - intros ok. repeat store_step grows_leaf.
Qed.

(** X29: no operation loses or reopens what the store holds.  With the
    trade ids of the store below its next id, after any operation, however
    it ends, every row that was in the store is still there, a row that was
    CLOSED is still CLOSED, the adjustments recorded before are still there
    in the same order with any new one appended, and the ids stay below the
    next id.  Only [open_position] adds a row: after any other operation
    the set of trade ids and the next id are what they were. *)
Theorem store_rows_never_lost (op : Op) (s : State) :
  store_fresh (db s) ->
  let s' := after M C E op s in
  store_fresh (db s')
  /\ dom (trades (db s)) ⊆ dom (trades (db s'))
  /\ (forall tid : Z,
        row_status <$> trades (db s) !! tid = Some "CLOSED"%string ->
        row_status <$> trades (db s') !! tid = Some "CLOSED"%string)
  /\ adjustments (db s) `prefix_of` adjustments (db s')
  /\ ((forall st, op <> OpOpen st) ->
      dom (trades (db s')) = dom (trades (db s))
      /\ next_trade_id (db s') = next_trade_id (db s)).
Proof.
  intros Hf. cbv zeta.
  assert (Hsteady : forall s' : State,
            store_steady s s' ->
            store_fresh (db s')
            /\ dom (trades (db s)) ⊆ dom (trades (db s'))
            /\ (forall tid : Z,
                  row_status <$> trades (db s) !! tid
                  = Some "CLOSED"%string ->
                  row_status <$> trades (db s') !! tid
                  = Some "CLOSED"%string)
            /\ adjustments (db s) `prefix_of` adjustments (db s')
            /\ ((forall st, op <> OpOpen st) ->
                dom (trades (db s')) = dom (trades (db s))
                /\ next_trade_id (db s') = next_trade_id (db s))).
  { intros s' (Hg & Hd & Hn).
    destruct (Hg Hf) as (Hf' & D & _ & P & Cl).
    do 4 (split; [assumption |]). intros _. split; assumption. }
  destruct op; unfold after.
  - apply Hsteady, steady_same. reflexivity.
  - apply Hsteady, steady_same. reflexivity.
  - apply Hsteady, reset_day_store.
  - apply Hsteady, check_entry_store.
  - destruct (open_position_grows strategy_type s Hf)
      as (Hf' & D & _ & P & Cl).
    do 4 (split; [assumption |]).
    intros Hno. exfalso. exact (Hno strategy_type eq_refl).
  - apply Hsteady, monitor_positions_store.
  - apply Hsteady, adjust_positions_store.
  - apply Hsteady, close_position_store.
  - apply Hsteady, close_all_positions_store.
Qed.

End StoreFacts.

Lemma store_rows_never_lost_witness :
  store_fresh (db one_open)
  /\ store_fresh
       (db (after linear_math example_config env_tick OpMonitor one_open))
  /\ dom (trades (db one_open))
     ⊆ dom (trades
              (db (after linear_math example_config env_tick OpMonitor
                     one_open))).
Proof.
  assert (Hf : store_fresh (db one_open)).
  { intros k Hk. simpl in Hk. rewrite dom_singleton_L in Hk.
    apply elem_of_singleton in Hk. subst k. reflexivity. }
  destruct (store_rows_never_lost linear_math example_config env_tick
              OpMonitor one_open Hf) as (H1 & H2 & _).
  exact (conj Hf (conj H1 H2)).
Defined.
